(** * The CoLRev package registry (colrev/env/package_manager.py)

    A shallow embedding of [PackageManager] and of [Prescreen.main]
    (colrev/ops/prescreen.py), with the properties of the registry stated
    and proved over it.

    Conventions of the embedding:
    - a Python [dict] is an association list in insertion order with the
      dictionary operations [dict_get], [dict_set], [dict_del];
    - Python exceptions are the constructors of [exn]; a call that may raise
      returns a [result];
    - code that prints, changes [sys.path] or allocates objects runs in the
      state-and-exception monad [M];
    - what the interpreter and the libraries provide ([importlib], the file
      system, [json], [zope.interface], the endpoint constructors) is a
      field of the class [World]. *)

From Stdlib Require Import String Ascii ZArith Bool Lia.
From stdpp Require Import base option list strings.

Open Scope string_scope.

(** ** Strings *)

(** A string holds one character per [ascii]: text with the code points
    below U+0100. *)

Module PyStr.

(** [c.isupper()]: A to Z, and U+00C0 to U+00DE without the
    multiplication sign U+00D7. *)
Definition is_upper (c : ascii) : bool :=
  let n := nat_of_ascii c in
  ((65 <=? n)%nat && (n <=? 90)%nat)
  || ((192 <=? n)%nat && (n <=? 222)%nat && negb (n =? 215)%nat).

(** [c.islower()]: a to z, the ordinal indicators U+00AA and U+00BA, the
    micro sign U+00B5, and U+00DF to U+00FF without the division sign
    U+00F7. *)
Definition is_lower (c : ascii) : bool :=
  let n := nat_of_ascii c in
  ((97 <=? n)%nat && (n <=? 122)%nat)
  || (n =? 170)%nat || (n =? 181)%nat || (n =? 186)%nat
  || ((223 <=? n)%nat && negb (n =? 247)%nat).

(** [c.lower()]: every upper-case character below U+0100 has its
    lower-case form 32 code points further. *)
Definition lower_char (c : ascii) : ascii :=
  if is_upper c then ascii_of_nat (nat_of_ascii c + 32) else c.

(** [str.lower()] *)
Fixpoint lower (s : string) : string :=
  match s with
  | EmptyString => EmptyString
  | String c r => String (lower_char c) (lower r)
  end.

Fixpoint has_upper (s : string) : bool :=
  match s with
  | EmptyString => false
  | String c r => is_upper c || has_upper r
  end.

Fixpoint has_lower (s : string) : bool :=
  match s with
  | EmptyString => false
  | String c r => is_lower c || has_lower r
  end.

(** [str.islower()]: at least one cased character and none of them
    uppercase. *)
Definition islower (s : string) : bool := has_lower s && negb (has_upper s).

(** [needle in s] for two strings. *)
Fixpoint contains (needle s : string) : bool :=
  String.prefix needle s ||
  match s with
  | EmptyString => false
  | String _ r => contains needle r
  end.

(** The split of [s] at the last occurrence of [sep], if there is one. *)
Fixpoint rsplit_last (sep : ascii) (s : string) : option (string * string) :=
  match s with
  | EmptyString => None
  | String c r =>
      match rsplit_last sep r with
      | Some (a, b) => Some (String c a, b)
      | None => if Ascii.eqb c sep then Some (EmptyString, r) else None
      end
  end.

(** [s.rsplit(sep, 1)] *)
Definition rsplit1 (sep : ascii) (s : string) : list string :=
  match rsplit_last sep s with
  | Some (a, b) => [a; b]
  | None => [s]
  end.

(** [s.split(sep)] for a one-character separator. *)
Fixpoint split (sep : ascii) (s : string) : list string :=
  match s with
  | EmptyString => [EmptyString]
  | String c r =>
      if Ascii.eqb c sep then EmptyString :: split sep r
      else match split sep r with
           | h :: t => String c h :: t
           | [] => [String c EmptyString]
           end
  end.

End PyStr.

(** ** Exceptions and results *)

Inductive exn : Type :=
| CoLRevException (msg : string)
| MissingDependencyError (msg : string)
| AttributeError
| ModuleNotFoundError
| KeyError (key : string)
| TypeError
| ValueError
| AssertionError
| RuntimeError
| OtherError (name : string).

Inductive result (A : Type) : Type :=
| Ok (a : A)
| Raise (e : exn).
Arguments Ok {A} a.
Arguments Raise {A} e.

Definition rbind {A B} (r : result A) (k : A -> result B) : result B :=
  match r with
  | Ok a => k a
  | Raise e => Raise e
  end.

Declare Scope res_scope.
Delimit Scope res_scope with res.
Notation "'let?' x := r 'in' k" := (rbind r (fun x => k))
  (at level 10, x pattern, r at level 100, k at level 200) : res_scope.
Open Scope res_scope.

(** ** Dictionaries

    Insertion-ordered, as Python's: [dict_set] overwrites the value of a
    key in place and appends a new key at the end. *)

Section Dict.
Context {K V : Type} `{EqDecision K}.

Fixpoint dict_get (k : K) (d : list (K * V)) : option V :=
  match d with
  | [] => None
  | (k', v) :: r => if decide (k' = k) then Some v else dict_get k r
  end.

Fixpoint dict_set (k : K) (v : V) (d : list (K * V)) : list (K * V) :=
  match d with
  | [] => [(k, v)]
  | (k', v') :: r =>
      if decide (k' = k) then (k', v) :: r else (k', v') :: dict_set k v r
  end.

Fixpoint dict_del (k : K) (d : list (K * V)) : list (K * V) :=
  match d with
  | [] => []
  | (k', v') :: r => if decide (k' = k) then r else (k', v') :: dict_del k r
  end.

(** [k in d] *)
Definition dict_mem (k : K) (d : list (K * V)) : bool :=
  match dict_get k d with Some _ => true | None => false end.

Definition dict_keys (d : list (K * V)) : list K := map fst d.

End Dict.

(** ** Python values: what [json.loads] returns and what settings hold.
    Numbers are kept as integers; no code path below inspects them. *)

#[warnings="-register-all"]
Inductive pyval : Type :=
| VNone
| VBool (b : bool)
| VInt (z : Z)
| VStr (s : string)
| VList (l : list pyval)
| VDict (d : list (string * pyval)).

Module Py.

(** [v[key]] for a string key. *)
Definition getitem (v : pyval) (key : string) : result pyval :=
  match v with
  | VDict d =>
      match dict_get key d with
      | Some x => Ok x
      | None => Raise (KeyError key)
      end
  | _ => Raise TypeError
  end.

(** [v[key] = x] for a string key. *)
Definition setitem (v : pyval) (key : string) (x : pyval) : result pyval :=
  match v with
  | VDict d => Ok (VDict (dict_set key x d))
  | _ => Raise TypeError
  end.

(** [s in v] for a string [s]. *)
Definition contains (s : string) (v : pyval) : result bool :=
  match v with
  | VStr t => Ok (PyStr.contains s t)
  | VDict d => Ok (dict_mem s d)
  | VList l =>
      Ok (existsb (fun x => match x with VStr t => String.eqb t s | _ => false end) l)
  | _ => Raise TypeError
  end.

(** Truth value of an object. *)
Definition truthy (v : pyval) : bool :=
  match v with
  | VNone => false
  | VBool b => b
  | VInt z => negb (Z.eqb z 0)
  | VStr s => negb (String.eqb s EmptyString)
  | VList l => match l with [] => false | _ => true end
  | VDict d => match d with [] => false | _ => true end
  end.

(** [v.lower()] *)
Definition lower (v : pyval) : result string :=
  match v with
  | VStr s => Ok (PyStr.lower s)
  | _ => Raise AttributeError
  end.

(** [v.rsplit(".", 1)] *)
Definition rsplit1_dot (v : pyval) : result (list string) :=
  match v with
  | VStr s => Ok (PyStr.rsplit1 "."%char s)
  | _ => Raise AttributeError
  end.

(** [v.items()] *)
Definition items (v : pyval) : result (list (string * pyval)) :=
  match v with
  | VDict d => Ok d
  | _ => Raise AttributeError
  end.

End Py.

(** ** The package types *)

Inductive PackageEndpointType : Type :=
| review_type
| load_conversion
| search_source
| prep
| prep_man
| dedupe
| prescreen
| pdf_get
| pdf_get_man
| pdf_prep
| pdf_prep_man
| screen
| data.

#[global] Instance PackageEndpointType_eq_dec : EqDecision PackageEndpointType.
Proof. solve_decision. Defined.

Module EndpointType.

(** The members in definition order, which is the order in which
    iterating the [Enum] yields them. *)
Definition members : list PackageEndpointType :=
  [review_type; load_conversion; search_source; prep; prep_man; dedupe;
   prescreen; pdf_get; pdf_get_man; pdf_prep; pdf_prep_man; screen; data].

Definition name (t : PackageEndpointType) : string :=
  match t with
  | review_type => "review_type"
  | load_conversion => "load_conversion"
  | search_source => "search_source"
  | prep => "prep"
  | prep_man => "prep_man"
  | dedupe => "dedupe"
  | prescreen => "prescreen"
  | pdf_get => "pdf_get"
  | pdf_get_man => "pdf_get_man"
  | pdf_prep => "pdf_prep"
  | pdf_prep_man => "pdf_prep_man"
  | screen => "screen"
  | data => "data"
  end.

(** [PackageEndpointType[key]] *)
Definition of_name (key : string) : result PackageEndpointType :=
  match find (fun t => String.eqb (name t) key) members with
  | Some t => Ok t
  | None => Raise (KeyError key)
  end.

(** [str(t)], as an f-string renders a member. *)
Definition str (t : PackageEndpointType) : string :=
  "PackageEndpointType." +:+ name t.

(** [s == t] for a string [s]: the enum has no [str] mixin, so a member
    never equals a string. *)
Definition eq_str (s : string) (t : PackageEndpointType) : bool := false.

(** Position of a member in the definition order. *)
Fixpoint index_in (t : PackageEndpointType) (l : list PackageEndpointType) : nat :=
  match l with
  | [] => 0
  | t' :: r => if decide (t' = t) then 0 else S (index_in t r)
  end.

Definition position (t : PackageEndpointType) : nat := index_in t members.

(** The stages of the review pipeline named by the specification, the
    manual variants and the set-up types left out. *)
Definition is_pipeline_stage (t : PackageEndpointType) : bool :=
  match t with
  | prep | prescreen | dedupe | pdf_get | pdf_prep | screen | data => true
  | _ => false
  end.

Definition pipeline_stages : list PackageEndpointType :=
  filter (fun t => is_pipeline_stage t = true) members.

End EndpointType.

(** ** Objects the registry hands around *)

(** An attribute of an imported module: a class (or any other object),
    known by its name and its [__doc__]. *)
Record pyobject : Type := { obj_name : string; obj_doc : pyval }.

(** An imported module, with [getattr] over its attributes. *)
Record pymodule : Type := { mod_name : string; mod_attrs : list (string * pyobject) }.

Definition getattr (m : pymodule) (attr : string) : result pyobject :=
  match dict_get attr (mod_attrs m) with
  | Some o => Ok o
  | None => Raise AttributeError
  end.

(** The zope interfaces of the package types. *)
Inductive interface : Type :=
| ReviewTypePackageInterface
| LoadConversionPackageInterface
| SearchSourcePackageInterface
| PrepPackageInterface
| PrepManPackageInterface
| DedupePackageInterface
| PrescreenPackageInterface
| PDFGetPackageInterface
| PDFGetManPackageInterface
| PDFPrepPackageInterface
| PDFPrepManPackageInterface
| ScreenPackageInterface
| DataPackageInterface.

(** ** The object store

    [load_packages] is handed a list object and the settings objects in it
    by reference. List objects and other objects live in two arrays; a
    reference is an index. *)

Definition ref := nat.

Record pystate : Type := {
  st_lists : list (list ref);   (* list objects: references to their items *)
  st_objs : list pyval;         (* settings and other objects *)
  sys_path : list string;       (* sys.path *)
  stdout : list string;         (* lines printed *)
}.

(** Reading through a reference; a reference to nothing reads as an empty
    list, resp. as [None]. *)
Definition list_at (s : pystate) (r : ref) : list ref := default [] (st_lists s !! r).
Definition obj_at (s : pystate) (r : ref) : pyval := default VNone (st_objs s !! r).

(** ** The environment: the interpreter and the libraries *)

Class World : Type := {
  (** [colrev.env.utils.get_package_file_content(file_path)] *)
  get_package_file_content : string -> option string;
  (** [json.loads(filedata.decode("utf-8"))] *)
  json_loads : string -> result pyval;
  (** [importlib.import_module(name, package)] under the given [sys.path] *)
  import_module : list string -> string -> option string -> result pymodule;
  (** [Path(p).is_file()] *)
  is_file : string -> bool;
  (** the operation objects and the endpoint instances *)
  operation : Type;
  endpoint_instance : Type;
  (** the call of an endpoint class with keyword arguments [params]; an
      argument is an operation or a reference to a settings object *)
  construct : pyobject -> list (string * (operation + ref)) -> pystate ->
              result endpoint_instance * pystate;
  (** [zope.interface.verify.verifyObject(iface, candidate)] *)
  verifyObject : interface -> endpoint_instance -> result unit;
}.

(** ** PackageManager *)

Record package_type_details : Type := {
  import_name : interface;
  custom_class : string;
  operation_name : string;
}.

(** [PackageManager.packages]: type -> identifier -> metadata. *)
Definition registry : Type := list (PackageEndpointType * list (string * pyval)).

Record PackageManager : Type := { packages : registry }.

Module PM.

Definition package_type_overview : list (PackageEndpointType * package_type_details) :=
  [ (review_type, {| import_name := ReviewTypePackageInterface;
                     custom_class := "CustomReviewType";
                     operation_name := "operation" |});
    (load_conversion, {| import_name := LoadConversionPackageInterface;
                         custom_class := "CustomLoad";
                         operation_name := "load_operation" |});
    (search_source, {| import_name := SearchSourcePackageInterface;
                       custom_class := "CustomSearchSource";
                       operation_name := "source_operation" |});
    (prep, {| import_name := PrepPackageInterface;
              custom_class := "CustomPrep";
              operation_name := "prep_operation" |});
    (prep_man, {| import_name := PrepManPackageInterface;
                  custom_class := "CustomPrepMan";
                  operation_name := "prep_man_operation" |});
    (dedupe, {| import_name := DedupePackageInterface;
                custom_class := "CustomDedupe";
                operation_name := "dedupe_operation" |});
    (prescreen, {| import_name := PrescreenPackageInterface;
                   custom_class := "CustomPrescreen";
                   operation_name := "prescreen_operation" |});
    (pdf_get, {| import_name := PDFGetPackageInterface;
                 custom_class := "CustomPDFGet";
                 operation_name := "pdf_get_operation" |});
    (pdf_get_man, {| import_name := PDFGetManPackageInterface;
                     custom_class := "CustomPDFGetMan";
                     operation_name := "pdf_get_man_operation" |});
    (pdf_prep, {| import_name := PDFPrepPackageInterface;
                  custom_class := "CustomPDFPrep";
                  operation_name := "pdf_prep_operation" |});
    (pdf_prep_man, {| import_name := PDFPrepManPackageInterface;
                      custom_class := "CustomPDFPrepMan";
                      operation_name := "pdf_prep_man_operation" |});
    (screen, {| import_name := ScreenPackageInterface;
                custom_class := "CustomScreen";
                operation_name := "screen_operation" |});
    (data, {| import_name := DataPackageInterface;
              custom_class := "CustomData";
              operation_name := "data_operation" |}) ].

(** The assertions on the entries of one package type. *)
Fixpoint check_entries (value : list (string * pyval)) : result unit :=
  match value with
  | [] => Ok tt
  | (package_identifier, package_path) :: rest =>
      if PyStr.contains " " package_identifier then Raise AssertionError
      else
        let? space_in_path := Py.contains " " package_path in
        if space_in_path : bool then Raise AssertionError
        else if negb (PyStr.islower package_identifier) then Raise AssertionError
        else check_entries rest
  end.

(** The loop of [load_package_endpoints_index] over the items of the
    parsed index. The source stores [value] under the type before it
    iterates [value.items()]; an exception discards [packages] either way. *)
Fixpoint index_loop (items : list (string * pyval)) (packages : registry)
  : result registry :=
  match items with
  | [] => Ok packages
  | (key, value) :: rest =>
      let? t := EndpointType.of_name key in
      let? entries := Py.items value in
      let? _ := check_entries entries in
      index_loop rest (dict_set t entries packages)
  end.

Definition load_package_endpoints_index `{World} : result registry :=
  match get_package_file_content "template/package_endpoints.json" with
  | None | Some EmptyString =>
      Raise (CoLRevException
               "Package index not available (colrev/template/package_endpoints.json)")
  | Some filedata =>
      let? package_dict := json_loads filedata in
      let? items := Py.items package_dict in
      index_loop items []
  end.

(** [self.packages[package_type]] *)
Definition packages_of (self : PackageManager) (t : PackageEndpointType)
  : result (list (string * pyval)) :=
  match dict_get t (packages self) with
  | Some d => Ok d
  | None => Raise (KeyError (EndpointType.str t))
  end.

Definition load_package_endpoint `{World} (self : PackageManager)
    (path : list string) (package_type : PackageEndpointType)
    (package_identifier : string) : result pyobject :=
  let package_identifier := PyStr.lower package_identifier in
  let? registered := packages_of self package_type in
  match dict_get package_identifier registered with
  | None =>
      Raise (MissingDependencyError
               (package_identifier +:+ " (" +:+ EndpointType.str package_type
                  +:+ ") not available"))
  | Some metadata =>
      let? package_str := Py.getitem metadata "endpoint" in
      let? parts := Py.rsplit1_dot package_str in
      let package_module := List.hd EmptyString parts in
      let package_class := List.last parts EmptyString in
      let? imported_package := import_module path package_module None in
      getattr imported_package package_class
  end.

(** The exceptions that [except (AttributeError, ModuleNotFoundError)]
    catches. *)
Definition not_installed_error (e : exn) : bool :=
  match e with
  | AttributeError | ModuleNotFoundError => true
  | _ => false
  end.

(** [self.packages[t][id][key] = x] *)
Definition set_metadata (self : PackageManager) (t : PackageEndpointType)
    (id key : string) (x : pyval) : result PackageManager :=
  let? d := packages_of self t in
  match dict_get id d with
  | None => Raise (KeyError id)
  | Some metadata =>
      let? metadata' := Py.setitem metadata key x in
      Ok {| packages := dict_set t (dict_set id metadata' d) (packages self) |}
  end.

(** The inner loop of [__flag_installed_packages], over the identifiers
    of one package type; [discovered_package] is the object
    [self.packages[package_type][package_identifier]]. The assignment of
    the flag is inside the [try] of the source; what it can raise
    ([KeyError], [TypeError]) is not caught there. *)
Fixpoint flag_identifiers `{World} (path : list string)
    (package_type : PackageEndpointType) (identifiers : list string)
    (self : PackageManager) : result PackageManager :=
  match identifiers with
  | [] => Ok self
  | package_identifier :: rest =>
      match load_package_endpoint self path package_type package_identifier with
      | Ok _ =>
          let? self' := set_metadata self package_type package_identifier
                          "installed" (VBool true) in
          flag_identifiers path package_type rest self'
      | Raise e =>
          if not_installed_error e then
            let? self' := set_metadata self package_type package_identifier
                            "installed" (VBool false) in
            flag_identifiers path package_type rest self'
          else Raise e
      end
  end.

Fixpoint flag_types `{World} (path : list string)
    (types : list (PackageEndpointType * list string))
    (self : PackageManager) : result PackageManager :=
  match types with
  | [] => Ok self
  | (package_type, identifiers) :: rest =>
      let? self' := flag_identifiers path package_type identifiers self in
      flag_types path rest self'
  end.

Definition flag_installed_packages `{World} (path : list string)
    (self : PackageManager) : result PackageManager :=
  flag_types path (map (fun '(t, d) => (t, dict_keys d)) (packages self)) self.

(** [PackageManager()], run with the given [sys.path]. *)
Definition init `{World} (path : list string) : result PackageManager :=
  let? packages := load_package_endpoints_index in
  flag_installed_packages path {| packages := packages |}.

(** [installed_only and not package["installed"]] *)
Definition skips (installed_only : bool) (package : pyval) : result bool :=
  if installed_only then
    let? installed := Py.getitem package "installed" in
    Ok (negb (Py.truthy installed))
  else Ok false.

(** The body of the loop of [discover_packages]; [package] is the object
    [discovered_packages[package_identifier]], so that assigning it to
    that key changes nothing. *)
Definition discover_entry `{World} (path : list string)
    (package_type : PackageEndpointType) (installed_only : bool)
    (package_identifier : string) (self : PackageManager)
  : result PackageManager :=
  let? discovered_packages := packages_of self package_type in
  let? package :=
    match dict_get package_identifier discovered_packages with
    | Some p => Ok p
    | None => Raise (KeyError package_identifier)
    end in
  let? skip := skips installed_only package in
  if skip : bool then Ok self
  else
    let? package_class :=
      load_package_endpoint self path package_type package_identifier in
    let? self1 := set_metadata self package_type package_identifier
                    "description" (obj_doc package_class) in
    let? installed := Py.getitem package "installed" in
    set_metadata self1 package_type package_identifier "installed" installed.

Fixpoint discover_loop `{World} (path : list string)
    (package_type : PackageEndpointType) (installed_only : bool)
    (identifiers : list string) (self : PackageManager)
  : result PackageManager :=
  match identifiers with
  | [] => Ok self
  | package_identifier :: rest =>
      let? self' := discover_entry path package_type installed_only
                      package_identifier self in
      discover_loop path package_type installed_only rest self'
  end.

(** Returns the dictionary together with the manager, whose registry
    holds that same dictionary object under [package_type]. *)
Definition discover_packages `{World} (self : PackageManager)
    (path : list string) (package_type : PackageEndpointType)
    (installed_only : bool)
  : result (list (string * pyval) * PackageManager) :=
  let? discovered_packages := packages_of self package_type in
  let? self' := discover_loop path package_type installed_only
                  (dict_keys discovered_packages) self in
  let? d := packages_of self' package_type in
  Ok (d, self').

End PM.

(** ** The state-and-exception monad *)

Definition M (S A : Type) : Type := S -> result A * S.

Definition ret {S A} (a : A) : M S A := fun s => (Ok a, s).
Definition raise {S A} (e : exn) : M S A := fun s => (Raise e, s).
Definition lift {S A} (r : result A) : M S A := fun s => (r, s).

Definition bind {S A B} (m : M S A) (k : A -> M S B) : M S B :=
  fun s =>
    match m s with
    | (Ok a, s') => k a s'
    | (Raise e, s') => (Raise e, s')
    end.

Declare Scope m_scope.
Delimit Scope m_scope with M.
Notation "'do' x <- m ; k" := (bind m (fun x => k))
  (at level 10, x pattern, m at level 100, k at level 200) : m_scope.

(** [print(msg)] *)
Definition print (msg : string) : M pystate unit :=
  fun s => (Ok tt, {| st_lists := st_lists s; st_objs := st_objs s;
                      sys_path := sys_path s; stdout := (stdout s ++ [msg])%list |}).

(** [sys.path.append(p)] *)
Definition sys_path_append (p : string) : M pystate unit :=
  fun s => (Ok tt, {| st_lists := st_lists s; st_objs := st_objs s;
                      sys_path := (sys_path s ++ [p])%list; stdout := stdout s |}).

Definition get_sys_path : M pystate (list string) := fun s => (Ok (sys_path s), s).

Definition read_obj (r : ref) : M pystate pyval := fun s => (Ok (obj_at s r), s).

(** Allocation of a new object, resp. of a new list object. *)
Definition alloc_obj (v : pyval) (s : pystate) : ref * pystate :=
  (length (st_objs s),
   {| st_lists := st_lists s; st_objs := (st_objs s ++ [v])%list;
      sys_path := sys_path s; stdout := stdout s |}).

Definition alloc_list (items : list ref) (s : pystate) : ref * pystate :=
  (length (st_lists s),
   {| st_lists := (st_lists s ++ [items])%list; st_objs := st_objs s;
      sys_path := sys_path s; stdout := stdout s |}).

(** [copy.deepcopy] of the items of a list, read in the store [s0] as it
    is when the copy starts: an item met a second time is not copied again
    (the memo of [deepcopy]). *)
Fixpoint deepcopy_items (s0 : pystate) (items : list ref) (memo : list (ref * ref))
    (s : pystate) : list ref * pystate :=
  match items with
  | [] => ([], s)
  | r :: rest =>
      match dict_get r memo with
      | Some r' =>
          let (copies, s') := deepcopy_items s0 rest memo s in (r' :: copies, s')
      | None =>
          let (r', s1) := alloc_obj (obj_at s0 r) s in
          let (copies, s') := deepcopy_items s0 rest ((r, r') :: memo) s1 in
          (r' :: copies, s')
      end
  end.

(** [deepcopy(selected_packages)] of a list object. *)
Definition deepcopy (selected_packages : ref) : M pystate ref :=
  fun s =>
    let (copies, s1) := deepcopy_items s (list_at s selected_packages) [] s in
    let (l, s2) := alloc_list copies s1 in
    (Ok l, s2).

(** ** Loading packages *)

(** What [packages_dict[identifier]["endpoint"]] holds: a class from the
    registry, or an imported module before its custom class is taken. *)
Inductive endpoint_value : Type :=
| EndpointClass (c : pyobject)
| EndpointModule (m : pymodule).

(** The dictionary [packages_dict[identifier]], with the keys [settings]
    (always set), [endpoint] and [custom_flag] (present or not). *)
Record package_entry : Type := {
  entry_settings : ref;
  entry_endpoint : option endpoint_value;
  entry_custom_flag : bool;
}.

(** A value of the dictionary [load_packages] returns. *)
Inductive loaded `{World} : Type :=
| LoadedInstance (i : endpoint_instance)
| LoadedEndpoint (e : endpoint_value).

Module Load.

Open Scope m_scope.

(** The body of the loop of [__get_packages_dict] for one selected
    package; [continue] returns the dictionary as it stands. The flag
    [installed] is read once (the source tests it twice in a row), and
    the last [else] of the source, which needs [is_file] to change its
    answer between two calls, is left out. *)
Definition resolve_package `{World} (self : PackageManager)
    (package_type : PackageEndpointType) (ignore_not_available : bool)
    (selected_package : ref) (packages_dict : list (string * package_entry))
  : M pystate (list (string * package_entry)) :=
  do settings <- read_obj selected_package;
  do endpoint <- lift (Py.getitem settings "endpoint");
  do package_identifier <- lift (Py.lower endpoint);
  let entry := {| entry_settings := selected_package;
                  entry_endpoint := None;
                  entry_custom_flag := false |} in
  let packages_dict := dict_set package_identifier entry packages_dict in
  do registered <- lift (PM.packages_of self package_type);
  match dict_get package_identifier registered with
  | Some metadata =>
      (* 1. built-in packages *)
      do installed <- lift (Py.getitem metadata "installed");
      if negb (Py.truthy installed) then
        do _ <- print ("Cannot load " +:+ package_identifier +:+ " (not installed)");
        ret packages_dict
      else
        do path <- get_sys_path;
        do cls <- lift (PM.load_package_endpoint self path package_type
                          package_identifier);
        ret (dict_set package_identifier
               {| entry_settings := selected_package;
                  entry_endpoint := Some (EndpointClass cls);
                  entry_custom_flag := false |} packages_dict)
  | None =>
      if ignore_not_available then
        raise (MissingDependencyError
                 ("Dependency " +:+ package_identifier +:+ " not available."))
      else if negb (is_file (package_identifier +:+ ".py")) then
        (* 2. module packages *)
        do path <- get_sys_path;
        match import_module path package_identifier None with
        | Ok m =>
            ret (dict_set package_identifier
                   {| entry_settings := selected_package;
                      entry_endpoint := Some (EndpointModule m);
                      entry_custom_flag := true |} packages_dict)
        | Raise ModuleNotFoundError =>
            if ignore_not_available then
              ret (dict_del package_identifier packages_dict)
            else
              raise (MissingDependencyError
                       ("Dependency " +:+ package_identifier +:+ " not found. "
                        +:+ "Please install it" +:+ String "010" "  pip install "
                        +:+ EndpointType.str package_type +:+ " "
                        +:+ package_identifier))
        | Raise e => raise e
        end
      else
        (* 3. custom packages in the directory *)
        do _ <- sys_path_append ".";
        do path <- get_sys_path;
        do m <- lift (import_module path package_identifier (Some "."));
        ret (dict_set package_identifier
               {| entry_settings := selected_package;
                  entry_endpoint := Some (EndpointModule m);
                  entry_custom_flag := true |} packages_dict)
  end.

Fixpoint resolve_loop `{World} (self : PackageManager)
    (package_type : PackageEndpointType) (ignore_not_available : bool)
    (selected_packages : list ref) (packages_dict : list (string * package_entry))
  : M pystate (list (string * package_entry)) :=
  match selected_packages with
  | [] => ret packages_dict
  | selected_package :: rest =>
      do packages_dict' <- resolve_package self package_type ignore_not_available
                             selected_package packages_dict;
      resolve_loop self package_type ignore_not_available rest packages_dict'
  end.

Definition get_packages_dict `{World} (self : PackageManager)
    (selected_packages : ref) (package_type : PackageEndpointType)
    (ignore_not_available : bool) : M pystate (list (string * package_entry)) :=
  do selected_packages <- deepcopy selected_packages;
  fun s => resolve_loop self package_type ignore_not_available
             (list_at s selected_packages) [] s.

(** [getattr(val["endpoint"], name)] *)
Definition getattr_endpoint (e : option endpoint_value) (name : string)
  : result pyobject :=
  match e with
  | None => Raise (KeyError "endpoint")
  | Some (EndpointModule m) => getattr m name
  | Some (EndpointClass _) => Raise AttributeError
  end.

(** The loop of [__drop_broken_packages] over the items of
    [packages_dict]. Popping a key while the dictionary is iterated
    makes the iterator raise [RuntimeError] at its next step. *)
Fixpoint drop_broken_loop (details : package_type_details)
    (ignore_not_available : bool) (items : list (string * package_entry))
    (packages_dict : list (string * package_entry))
  : M pystate (list (string * package_entry)) :=
  match items with
  | [] => ret packages_dict
  | (k, val) :: rest =>
      if negb (entry_custom_flag val) then
        drop_broken_loop details ignore_not_available rest packages_dict
      else
        match getattr_endpoint (entry_endpoint val) (custom_class details) with
        | Ok cls =>
            drop_broken_loop details ignore_not_available rest
              (dict_set k {| entry_settings := entry_settings val;
                             entry_endpoint := Some (EndpointClass cls);
                             entry_custom_flag := false |} packages_dict)
        | Raise AttributeError =>
            if negb ignore_not_available then
              raise (MissingDependencyError ("Dependency " +:+ k +:+ " not available"))
            else
              do _ <- print ("Skipping broken package (" +:+ k +:+ ")");
              raise RuntimeError
        | Raise e => raise e
        end
  end.

Definition drop_broken_packages (packages_dict : list (string * package_entry))
    (package_type : PackageEndpointType) (ignore_not_available : bool)
  : M pystate (list (string * package_entry)) :=
  match dict_get package_type PM.package_type_overview with
  | None => raise (KeyError (EndpointType.str package_type))
  | Some package_details =>
      drop_broken_loop package_details ignore_not_available packages_dict
        packages_dict
  end.

(** The keyword arguments of the constructor call. *)
Definition make_params `{World} (details : package_type_details)
    (package_type : PackageEndpointType) (op : operation) (settings : ref)
  : result (list (string * (operation + ref))) :=
  let params := dict_set "settings" (inr settings)
                  (dict_set (operation_name details) (inl op) []) in
  if EndpointType.eq_str "search_source" package_type then
    match dict_get "check_operation" params with
    | Some _ => Ok (dict_del "check_operation" params)
    | None => Raise (KeyError "check_operation")
    end
  else Ok params.

(** Calling [package_class["endpoint"]] with the keyword arguments. *)
Definition call_endpoint `{World} (e : endpoint_value)
    (params : list (string * (operation + ref))) : M pystate endpoint_instance :=
  match e with
  | EndpointClass cls => construct cls params
  | EndpointModule _ => raise TypeError
  end.

(** The last loop of [load_packages]: every value of [packages_dict] is
    replaced, in place and in order, by the instance or by the class. *)
Fixpoint instantiate_loop `{World} (details : package_type_details)
    (package_type : PackageEndpointType) (op : operation)
    (instantiate_objects : bool) (items : list (string * package_entry))
  : M pystate (list (string * loaded)) :=
  match items with
  | [] => ret []
  | (package_identifier, package_class) :: rest =>
      do params <- lift (make_params details package_type op
                           (entry_settings package_class));
      match entry_endpoint package_class with
      | None =>
          raise (MissingDependencyError (package_identifier +:+ " is not available"))
      | Some endpoint =>
          if instantiate_objects then
            do inst <- call_endpoint endpoint params;
            do _ <- lift (verifyObject (import_name details) inst);
            do rest' <- instantiate_loop details package_type op
                          instantiate_objects rest;
            ret ((package_identifier, LoadedInstance inst) :: rest')
          else
            do rest' <- instantiate_loop details package_type op
                          instantiate_objects rest;
            ret ((package_identifier, LoadedEndpoint endpoint) :: rest')
      end
  end.

Definition load_packages `{World} (self : PackageManager)
    (package_type : PackageEndpointType) (selected_packages : ref)
    (op : operation) (ignore_not_available : bool) (instantiate_objects : bool)
  : M pystate (list (string * loaded)) :=
  match dict_get package_type PM.package_type_overview with
  | None =>
      raise (MissingDependencyError
               ("package_type " +:+ EndpointType.str package_type +:+ " not available"))
  | Some package_details =>
      do packages_dict <- get_packages_dict self selected_packages package_type
                            ignore_not_available;
      do packages_dict <- drop_broken_packages packages_dict package_type
                            ignore_not_available;
      instantiate_loop package_details package_type op instantiate_objects
        packages_dict
  end.

End Load.

(** ** The prescreen operation (colrev/ops/prescreen.py) *)

Module Prescreen.

Open Scope m_scope.

(** What [main] does to the outside, in order. *)
Inductive event {endpoint : Type} : Type :=
| Load_records_dict
| Logger_info_run (endpoint_name : pyval)
| Run_prescreen (e : endpoint) (split : list string).
Arguments event : clear implicits.

(** The collaborators of [Prescreen.main]. *)
Class Env : Type := {
  records : Type;
  endpoint : Type;
  (** [review_manager.dataset.load_records_dict()] *)
  load_records_dict : result records;
  (** [endpoint.run_prescreen(self, records, split)] *)
  run_prescreen : endpoint -> records -> list string -> result records;
}.

(** The fields of the operation that [main] reads. *)
Record operation_state `{Env} : Type := {
  (** [review_manager.settings.prescreen.prescreen_package_endpoints] *)
  settings_endpoints : list pyval;
  (** [self.prescreen_package_endpoints], as [load_packages] returned it *)
  prescreen_package_endpoints : list (string * endpoint);
}.

(** [l.remove(x)] *)
Fixpoint list_remove (x : string) (l : list string) : result (list string) :=
  match l with
  | [] => Raise ValueError
  | y :: r =>
      if String.eqb y x then Ok r
      else let? r' := list_remove x r in Ok (y :: r')
  end.

Definition emit `{Env} (ev : event endpoint) : M (list (event endpoint)) unit :=
  fun trace => (Ok tt, (trace ++ [ev])%list).

(** [d[k]] for a dictionary with string keys and any object [k]. *)
Definition lookup_endpoint `{Env} (d : list (string * endpoint)) (k : pyval)
  : result endpoint :=
  match k with
  | VStr name =>
      match dict_get name d with
      | Some e => Ok e
      | None => Raise (KeyError name)
      end
  | VList _ | VDict _ => Raise TypeError
  | _ => Raise (KeyError EmptyString)
  end.

Fixpoint run_endpoints `{Env} (self : operation_state)
    (selected : list pyval) (recs : records) (split : list string)
  : M (list (event endpoint)) unit :=
  match selected with
  | [] => ret tt
  | prescreen_package_endpoint :: rest =>
      do name <- lift (Py.getitem prescreen_package_endpoint "endpoint");
      do _ <- emit (Logger_info_run name);
      do name' <- lift (Py.getitem prescreen_package_endpoint "endpoint");
      do e <- lift (lookup_endpoint (prescreen_package_endpoints self) name');
      do _ <- emit (Run_prescreen e split);
      do recs' <- lift (run_prescreen e recs split);
      run_endpoints self rest recs' split
  end.

Definition main `{Env} (self : operation_state) (split_str : string)
  : M (list (event endpoint)) unit :=
  do split <-
    (if negb (String.eqb split_str "NA") then
       lift (list_remove EmptyString (PyStr.split ","%char split_str))
     else ret []);
  do _ <- emit Load_records_dict;
  do recs <- lift load_records_dict;
  run_endpoints self (settings_endpoints self) recs split.

End Prescreen.

(** ** Example environments *)

Module Demo.

(** Endpoint instances of the examples: the class they were made from,
    the keyword names of the call and the settings reference. *)
Record demo_instance : Type := {
  inst_class : string;
  inst_keywords : list string;
  inst_settings : ref;
}.

(** A constructor that keeps the reference to its settings and marks the
    settings object as seen, as a constructor that completes its settings
    would. *)
Definition demo_construct (cls : pyobject)
    (params : list (string * (string + ref))) (s : pystate)
  : result demo_instance * pystate :=
  match dict_get "settings" params with
  | Some (inr r) =>
      match Py.setitem (obj_at s r) "seen" (VBool true) with
      | Ok v =>
          (Ok {| inst_class := obj_name cls;
                 inst_keywords := dict_keys params;
                 inst_settings := r |},
           {| st_lists := st_lists s; st_objs := <[r := v]> (st_objs s);
              sys_path := sys_path s; stdout := stdout s |})
      | Raise e => (Raise e, s)
      end
  | _ => (Raise TypeError, s)
  end.

(** Which classes provide which interface. *)
Definition demo_verifyObject (iface : interface) (i : demo_instance) : result unit :=
  match iface, inst_class i with
  | PrepPackageInterface, "ExcludeCollectionsPrep"
  | PrepPackageInterface, "CustomPrep"
  | PrescreenPackageInterface, "ScopePrescreen"
  | PrescreenPackageInterface, "CustomPrescreen" => Ok tt
  | _, _ => Raise (OtherError "zope.interface.exceptions.DoesNotImplement")
  end.

(** An environment from: the parsed index, the installed modules, and the
    modules that are files of the project directory (these import once
    [.] is on [sys.path]). *)
Definition world (index : pyval) (installed : list (string * pymodule))
    (local_files : list (string * pymodule)) : World :=
  {| get_package_file_content := fun p =>
       if String.eqb p "template/package_endpoints.json"
       then Some "{ the package index }" else None;
     json_loads := fun _ => Ok index;
     import_module := fun path name _ =>
       match dict_get name installed with
       | Some m => Ok m
       | None =>
           match dict_get name local_files with
           | Some m =>
               if existsb (String.eqb ".") path then Ok m
               else Raise ModuleNotFoundError
           | None => Raise ModuleNotFoundError
           end
       end;
     is_file := fun p =>
       existsb (fun f => String.eqb p (fst f +:+ ".py")) local_files;
     operation := string;
     endpoint_instance := demo_instance;
     construct := demo_construct;
     verifyObject := demo_verifyObject |}.

Definition exclude_collections : pymodule :=
  {| mod_name := "colrev.ops.built_in.prep.exclude_collections";
     mod_attrs := [("ExcludeCollectionsPrep",
                    {| obj_name := "ExcludeCollectionsPrep";
                       obj_doc := VStr "Prepares records by excluding collections" |})] |}.

Definition scope_prescreen : pymodule :=
  {| mod_name := "colrev.ops.built_in.prescreen.scope_prescreen";
     mod_attrs := [("ScopePrescreen",
                    {| obj_name := "ScopePrescreen";
                       obj_doc := VStr "Rule-based prescreen" |})] |}.

Definition colrev_custom_prep : pymodule :=
  {| mod_name := "colrev_custom_prep";
     mod_attrs := [("CustomPrep", {| obj_name := "CustomPrep"; obj_doc := VNone |})] |}.

Definition custom_prescreen_script : pymodule :=
  {| mod_name := "custom_prescreen_script";
     mod_attrs := [("CustomPrescreen",
                    {| obj_name := "CustomPrescreen"; obj_doc := VNone |})] |}.

(** An index with two package types; the second prep package names a
    module that is not installed. *)
Definition index : pyval :=
  VDict
    [ ("prep",
       VDict
         [ ("colrev_built_in.exclude_collections",
            VDict [("endpoint",
                    VStr "colrev.ops.built_in.prep.exclude_collections.ExcludeCollectionsPrep")]);
           ("colrev_built_in.get_doi_from_urls",
            VDict [("endpoint",
                    VStr "colrev.ops.built_in.prep.doi_from_url.DOIFromURLsPrep")]) ]);
      ("prescreen",
       VDict
         [ ("colrev_built_in.scope_prescreen",
            VDict [("endpoint",
                    VStr "colrev.ops.built_in.prescreen.scope_prescreen.ScopePrescreen")]) ]) ].

Definition w : World :=
  world index
    [ ("colrev.ops.built_in.prep.exclude_collections", exclude_collections);
      ("colrev.ops.built_in.prescreen.scope_prescreen", scope_prescreen);
      ("colrev_custom_prep", colrev_custom_prep) ]
    [ ("custom_prescreen_script", custom_prescreen_script) ].

(** The registry of [w] once the manager is constructed. *)
Definition manager : PackageManager :=
  {| packages :=
       [ (prep,
          [ ("colrev_built_in.exclude_collections",
             VDict [("endpoint",
                     VStr "colrev.ops.built_in.prep.exclude_collections.ExcludeCollectionsPrep");
                    ("installed", VBool true)]);
            ("colrev_built_in.get_doi_from_urls",
             VDict [("endpoint",
                     VStr "colrev.ops.built_in.prep.doi_from_url.DOIFromURLsPrep");
                    ("installed", VBool false)]) ]);
         (prescreen,
          [ ("colrev_built_in.scope_prescreen",
             VDict [("endpoint",
                     VStr "colrev.ops.built_in.prescreen.scope_prescreen.ScopePrescreen");
                    ("installed", VBool true)]) ]) ] |}.

(** The store of a caller. The list object [0] holds two selected
    prescreen packages, a built-in one and a script of the project
    directory; the list object [1] holds a selected prep package that is
    an installed module; the list object [2] holds a prep package that is
    flagged not installed; the list object [3] selects the built-in
    prescreen package twice, with different parameters. *)
Definition store : pystate :=
  {| st_lists := [[0; 1]; [2]; [3]; [0; 4]];
     st_objs :=
       [ VDict [("endpoint", VStr "colrev_built_in.scope_prescreen");
                ("TimeScopeFrom", VInt 2000)];
         VDict [("endpoint", VStr "custom_prescreen_script")];
         VDict [("endpoint", VStr "colrev_custom_prep")];
         VDict [("endpoint", VStr "colrev_built_in.get_doi_from_urls")];
         VDict [("endpoint", VStr "colrev_built_in.Scope_Prescreen");
                ("TimeScopeFrom", VInt 1990)] ];
     sys_path := ["/usr/lib/python3/site-packages"];
     stdout := [] |}.

(** An index whose only entry has a space in its endpoint path. *)
Definition spaced_index : pyval :=
  VDict [ ("prep",
           VDict [ ("colrev_built_in.spaced",
                    VDict [("endpoint", VStr "colrev.ops.built in.prep.Spaced")]) ]) ].

Definition spaced_w : World := world spaced_index [] [].

End Demo.

(** ** Predicates of the statements *)

(** An identifier is registered under a package type when the registry has
    an entry for the type and the identifier is a key of it. *)
Definition registered_under (self : PackageManager) (t : PackageEndpointType)
    (id : string) : Prop :=
  exists d metadata, dict_get t (packages self) = Some d /\ dict_get id d = Some metadata.

Definition raises_MissingDependencyError {A} (r : result A) : Prop :=
  exists msg, r = Raise (MissingDependencyError msg).

(** What the three assertions establish for the entries of a package type. *)
Definition entry_checked (entry : string * pyval) : Prop :=
  PyStr.contains " " (fst entry) = false
  /\ Py.contains " " (snd entry) = Ok false
  /\ PyStr.islower (fst entry) = true.

Definition registry_checked (reg : registry) : Prop :=
  forall t d, dict_get t reg = Some d -> Forall entry_checked d.

(** [self.packages[t][id]], when both keys are there. *)
Definition lookup_metadata (self : PackageManager) (t : PackageEndpointType)
    (id : string) : option pyval :=
  match dict_get t (packages self) with
  | Some d => dict_get id d
  | None => None
  end.

(** The [installed] flag of the entry [(t, id)] agrees with what
    [load_package_endpoint] does for it: [True] when it returns, [False]
    when it raises [AttributeError] or [ModuleNotFoundError]. *)
Definition flag_agrees `{World} (self : PackageManager) (path : list string)
    (t : PackageEndpointType) (id : string) (metadata : pyval) : Prop :=
  exists b : bool,
    Py.getitem metadata "installed" = Ok (VBool b)
    /\ (b = true <-> exists cls, PM.load_package_endpoint self path t id = Ok cls)
    /\ (b = false <->
        exists e, PM.load_package_endpoint self path t id = Raise e
                  /\ (e = AttributeError \/ e = ModuleNotFoundError)).

(** The flag that one step of [__flag_installed_packages] writes. *)
Definition flag_of (r : result pyobject) : bool :=
  match r with Ok _ => true | Raise _ => false end.

(** What [discover_packages] leaves in an entry it has visited: the
    metadata itself when the entry is skipped, and otherwise the metadata
    with the [description] of the loaded class. *)
Definition discovered_metadata `{World} (self : PackageManager) (path : list string)
    (t : PackageEndpointType) (installed_only : bool) (id : string)
    (metadata : pyval) : result pyval :=
  let? skip := PM.skips installed_only metadata in
  if skip : bool then Ok metadata
  else
    let? cls := PM.load_package_endpoint self path t id in
    let? _ := Py.getitem metadata "installed" in
    Py.setitem metadata "description" (obj_doc cls).

(** An entry during the loop of [discover_packages], with respect to the
    metadata [m0] it had at the start: untouched, or as a visit leaves it. *)
Definition entry_state `{World} (self0 : PackageManager) (path : list string)
    (t : PackageEndpointType) (installed_only : bool) (id : string)
    (m0 : pyval) (current : option pyval) : Prop :=
  current = Some m0
  \/ exists m1, discovered_metadata self0 path t installed_only id m0 = Ok m1
                /\ current = Some m1.

(** ** An example prescreen operation *)

Module DemoPrescreen.

(** Records are the list of their identifiers; an endpoint is known by its
    name and keeps the records it is given. *)
Definition env : Prescreen.Env :=
  {| Prescreen.records := list string;
     Prescreen.endpoint := string;
     Prescreen.load_records_dict := Ok ["Smith2020"; "Jones2021"];
     Prescreen.run_prescreen := fun _ recs _ => Ok recs |}.

Definition self : Prescreen.operation_state (H:=env) :=
  {| Prescreen.settings_endpoints :=
       [VDict [("endpoint", VStr "colrev_built_in.scope_prescreen")]];
     Prescreen.prescreen_package_endpoints :=
       ([("colrev_built_in.scope_prescreen", "ScopePrescreen")]
        : list (string * Prescreen.endpoint (Env:=env))) |}.

End DemoPrescreen.

(** [selected_package["endpoint"].lower()] for the object behind a
    reference. *)
Definition identifier_of (s : pystate) (r : ref) : result string :=
  let? endpoint := Py.getitem (obj_at s r) "endpoint" in
  Py.lower endpoint.

(** The selected package that [packages_dict] holds for an identifier once
    the list is gone through: the last one with that identifier. *)
Fixpoint last_selected (s : pystate) (id : string) (selected : list ref)
    (found : option ref) : option ref :=
  match selected with
  | [] => found
  | r :: rest =>
      last_selected s id rest
        (match identifier_of s r with
         | Ok id' => if String.eqb id' id then Some r else found
         | Raise _ => found
         end)
  end.

(** The store [s'] has every object and every list object of [s], as it
    was. *)
Definition store_kept (s s' : pystate) : Prop :=
  (forall r v, st_objs s !! r = Some v -> st_objs s' !! r = Some v)
  /\ (forall r l, st_lists s !! r = Some l -> st_lists s' !! r = Some l).

(** What the constructor of an endpoint may do to the store: change the
    settings object it is handed and allocate. *)
Definition constructor_frame `{World} : Prop :=
  forall cls name (op : operation) (r : ref) s,
    let s' := snd (construct cls [(name, inl op); ("settings", inr r)] s) in
    (forall r' v, r' <> r -> st_objs s !! r' = Some v -> st_objs s' !! r' = Some v)
    /\ (forall r' l, st_lists s !! r' = Some l -> st_lists s' !! r' = Some l).

(** The two stores hold the same objects and list objects. *)
Definition same_store (s s' : pystate) : Prop :=
  st_objs s' = st_objs s /\ st_lists s' = st_lists s.

(** What going through one selected package does to [packages_dict]: the
    entry of its identifier holds its settings, the other entries are as
    they were, and no key is there twice. *)
Definition resolved (selected_package : ref) (id : string)
    (pd pd' : list (string * package_entry)) : Prop :=
  (exists e, dict_get id pd' = Some e /\ entry_settings e = selected_package)
  /\ (forall id', id' <> id -> dict_get id' pd' = dict_get id' pd)
  /\ (NoDup (dict_keys pd) -> NoDup (dict_keys pd')).

(** How a value of the returned dictionary comes from its entry of
    [packages_dict] when the objects are instantiated: the class of the
    entry is called with the operation under [operation_name] and the
    settings of the entry under [settings], and the instance passes
    [verifyObject] for the interface of the package type. *)
Definition instantiated `{World} (details : package_type_details) (op : operation)
    (item : string * package_entry) (value : string * loaded) : Prop :=
  fst value = fst item
  /\ exists cls inst s_call s_done,
       entry_endpoint (snd item) = Some (EndpointClass cls)
       /\ snd value = LoadedInstance inst
       /\ construct cls [(operation_name details, inl op);
                         ("settings", inr (entry_settings (snd item)))] s_call
          = (Ok inst, s_done)
       /\ verifyObject (import_name details) inst = Ok tt.

(** The store [s'] has the first [n] objects and every list object of [s],
    as they were. *)
Definition kept_below (n : nat) (s s' : pystate) : Prop :=
  (forall r v, r < n -> st_objs s !! r = Some v -> st_objs s' !! r = Some v)
  /\ (forall r l, st_lists s !! r = Some l -> st_lists s' !! r = Some l).

(** [load_package_endpoint] returns, or raises what the [except] clause of
    [__flag_installed_packages] catches. *)
Definition loads_or_not_installed (r : result pyobject) : Prop :=
  (exists cls, r = Ok cls)
  \/ (exists e, r = Raise e /\ PM.not_installed_error e = true).

(** ** Where the classes that [load_packages] returns come from *)

(** The selected package [r] is a custom package in the project
    directory: its identifier is not in the registry of the type and
    [<identifier>.py] is a file. *)
Definition custom_file_package `{World} (self : PackageManager)
    (t : PackageEndpointType) (s : pystate) (r : ref) : bool :=
  match identifier_of s r, PM.packages_of self t with
  | Ok id, Ok registered => negb (dict_mem id registered) && is_file (id +:+ ".py")
  | _, _ => false
  end.

(** The entry of [packages_dict] for the identifier [id] after
    [__get_packages_dict], when [sys.path] was [path0] at the start: for a
    registered identifier, no endpoint or the class that
    [load_package_endpoint] gives; for any other one, the imported module
    with the [custom_flag]. The search path is [path0] with the entries
    [.] appended up to then. *)
Definition entry_origin `{World} (self : PackageManager) (t : PackageEndpointType)
    (ignore_not_available : bool) (path0 : list string) (id : string)
    (e : package_entry) : Prop :=
  exists registered k,
    dict_get t (packages self) = Some registered
    /\ match dict_get id registered with
       | Some _ =>
           entry_custom_flag e = false
           /\ (entry_endpoint e = None
               \/ exists cls,
                    entry_endpoint e = Some (EndpointClass cls)
                    /\ PM.load_package_endpoint self (path0 ++ repeat "." k)%list t id
                       = Ok cls)
       | None =>
           ignore_not_available = false
           /\ entry_custom_flag e = true
           /\ exists m,
                entry_endpoint e = Some (EndpointModule m)
                /\ import_module (path0 ++ repeat "." k)%list id
                     (if is_file (id +:+ ".py") then Some "." else None) = Ok m
                /\ (is_file (id +:+ ".py") = true -> 0 < k)
       end.

(** The class [cls] that [load_packages] instantiates or returns for the
    identifier [id]: the class of the registry for a registered identifier,
    the attribute [custom_class] of the imported module for any other
    one. *)
Definition class_origin `{World} (self : PackageManager) (t : PackageEndpointType)
    (ignore_not_available : bool) (path0 : list string) (id : string)
    (cls : pyobject) : Prop :=
  exists registered details k,
    dict_get t (packages self) = Some registered
    /\ dict_get t PM.package_type_overview = Some details
    /\ match dict_get id registered with
       | Some _ =>
           PM.load_package_endpoint self (path0 ++ repeat "." k)%list t id = Ok cls
       | None =>
           ignore_not_available = false
           /\ exists m,
                import_module (path0 ++ repeat "." k)%list id
                  (if is_file (id +:+ ".py") then Some "." else None) = Ok m
                /\ (is_file (id +:+ ".py") = true -> 0 < k)
                /\ getattr m (custom_class details) = Ok cls
       end.

(** ** The script of [PDFGet.setup_custom_script]

    The module of [colrev/template/custom_pdf_get_script.py], written to
    the project directory as [custom_pdf_get_script.py]: its class is
    [CustomPDFGet]. The settings hold the endpoint that
    [setup_custom_script] appends to [pdf_get_man_package_endpoints]. *)

Module DemoTemplate.

Definition custom_pdf_get_script : pymodule :=
  {| mod_name := "custom_pdf_get_script";
     mod_attrs := [("CustomPDFGet", {| obj_name := "CustomPDFGet"; obj_doc := VNone |})] |}.

Definition w : World :=
  Demo.world Demo.index [] [("custom_pdf_get_script", custom_pdf_get_script)].

Definition manager : PackageManager :=
  {| packages := [(pdf_get_man, [])] |}.

Definition store : pystate :=
  {| st_lists := [[0]];
     st_objs := [VDict [("endpoint", VStr "custom_pdf_get_script")]];
     sys_path := ["/usr/lib/python3/site-packages"];
     stdout := [] |}.

End DemoTemplate.

(** ** The settings schema of a package (colrev/env/package_manager.py)

    What [settings_class.json_schema()] returns and what [_details]
    holds: JSON values, with [pathlib.Path] objects among them. A path is
    kept as the string [str] gives for it. Numbers are kept as integers;
    no code path below inspects them. *)

#[warnings="-register-all"]
Inductive sval : Type :=
| SNone
| SBool (b : bool)
| SInt (z : Z)
| SStr (s : string)
| SPath (p : string)
| SList (l : list sval)
| SDict (d : list (string * sval)).

Module SVal.

(** [v[key]] for a string key. *)
Definition getitem (v : sval) (key : string) : result sval :=
  match v with
  | SDict d =>
      match dict_get key d with
      | Some x => Ok x
      | None => Raise (KeyError key)
      end
  | _ => Raise TypeError
  end.

(** [v[key] = x] for a string key. *)
Definition setitem (v : sval) (key : string) (x : sval) : result sval :=
  match v with
  | SDict d => Ok (SDict (dict_set key x d))
  | _ => Raise TypeError
  end.

(** [key in v] for a string [key]. *)
Definition contains (key : string) (v : sval) : result bool :=
  match v with
  | SDict d => Ok (dict_mem key d)
  | SStr t => Ok (PyStr.contains key t)
  | SList l =>
      Ok (existsb (fun x => match x with SStr t => String.eqb t key | _ => false end) l)
  | _ => Raise TypeError
  end.

End SVal.

(** The attributes of a settings class that [get_package_details] reads:
    [json_schema()], the keys of [__annotations__], and [_details] when
    the class has it. *)
Record settings_class_t : Type := {
  json_schema : list (string * sval);
  annotations : list string;
  _details : option (list (string * list (string * sval)));
}.

(** [getattr(package_class, "settings_class", None)] *)
Class SettingsClasses : Type := {
  settings_class : pyobject -> option settings_class_t;
}.

Module Details.

(** What [__replace_path_by_str] stores back under a key: the result of
    the recursive call for a mapping, [str(value)] for a path, and the
    value itself otherwise. *)
Fixpoint replace_value (value : sval) : sval :=
  match value with
  | SDict d => SDict (map (fun item => (fst item, replace_value (snd item))) d)
  | SPath p => SStr p
  | _ => value
  end.

(** [__replace_path_by_str(orig_dict)]: every key is assigned again, in
    place, so that the keys and their order stay. *)
Definition replace_path_by_str (orig_dict : list (string * sval))
  : list (string * sval) :=
  map (fun item => (fst item, replace_value (snd item))) orig_dict.

(** [package_details["properties"][parameter][key] = x] *)
Definition set_property (package_details : list (string * sval))
    (parameter key : string) (x : sval) : result (list (string * sval)) :=
  let? properties := SVal.getitem (SDict package_details) "properties" in
  let? property := SVal.getitem properties parameter in
  let? property' := SVal.setitem property key x in
  let? properties' := SVal.setitem properties parameter property' in
  Ok (dict_set "properties" properties' package_details).

(** [if key in _details[parameter]: ...[key] = _details[parameter][key]] *)
Definition copy_detail (detail : list (string * sval)) (parameter key : string)
    (package_details : list (string * sval)) : result (list (string * sval)) :=
  match dict_get key detail with
  | Some x => set_property package_details parameter key x
  | None => Ok package_details
  end.

(** The body of the loop over the parameters. *)
Definition add_details (sc : settings_class_t) (parameter : string)
    (package_details : list (string * sval)) : result (list (string * sval)) :=
  match _details sc with
  | None => Ok package_details
  | Some details =>
      match dict_get parameter details with
      | None => Ok package_details
      | Some detail =>
          let? package_details := copy_detail detail parameter "tooltip" package_details in
          let? package_details := copy_detail detail parameter "min" package_details in
          let? package_details := copy_detail detail parameter "max" package_details in
          copy_detail detail parameter "options" package_details
      end
  end.

Fixpoint parameter_loop (sc : settings_class_t) (parameters : list string)
    (package_details : list (string * sval)) : result (list (string * sval)) :=
  match parameters with
  | [] => Ok package_details
  | parameter :: rest =>
      let? package_details := add_details sc parameter package_details in
      parameter_loop sc rest package_details
  end.

(** [i[:1] != "_"] *)
Definition public (i : string) : bool :=
  match i with
  | String "_" _ => false
  | _ => true
  end.

(** [if name in package_details["properties"]: ...[name]["type"] = "path"] *)
Definition fix_path_type (name : string) (package_details : list (string * sval))
  : result (list (string * sval)) :=
  let? properties := SVal.getitem (SDict package_details) "properties" in
  let? present := SVal.contains name properties in
  if present : bool then set_property package_details name "type" (SStr "path")
  else Ok package_details.

(** [package_details["properties"][name] = x] *)
Definition add_property (package_details : list (string * sval)) (name : string)
    (x : sval) : result (list (string * sval)) :=
  let? properties := SVal.getitem (SDict package_details) "properties" in
  let? properties' := SVal.setitem properties name x in
  Ok (dict_set "properties" properties' package_details).

(** [get_package_details]. The schema is asked of [settings_class] before
    [settings_class] is compared with [None]. The dictionaries of the
    schema are taken to be distinct objects, so that an assignment in one
    of them shows in that one only. *)
Definition get_package_details `{World} `{SettingsClasses} (self : PackageManager)
    (path : list string) (package_type : PackageEndpointType)
    (package_identifier : string) : result (list (string * sval)) :=
  let package_identifier := PyStr.lower package_identifier in
  let? package_class :=
    PM.load_package_endpoint self path package_type package_identifier in
  let settings_class := settings_class package_class in
  let? package_details :=
    match settings_class with
    | Some sc => Ok (json_schema sc)
    | None => Raise AttributeError
    end in
  match settings_class with
  | None =>
      Raise (OtherError ("ServiceNotAvailableException: " +:+ package_identifier
                         +:+ " could not be loaded"))
  | Some sc =>
      let? package_details :=
        parameter_loop sc (List.filter public (annotations sc)) package_details in
      let? package_details := fix_path_type "paper_path" package_details in
      let? package_details := fix_path_type "word_template" package_details in
      let? package_details := fix_path_type "paper_output" package_details in
      let? package_details :=
        if decide (search_source = package_type) then
          let? package_details :=
            add_property package_details "filename" (SDict [("type", SStr "path")]) in
          add_property package_details "load_conversion_package_endpoint"
            (SDict [("type", SStr "script");
                    ("package_endpoint_type", SStr "load_conversion")])
        else Ok package_details in
      Ok (replace_path_by_str package_details)
  end.

(** No path is left where [__replace_path_by_str] looks: under the keys of
    the dictionary and of the dictionaries nested in it. *)
Fixpoint path_free (v : sval) : bool :=
  match v with
  | SPath _ => false
  | SDict d => forallb (fun item => path_free (snd item)) d
  | _ => true
  end.

End Details.

(** ** Example settings classes *)

Module DemoDetails.

(** The settings of the scope prescreen, with a path among the defaults
    and a tooltip in [_details]. *)
Definition scope_settings : settings_class_t :=
  {| json_schema :=
       [ ("type", SStr "object");
         ("required", SList [SStr "endpoint"]);
         ("properties",
          SDict [ ("endpoint", SDict [("type", SStr "string")]);
                  ("TimeScopeFrom", SDict [("type", SStr "integer")]);
                  ("paper_path", SDict [("type", SStr "string");
                                        ("default", SPath "paper.md")]) ]);
         ("description", SStr "Settings for ScopePrescreen") ];
     annotations := ["endpoint"; "TimeScopeFrom"; "paper_path"; "_details"];
     _details := Some [("TimeScopeFrom",
                        [("tooltip", SStr "Lower bound for the time scope");
                         ("min", SInt 1900)])] |}.

(** Only [ScopePrescreen] has a [settings_class]. *)
Definition classes : SettingsClasses :=
  {| settings_class := fun cls =>
       if String.eqb (obj_name cls) "ScopePrescreen" then Some scope_settings
       else None |}.

End DemoDetails.

(** ** The prescreen data and its split (colrev/ops/prescreen.py) *)

Module PrescreenData.

(** [len(v)] *)
Definition len (v : pyval) : result nat :=
  match v with
  | VStr s => Ok (String.length s)
  | VList l => Ok (length l)
  | VDict d => Ok (length d)
  | _ => Raise TypeError
  end.

(** [s == v] for a string [s] and any object [v]. *)
Definition str_eq (s : string) (v : pyval) : bool :=
  match v with
  | VStr t => String.eqb s t
  | _ => false
  end.

(** [len([x for x in record_state_list if status == x["colrev_status"]])] *)
Fixpoint count_status (status : string) (record_state_list : list pyval)
  : result nat :=
  match record_state_list with
  | [] => Ok 0
  | x :: rest =>
      let? v := Py.getitem x "colrev_status" in
      let? n := count_status status rest in
      Ok (if str_eq status v then S n else n)
  end.

(** [len(x["ID"]) for x in record_state_list] *)
Fixpoint id_lengths (record_state_list : list pyval) : result (list nat) :=
  match record_state_list with
  | [] => Ok []
  | x :: rest =>
      let? id := Py.getitem x "ID" in
      let? n := len id in
      let? ns := id_lengths rest in
      Ok (n :: ns)
  end.

(** [max(...)] of the numbers an iterable gives. *)
Definition max_of (ns : list nat) : result nat :=
  match ns with
  | [] => Raise ValueError
  | n :: rest => Ok (fold_left Nat.max rest n)
  end.

(** The dictionary [get_data] returns; [items] stands for the records
    that the generator of [read_next_record] yields, in order. *)
Record prescreen_data : Type := {
  nr_tasks : nat;
  PAD : nat;
  items : list pyval;
}.

(** [get_data]: [md_processed] is [str(RecordState.md_processed)],
    [record_state_list] what [get_record_state_list()] returns and
    [next_records] what [read_next_record(conditions=...)] yields. *)
Definition get_data (md_processed : string) (record_state_list : list pyval)
    (next_records : list pyval) : result prescreen_data :=
  let? nr_tasks := count_status md_processed record_state_list in
  let? lengths := id_lengths record_state_list in
  let? longest := max_of lengths in
  let pad := Nat.min (longest + 2) 40 in
  Ok {| nr_tasks := nr_tasks; PAD := pad; items := next_records |}.

(** The loop [while len(added) < nrecs: added.append(next(items)["ID"])],
    with the number of turns that are left. *)
Fixpoint take_ids (turns : nat) (items : list pyval) : result (list pyval) :=
  match turns with
  | 0 => Ok []
  | S turns' =>
      match items with
      | [] => Raise (OtherError "StopIteration")
      | x :: rest =>
          let? id := Py.getitem x "ID" in
          let? added := take_ids turns' rest in
          Ok (id :: added)
      end
  end.

(** [sep.join(l)] for strings. *)
Fixpoint join (sep : string) (l : list string) : string :=
  match l with
  | [] => EmptyString
  | a :: rest =>
      match rest with
      | [] => a
      | _ => a +:+ sep +:+ join sep rest
      end
  end.

(** The items of a list that has strings only; [str.join] raises
    [TypeError] for any other item. *)
Fixpoint strings (l : list pyval) : result (list string) :=
  match l with
  | [] => Ok []
  | VStr s :: rest => let? r := strings rest in Ok (s :: r)
  | _ :: _ => Raise TypeError
  end.

(** [create_prescreen_split(create_split)]. [math.floor] of the float
    quotient is the floor of the exact quotient when [nr_tasks] is below
    [2^53]. The report logger is left out. *)
Definition create_prescreen_split (md_processed : string)
    (record_state_list next_records : list pyval) (create_split : Z)
  : result (list string) :=
  let prescreen_splits := [] in
  let? data' := get_data md_processed record_state_list next_records in
  let? nrecs :=
    if Z.eqb create_split 0 then Raise (OtherError "ZeroDivisionError")
    else Ok (Z.of_nat (nr_tasks data') / create_split)%Z in
  let? added := take_ids (Z.to_nat nrecs) (items data') in
  let? added := strings added in
  Ok (prescreen_splits ++ ["colrev prescreen --split " +:+ join "," added])%list.

End PrescreenData.

(** ** The ENL loader (colrev/loader/enl.py)

    Text is taken with characters below U+0100, one [ascii] each. *)

Module ENL.

(** [c.isspace()] *)
Definition is_space (c : ascii) : bool :=
  let n := nat_of_ascii c in
  ((9 <=? n)%nat && (n <=? 13)%nat) || ((28 <=? n)%nat && (n <=? 32)%nat)
  || (n =? 133)%nat || (n =? 160)%nat.

(** [s.lstrip()], [s.rstrip()] and [s.strip()] *)
Fixpoint lstrip (s : string) : string :=
  match s with
  | EmptyString => EmptyString
  | String c r => if is_space c then lstrip r else s
  end.

Fixpoint rstrip (s : string) : string :=
  match s with
  | EmptyString => EmptyString
  | String c r =>
      match rstrip r with
      | EmptyString => if is_space c then EmptyString else String c EmptyString
      | r' => String c r'
      end
  end.

Definition strip (s : string) : string := lstrip (rstrip s).

(** [s[n:]] *)
Fixpoint slice_from (n : nat) (s : string) : string :=
  match n, s with
  | S n', String _ r => slice_from n' r
  | _, _ => s
  end.

(** [s[:n]] *)
Fixpoint slice_to (n : nat) (s : string) : string :=
  match n, s with
  | S n', String c r => String c (slice_to n' r)
  | _, _ => EmptyString
  end.

(** A value of [self.current]: a string, or the list of the strings of a
    tag that came more than once. *)
Inductive value : Type :=
| Str (s : string)
| Lst (l : list string).

(** [_get_tag(line)]: [line[1:3].rstrip()] *)
Definition _get_tag (line : string) : string := rstrip (slice_to 2 (slice_from 1 line)).

(** [_get_content(line)]: [line[2:].strip()] *)
Definition _get_content (line : string) : string := strip (slice_from 2 line).

(** [_add_tag(tag, line)], on [self.current]. *)
Definition _add_tag (tag line : string) (current : list (string * value))
  : list (string * value) :=
  let new_value := _get_content line in
  match dict_get tag current with
  | None => dict_set tag (Str new_value) current
  | Some (Str old) => dict_set tag (Lst [old; new_value]) current
  | Some (Lst l) => dict_set tag (Lst (l ++ [new_value])) current
  end.

(** [_parse_tag(line)]: returns [self.current], or adds the tag to it
    and raises [NextLine]. *)
Definition _parse_tag (line : string) : M (list (string * value)) (list (string * value)) :=
  fun current =>
    let tag := _get_tag line in
    if String.eqb (strip tag) EmptyString then (Ok current, current)
    else (Raise (OtherError "NextLine"), _add_tag tag line current).

(** [list(r for r in self._parse_lines(lines) if r)]: the generator run
    to its end, each dictionary it yields kept when it is not empty. *)
Fixpoint _parse_lines (lines : list string)
  : M (list (string * value)) (list (list (string * value))) :=
  fun current =>
    match lines with
    | [] => (Ok [], current)
    | line :: rest =>
        match _parse_tag line current with
        | (Ok r, _) =>
            (* yield r; self.current = {} *)
            match _parse_lines rest [] with
            | (Ok records, current') =>
                (Ok (match r with [] => records | _ => r :: records end), current')
            | (Raise e, current') => (Raise e, current')
            end
        | (Raise (OtherError "NextLine"), current') => _parse_lines rest current'
        | (Raise e, current') => (Raise e, current')
        end
    end.

(** [load_records_list()], for the text of the file. *)
Definition load_records_list (text : string)
  : M (list (string * value)) (list (list (string * value))) :=
  let lines := PyStr.split "010"%char text in
  _parse_lines lines.

(** The strings stored under a tag, in the order they came. *)
Definition values_of (v : option value) : list string :=
  match v with
  | None => []
  | Some (Str s) => [s]
  | Some (Lst l) => l
  end.

(** The lines of an entry: for every tag, one line per string. *)
Definition render_field (field : string * value) : list string :=
  map (fun s => "%" +:+ fst field +:+ " " +:+ s) (values_of (Some (snd field))).

Definition render_record (record : list (string * value)) : list string :=
  (concat (map render_field record) ++ [EmptyString])%list.

(** A tag of one character that is no white space; a string as [strip]
    leaves it; a list as [_add_tag] builds it. *)
Definition well_formed_tag (tag : string) : bool :=
  match tag with
  | String c EmptyString => negb (is_space c)
  | _ => false
  end.

Definition well_formed_value (v : value) : bool :=
  match v with
  | Str s => String.eqb (strip s) s
  | Lst l => (2 <=? length l)%nat && forallb (fun s => String.eqb (strip s) s) l
  end.

Definition well_formed_record (record : list (string * value)) : Prop :=
  record <> []
  /\ NoDup (dict_keys record)
  /\ Forall (fun field => well_formed_tag (fst field) = true
                          /\ well_formed_value (snd field) = true) record.

End ENL.

(** ** The command-line prescreen
    (colrev/ops/built_in/prescreen/prescreen_cli.py) *)

Module PrescreenCLI.

Open Scope m_scope.

(** What the endpoint does to the outside, in order; [print] is left
    out. *)
Inductive event : Type :=
| Logger_info (msg : string)
| Ask_decision (i stat_len : nat)
| Prescreen_record (record_dict : pyval) (prescreen_inclusion : bool) (PAD : nat)
| Ask_explanation
| Save_settings
| Add_record_changes
| Ask_commit
| Create_commit.

(** The lines that [input()] will return,
    [review_manager.settings.prescreen.explanation], and what was done. *)
Record cli_state : Type := {
  inputs : list string;
  explanation : string;
  trace : list event;
}.

Definition emit (ev : event) : M cli_state unit :=
  fun st => (Ok tt, {| inputs := inputs st; explanation := explanation st;
                       trace := (trace st ++ [ev])%list |}).

(** [input(prompt)]; [EOFError] when nothing is left to read. *)
Definition input (prompt : event) : M cli_state string :=
  fun st =>
    match inputs st with
    | [] => (Raise (OtherError "EOFError"),
             {| inputs := []; explanation := explanation st;
                trace := (trace st ++ [prompt])%list |})
    | x :: rest => (Ok x, {| inputs := rest; explanation := explanation st;
                             trace := (trace st ++ [prompt])%list |})
    end.

(** [s.replace(old, new)] for a character [old]. *)
Fixpoint replace_char (old : ascii) (new : string) (s : string) : string :=
  match s with
  | EmptyString => EmptyString
  | String c r =>
      if Ascii.eqb c old then new +:+ replace_char old new r
      else String c (replace_char old new r)
  end.

(** [ret.replace("y", "yes").replace("n", "no")] *)
Definition decision_str (ret : string) : string :=
  replace_char "n" "no" (replace_char "y" "yes" ret).

(** The loop [while ret not in ["y", "n", "s", "q"]] over the lines that
    [input()] returns: [inclusion_decision_str] and [quit_pressed] at
    its end, the number of prompts, and the lines left. *)
Fixpoint ask_inputs (lines : list string) (inclusion_decision_str : string)
    (asked : nat) : result (string * bool) * nat * list string :=
  match lines with
  | [] => (Raise (OtherError "EOFError"), S asked, [])
  | ret :: rest =>
      if String.eqb "q" ret then (Ok (inclusion_decision_str, true), S asked, rest)
      else if String.eqb "s" ret then
        (Ok (inclusion_decision_str, false), S asked, rest)
      else
        let inclusion_decision_str := decision_str ret in
        if String.eqb ret "y" || String.eqb ret "n" then
          (Ok (inclusion_decision_str, false), S asked, rest)
        else ask_inputs rest inclusion_decision_str (S asked)
  end.

Definition ask (i stat_len : nat) : M cli_state (string * bool) :=
  fun st =>
    let '(r, asked, rest) := ask_inputs (inputs st) "NA" 0 in
    (r, {| inputs := rest; explanation := explanation st;
           trace := (trace st ++ repeat (Ask_decision i stat_len) asked)%list |}).

(** [record_dict["ID"] not in split] *)
Definition not_in_split (record_dict : pyval) (split : list string) : result bool :=
  let? id := Py.getitem record_dict "ID" in
  Ok (negb (existsb (fun s => match id with
                              | VStr t => String.eqb t s
                              | _ => false
                              end) split)).

(** The loop of [__fun_cli_prescreen] over [prescreen_data["items"]];
    it returns [i]. *)
Fixpoint present (items : list pyval) (split : list string) (stat_len padding : nat)
    (i : nat) : M cli_state nat :=
  match items with
  | [] => ret i
  | record_dict :: rest =>
      do skipped <- lift (if (0 <? length split)%nat
                          then not_in_split record_dict split else Ok false);
      if skipped : bool then present rest split stat_len padding i
      else
        let i := S i in
        do answer <- ask i stat_len;
        let '(inclusion_decision_str, quit_pressed) := answer in
        if quit_pressed : bool then
          do _ <- emit (Logger_info "Stop prescreen");
          ret i
        else
          let inclusion_decision := String.eqb "yes" inclusion_decision_str in
          do _ <- emit (Prescreen_record record_dict inclusion_decision padding);
          present rest split stat_len padding i
  end.

(** [__fun_cli_prescreen] *)
Definition fun_cli_prescreen (prescreen_data : PrescreenData.prescreen_data)
    (split : list string) (stat_len padding : nat) : M cli_state bool :=
  do _ <- emit (Logger_info "Start prescreen");
  do _ <- (if (stat_len =? 0)%nat then emit (Logger_info "No records to prescreen")
           else ret tt);
  do i <- present (PrescreenData.items prescreen_data) split stat_len padding 0;
  ret (i =? stat_len)%nat.

Definition set_explanation (e : string) : M cli_state unit :=
  fun st => (Ok tt, {| inputs := inputs st; explanation := e; trace := trace st |}).

Definition get_explanation : M cli_state string :=
  fun st => (Ok (explanation st), st).

(** [run_prescreen(prescreen_operation, records, split)], with what
    [prescreen_operation.get_data()] reads from the dataset. *)
Definition run_prescreen {records : Type} (md_processed : string)
    (record_state_list next_records : list pyval) (recs : records)
    (split : list string) : M cli_state records :=
  do prescreen_data <-
    lift (PrescreenData.get_data md_processed record_state_list next_records);
  let stat_len := if (0 <? length split)%nat then length split
                  else PrescreenData.nr_tasks prescreen_data in
  let padding := PrescreenData.PAD prescreen_data in
  do e <- get_explanation;
  do _ <- (if String.eqb "" e then
             do e' <- input Ask_explanation;
             do _ <- set_explanation e';
             emit Save_settings
           else ret tt);
  do completed <- fun_cli_prescreen prescreen_data split stat_len padding;
  do _ <- emit Add_record_changes;
  do stop <- (if negb completed then
                do answer <- input Ask_commit;
                ret (negb (String.eqb "y" answer))
              else ret false);
  if stop : bool then ret recs
  else
    do _ <- emit Create_commit;
    ret recs.

(** An answer [s] turned into the answer [n]. *)
Definition skip_as_no (answer : string) : string :=
  if String.eqb "s" answer then "n" else answer.

Definition answers_skip_as_no (st : cli_state) : cli_state :=
  {| inputs := map skip_as_no (inputs st); explanation := explanation st;
     trace := trace st |}.

(** Two outcomes of the loop over the answers that lead to the same
    call of [prescreen]. *)
Definition same_decision (r r' : result (string * bool)) : Prop :=
  match r, r' with
  | Ok (s1, q1), Ok (s2, q2) => q1 = q2 /\ String.eqb "yes" s1 = String.eqb "yes" s2
  | Raise e, Raise e' => e = e'
  | _, _ => False
  end.

End PrescreenCLI.

(** ** Records and their status

    The enumeration [RecordState] is declared outside the files at hand:
    it is taken as any type with a decidable equality, and its members
    as any values of it. *)

Section RecordStates.
Context {RecordState : Type} `{EqDecision RecordState}.

(** A field of a record: a status or a string. *)
Inductive field : Type :=
| FState (st : RecordState)
| FStr (s : string).

(** [record[key]] *)
Definition field_of (record : list (string * field)) (key : string) : result field :=
  match dict_get key record with
  | Some v => Ok v
  | None => Raise (KeyError key)
  end.

(** [member == v] *)
Definition is_state (member : RecordState) (v : field) : bool :=
  match v with
  | FState st => bool_decide (member = st)
  | FStr _ => false
  end.

(** *** PDFGet.__set_status_if_file_linked (colrev/ops/pdf_get.py) *)

Variables rev_prescreen_included pdf_needs_manual_retrieval pdf_imported : RecordState.

(** The body of the loop for one record: the record as it is afterwards
    and what is printed, the identifier and the [file] field of the
    warning. *)
Definition set_status_of_record (is_file : string -> bool)
    (record : list (string * field))
  : result (list (string * field) * list (field * string)) :=
  let? status := field_of record "colrev_status" in
  if is_state rev_prescreen_included status
     || is_state pdf_needs_manual_retrieval status then
    if dict_mem "file" record then
      let? file := field_of record "file" in
      match file with
      | FStr paths =>
          if existsb is_file (PyStr.split ";"%char paths) then
            Ok (dict_set "colrev_status" (FState pdf_imported) record, [])
          else
            let? id := field_of record "ID" in
            Ok (record, [(id, paths)])
      | FState _ => Raise AttributeError
      end
    else Ok (record, [])
  else Ok (record, []).

(** What the function does to the outside, in order. *)
Inductive dataset_event : Type :=
| Print_warning (id : field) (file : string)
| Save_records_dict (records : list (string * list (string * field)))
| Add_record_changes.

(** [review_manager.dataset.save_records_dict(records=records)] and
    [review_manager.dataset.add_record_changes()]: what they return or
    raise. *)
Variable save_records_dict : list (string * list (string * field)) -> result unit.
Variable add_record_changes : result unit.

Definition emit_event (ev : dataset_event) : M (list dataset_event) unit :=
  fun trace => (Ok tt, (trace ++ [ev])%list).

(** The warnings of one record, printed. *)
Definition print_warnings (warnings : list (field * string))
  : M (list dataset_event) unit :=
  fun trace =>
    (Ok tt, (trace ++ map (fun w => Print_warning (fst w) (snd w)) warnings)%list).

(** The loop over [records.values()]; the records are changed in place,
    under their keys. *)
Fixpoint set_status_loop (is_file : string -> bool)
    (records : list (string * list (string * field)))
  : M (list dataset_event) (list (string * list (string * field))) :=
  match records with
  | [] => ret []
  | (key, record) :: rest =>
      bind (lift (set_status_of_record is_file record)) (fun r =>
      bind (print_warnings (snd r)) (fun _ =>
      bind (set_status_loop is_file rest) (fun rs =>
      ret ((key, fst r) :: rs))))
  end.

(** [__set_status_if_file_linked(records=records)] *)
Definition set_status_if_file_linked (is_file : string -> bool)
    (records : list (string * list (string * field)))
  : M (list dataset_event) (list (string * list (string * field))) :=
  bind (set_status_loop is_file records) (fun records =>
  bind (emit_event (Save_records_dict records)) (fun _ =>
  bind (lift (save_records_dict records)) (fun _ =>
  bind (emit_event Add_record_changes) (fun _ =>
  bind (lift add_record_changes) (fun _ =>
  ret records))))).

(** *** export_table (colrev_core/prescreen.py) *)

Variables md_retrieved rev_prescreen_excluded rev_excluded rev_included
  rev_synthesized : RecordState.

(** [inclusion_1] and [inclusion_2] of a record with the given status. *)
Definition inclusion (status : field) : string * string :=
  let inclusion_1 := "NA" in
  let inclusion_2 := "NA" in
  let inclusion_1 := if is_state md_retrieved status then "TODO" else inclusion_1 in
  if is_state rev_prescreen_excluded status then
    let inclusion_1 := "no" in
    (inclusion_1, inclusion_2)
  else
    let inclusion_1 := "yes" in
    let inclusion_2 := "TODO" in
    let inclusion_2 := if is_state rev_excluded status then "no" else inclusion_2 in
    let inclusion_2 :=
      if is_state rev_included status || is_state rev_synthesized status then "yes"
      else inclusion_2 in
    (inclusion_1, inclusion_2).

(** The loop over [record["excl_criteria"].split(";")]. *)
Fixpoint criteria_of (parts : list string) (excl_criteria : list (string * field))
  : result (list (string * field)) :=
  match parts with
  | [] => Ok excl_criteria
  | ecrit :: rest =>
      match PyStr.split "="%char ecrit with
      | name :: value :: _ => criteria_of rest (dict_set name (FStr value) excl_criteria)
      | _ => Raise (OtherError "IndexError")
      end
  end.

(** [record.get(key, "")] *)
Definition get_or_empty (record : list (string * field)) (key : string) : field :=
  match dict_get key record with
  | Some v => v
  | None => FStr EmptyString
  end.

(** [row.update(excl_criteria)] *)
Definition dict_update {V : Type} (d new : list (string * V)) : list (string * V) :=
  fold_left (fun acc item => dict_set (fst item) (snd item) acc) new d.

(** The row of the table for one record. *)
Definition export_row (record : list (string * field))
  : result (list (string * field)) :=
  let? status := field_of record "status" in
  let '(inclusion_1, inclusion_2) := inclusion status in
  let? excl_criteria :=
    if dict_mem "excl_criteria" record then
      let? c := field_of record "excl_criteria" in
      match c with
      | FStr s => criteria_of (PyStr.split ";"%char s) []
      | FState _ => Raise AttributeError
      end
    else Ok [] in
  let? id := field_of record "ID" in
  let row :=
    [ ("ID", id);
      ("author", get_or_empty record "author");
      ("title", get_or_empty record "title");
      ("journal", get_or_empty record "journal");
      ("booktitle", get_or_empty record "booktitle");
      ("year", get_or_empty record "year");
      ("volume", get_or_empty record "volume");
      ("number", get_or_empty record "number");
      ("pages", get_or_empty record "pages");
      ("doi", get_or_empty record "doi");
      ("abstract", get_or_empty record "abstract");
      ("inclusion_1", FStr inclusion_1);
      ("inclusion_2", FStr inclusion_2) ] in
  Ok (dict_update row excl_criteria).

(** [excl_criteria], as [export_table] has it before it builds the
    row. *)
Definition excl_criteria_of (record : list (string * field))
  : result (list (string * field)) :=
  if dict_mem "excl_criteria" record then
    let? c := field_of record "excl_criteria" in
    match c with
    | FStr s => criteria_of (PyStr.split ";"%char s) []
    | FState _ => Raise AttributeError
    end
  else Ok [].

End RecordStates.

Arguments field : clear implicits.
Arguments dataset_event : clear implicits.

(** Record states for the examples. *)
Inductive DemoState : Type :=
| S_md_retrieved
| S_md_processed
| S_rev_prescreen_excluded
| S_rev_prescreen_included
| S_pdf_needs_manual_retrieval
| S_pdf_imported
| S_rev_excluded
| S_rev_included
| S_rev_synthesized.

#[global] Instance DemoState_eq_dec : EqDecision DemoState.
Proof. solve_decision. Defined.

(** An operation whose settings spell the endpoint with upper-case
    letters, as [load_packages] accepts it. *)
Module DemoMixedCase.

Definition self : Prescreen.operation_state (H:=DemoPrescreen.env) :=
  {| Prescreen.settings_endpoints :=
       [VDict [("endpoint", VStr "colrev_built_in.Scope_Prescreen")]];
     Prescreen.prescreen_package_endpoints :=
       ([("colrev_built_in.scope_prescreen", "ScopePrescreen")]
        : list (string * Prescreen.endpoint (Env:=DemoPrescreen.env))) |}.

End DemoMixedCase.

(** * Properties *)

(** ** Dictionaries and strings *)

Section DictFacts.
Context {K V : Type} `{EqDecision K}.
Implicit Types (k : K) (v : V) (d : list (K * V)).

Lemma dict_get_set_eq k v d : dict_get k (dict_set k v d) = Some v.
Proof.
  induction d as [|[k' v'] d IH]; simpl.
  - rewrite decide_True; auto.
  - destruct (decide (k' = k)) as [->|Hne]; simpl.
    + rewrite decide_True; auto.
    + rewrite decide_False; auto.
Qed.

Lemma dict_get_set_ne k k' v d :
  k <> k' -> dict_get k' (dict_set k v d) = dict_get k' d.
Proof.
  intros Hne. induction d as [|[k0 v0] d IH]; simpl.
  - rewrite decide_False; auto.
  - destruct (decide (k0 = k)) as [->|Hne0]; simpl.
    + rewrite !decide_False; auto.
    + destruct (decide (k0 = k')); auto.
Qed.

Lemma dict_get_set k k' v d :
  dict_get k' (dict_set k v d) = if decide (k = k') then Some v else dict_get k' d.
Proof.
  destruct (decide (k = k')) as [->|Hne].
  - apply dict_get_set_eq.
  - apply dict_get_set_ne, Hne.
Qed.

Lemma dict_keys_set_present k v v0 d :
  dict_get k d = Some v0 -> dict_keys (dict_set k v d) = dict_keys d.
Proof.
  unfold dict_keys. induction d as [|[k' v'] d IH]; simpl; [discriminate|].
  destruct (decide (k' = k)); simpl; intros Hg; [reflexivity|].
  f_equal. apply IH, Hg.
Qed.

Lemma dict_keys_set_absent k v d :
  dict_get k d = None -> dict_keys (dict_set k v d) = (dict_keys d ++ [k])%list.
Proof.
  unfold dict_keys. induction d as [|[k' v'] d IH]; simpl; [reflexivity|].
  destruct (decide (k' = k)); simpl; intros Hg; [discriminate|].
  f_equal. apply IH, Hg.
Qed.

Lemma dict_get_Some_elem k v d : dict_get k d = Some v -> (k, v) ∈ d.
Proof.
  induction d as [|[k' v'] d IH]; simpl; [discriminate|].
  destruct (decide (k' = k)) as [->|Hne]; intros Hg.
  - injection Hg as ->. apply list_elem_of_here.
  - apply list_elem_of_further, IH, Hg.
Qed.

Lemma dict_get_Some_key k v d : dict_get k d = Some v -> k ∈ dict_keys d.
Proof.
  intros Hg. apply dict_get_Some_elem in Hg.
  unfold dict_keys. apply list_elem_of_fmap. exists (k, v). split; [reflexivity | exact Hg].
Qed.

Lemma dict_get_key_Some k d : k ∈ dict_keys d -> exists v, dict_get k d = Some v.
Proof.
  unfold dict_keys. induction d as [|[k' v'] d IH]; simpl; intros Hin.
  - inversion Hin.
  - destruct (decide (k' = k)) as [->|Hne]; [eauto|].
    apply IH. inversion Hin; subst; [congruence | assumption].
Qed.

Lemma dict_get_None_key k d : dict_get k d = None -> k ∉ dict_keys d.
Proof.
  intros Hg Hin. apply dict_get_key_Some in Hin as [v Hv]. congruence.
Qed.

Lemma dict_mem_true k d : dict_mem k d = true <-> exists v, dict_get k d = Some v.
Proof.
  unfold dict_mem. destruct (dict_get k d); split; eauto; try discriminate.
  intros [v Hv]. discriminate.
Qed.

Lemma dict_set_same k v d :
  dict_get k d = Some v -> dict_set k v d = d.
Proof.
  induction d as [|[k' v'] d IH]; simpl; [discriminate|].
  destruct (decide (k' = k)) as [->|Hne]; intros Hg.
  - injection Hg as ->. reflexivity.
  - rewrite (IH Hg). reflexivity.
Qed.

Lemma dict_set_set k v v' d :
  dict_set k v (dict_set k v' d) = dict_set k v d.
Proof.
  induction d as [|[k0 v0] d IH]; simpl.
  - rewrite decide_True; auto.
  - destruct (decide (k0 = k)) as [->|Hne]; simpl.
    + rewrite decide_True; auto.
    + rewrite decide_False by exact Hne. rewrite IH. reflexivity.
Qed.

Lemma dict_set_NoDup k v d :
  NoDup (dict_keys d) -> NoDup (dict_keys (dict_set k v d)).
Proof.
  intros Hnd. destruct (dict_get k d) as [v0|] eqn:Hk.
  - rewrite (dict_keys_set_present _ _ _ _ Hk). exact Hnd.
  - rewrite (dict_keys_set_absent _ _ _ Hk). apply NoDup_app.
    repeat split; [exact Hnd | | apply NoDup_singleton].
    intros x Hx Hx'. apply list_elem_of_singleton in Hx'. subst x.
    eapply dict_get_None_key; eassumption.
Qed.

Lemma dict_get_elem_NoDup k v d :
  NoDup (dict_keys d) -> (k, v) ∈ d -> dict_get k d = Some v.
Proof.
  unfold dict_keys. induction d as [|[k' v'] d IH]; simpl; intros Hnd Hin.
  - inversion Hin.
  - apply NoDup_cons in Hnd as [Hk' Hnd].
    apply elem_of_cons in Hin as [Heq|Hin].
    + injection Heq as -> ->. rewrite decide_True; auto.
    + destruct (decide (k' = k)) as [->|Hne]; [|auto].
      exfalso. apply Hk'. apply list_elem_of_fmap. exists (k, v). auto.
Qed.

End DictFacts.

Section StringFacts.

Lemma lower_char_not_upper c : PyStr.is_upper c = false -> PyStr.lower_char c = c.
Proof. unfold PyStr.lower_char. intros ->. reflexivity. Qed.

Lemma lower_char_is_not_upper c : PyStr.is_upper (PyStr.lower_char c) = false.
Proof.
  destruct c as [[] [] [] [] [] [] [] []]; vm_compute; reflexivity.
Qed.

Lemma lower_no_upper s : PyStr.has_upper s = false -> PyStr.lower s = s.
Proof.
  induction s as [|c s IH]; simpl; [reflexivity|].
  intros Hu. apply orb_false_iff in Hu as [Hc Hs].
  rewrite lower_char_not_upper, IH; auto.
Qed.

Lemma has_upper_lower s : PyStr.has_upper (PyStr.lower s) = false.
Proof.
  induction s as [|c s IH]; simpl; [reflexivity|].
  rewrite lower_char_is_not_upper, IH. reflexivity.
Qed.

Lemma lower_idempotent s : PyStr.lower (PyStr.lower s) = PyStr.lower s.
Proof. apply lower_no_upper, has_upper_lower. Qed.

Lemma islower_lower s : PyStr.islower s = true -> PyStr.lower s = s.
Proof.
  unfold PyStr.islower. intros Hl. apply andb_true_iff in Hl as [_ Hu].
  apply lower_no_upper. destruct (PyStr.has_upper s); [discriminate | reflexivity].
Qed.

(** Cased characters beyond A to Z: [lower] maps U+00C4 (A with
    diaeresis) to U+00E4 and leaves the multiplication sign U+00D7 and the
    sharp s U+00DF alone; a string of U+00E4 and U+00F6 is lower case, and
    [a] followed by U+00C4 is not. *)
Lemma lower_beyond_a_to_z :
  PyStr.lower (String (ascii_of_nat 196) (String (ascii_of_nat 215)
                 (String (ascii_of_nat 223) "B")))
  = String (ascii_of_nat 228) (String (ascii_of_nat 215)
      (String (ascii_of_nat 223) "b"))
  /\ PyStr.islower (String (ascii_of_nat 228) (String (ascii_of_nat 246) "")) = true
  /\ PyStr.islower (String "a" (String (ascii_of_nat 196) "")) = false.
Proof. vm_compute. repeat split. Qed.

(** Splitting a dotted path at its last dot. *)
Lemma rsplit_last_no_sep sep s :
  PyStr.contains (String sep EmptyString) s = false -> PyStr.rsplit_last sep s = None.
Proof.
  induction s as [|c s IH]; simpl; [reflexivity|].
  intros Hc. apply orb_false_iff in Hc as [Hp Hs].
  rewrite (IH Hs).
  destruct (Ascii.eqb c sep) eqn:Heq; [|reflexivity].
  apply Ascii.eqb_eq in Heq. subst c.
  destruct (ascii_dec sep sep) as [_|Hn]; [|congruence].
  destruct s; discriminate.
Qed.

Lemma rsplit_last_app sep m c :
  PyStr.contains (String sep EmptyString) c = false ->
  PyStr.rsplit_last sep (m +:+ String sep c) = Some (m, c).
Proof.
  intros Hc. induction m as [|a m IH].
  - simpl. rewrite (rsplit_last_no_sep _ _ Hc), Ascii.eqb_refl. reflexivity.
  - change (String a m +:+ String sep c) with (String a (m +:+ String sep c)).
    cbn [PyStr.rsplit_last]. rewrite IH. reflexivity.
Qed.

Lemma rsplit1_dotted m c :
  PyStr.contains "." c = false ->
  PyStr.rsplit1 "."%char (m +:+ "." +:+ c) = [m; c].
Proof.
  intros Hc. unfold PyStr.rsplit1.
  change ("." +:+ c) with (String "."%char c).
  rewrite (rsplit_last_app _ _ _ Hc). reflexivity.
Qed.

Lemma rsplit1_undotted s :
  PyStr.contains "." s = false -> PyStr.rsplit1 "."%char s = [s].
Proof.
  intros Hc. unfold PyStr.rsplit1. rewrite (rsplit_last_no_sep _ _ Hc). reflexivity.
Qed.

End StringFacts.

(** ** The order of the package types *)

(** C3 (as stated, refuted). The specification orders the stages
    preparation, prescreen, dedupe, PDF retrieval, PDF preparation, screen,
    data; [PackageEndpointType] does not enumerate them in that order. *)
Lemma enum_order_differs_from_spec :
  EndpointType.pipeline_stages <> [prep; prescreen; dedupe; pdf_get; pdf_prep; screen; data]
  /\ ~ (EndpointType.position prescreen < EndpointType.position dedupe).
Proof.
  split.
  - vm_compute. discriminate.
  - vm_compute. lia.
Qed.

(** C3 (amended). [PackageEndpointType] enumerates the pipeline stages in
    the order preparation, dedupe, prescreen, PDF retrieval, PDF
    preparation, screen, data: dedupe comes before prescreen. *)
Theorem stage_order :
  EndpointType.pipeline_stages = [prep; dedupe; prescreen; pdf_get; pdf_prep; screen; data]
  /\ EndpointType.position prep < EndpointType.position dedupe
  /\ EndpointType.position dedupe < EndpointType.position prescreen
  /\ EndpointType.position prescreen < EndpointType.position pdf_get
  /\ EndpointType.position pdf_get < EndpointType.position pdf_prep
  /\ EndpointType.position pdf_prep < EndpointType.position screen
  /\ EndpointType.position screen < EndpointType.position data.
Proof. vm_compute. repeat split; lia. Qed.

(** ** Loading one endpoint class *)

Lemma demo_manager_constructed : PM.init (H:=Demo.w) [] = Ok Demo.manager.
Proof. vm_compute. reflexivity. Qed.

(** C5 (as stated, refuted). On the manager constructed from an index
    without a [dedupe] section, the identifier [x] is not registered under
    [dedupe], and [load_package_endpoint] raises [KeyError], not
    [MissingDependencyError]. *)
Lemma load_package_endpoint_unregistered_type :
  PM.init (H:=Demo.w) [] = Ok Demo.manager
  /\ ~ registered_under Demo.manager dedupe (PyStr.lower "x")
  /\ PM.load_package_endpoint (H:=Demo.w) Demo.manager [] dedupe "x"
     = Raise (KeyError "PackageEndpointType.dedupe")
  /\ ~ raises_MissingDependencyError
         (PM.load_package_endpoint (H:=Demo.w) Demo.manager [] dedupe "x").
Proof.
  split; [apply demo_manager_constructed|].
  split; [|split].
  - intros (d & m & Hd & _). vm_compute in Hd. discriminate.
  - vm_compute. reflexivity.
  - intros [msg Hmsg]. vm_compute in Hmsg. discriminate.
Qed.

(** C5 (amended). [load_package_endpoint] lowercases the identifier. When
    the package type has no entry in the registry it raises [KeyError].
    When it has one: it raises [MissingDependencyError] whenever the
    lowercased identifier is not registered under the type, and
    otherwise, for an entry whose [endpoint] is the dotted path [m.c], it
    is the import of the module [m] followed by the lookup of the
    attribute [c], whose exceptions propagate (an undotted path is both
    the module and the attribute). *)
Theorem load_package_endpoint_spec `{World} (self : PackageManager)
    (path : list string) (t : PackageEndpointType) (id : string) :
  PM.load_package_endpoint self path t id
    = PM.load_package_endpoint self path t (PyStr.lower id)
  /\ (dict_get t (packages self) = None ->
      PM.load_package_endpoint self path t id = Raise (KeyError (EndpointType.str t)))
  /\ forall d : list (string * pyval),
       dict_get t (packages self) = Some d ->
       (dict_get (PyStr.lower id) d = None ->
        raises_MissingDependencyError (PM.load_package_endpoint self path t id))
       /\ (forall metadata m c,
             dict_get (PyStr.lower id) d = Some metadata ->
             Py.getitem metadata "endpoint" = Ok (VStr (m +:+ "." +:+ c)) ->
             PyStr.contains "." c = false ->
             PM.load_package_endpoint self path t id
               = let? imported_package := import_module path m None in
                 getattr imported_package c)
       /\ (forall metadata c,
             dict_get (PyStr.lower id) d = Some metadata ->
             Py.getitem metadata "endpoint" = Ok (VStr c) ->
             PyStr.contains "." c = false ->
             PM.load_package_endpoint self path t id
               = let? imported_package := import_module path c None in
                 getattr imported_package c).
Proof.
  unfold PM.load_package_endpoint, PM.packages_of.
  rewrite lower_idempotent.
  split; [reflexivity|]. split.
  - intros ->. reflexivity.
  - intros d ->. simpl. split; [|split].
    + intros ->. eexists. reflexivity.
    + intros metadata m c -> -> Hc. simpl.
      rewrite (rsplit1_dotted _ _ Hc). reflexivity.
    + intros metadata c -> -> Hc. simpl.
      rewrite (rsplit1_undotted _ Hc). reflexivity.
Qed.

Lemma load_package_endpoint_spec_witness :
  PM.load_package_endpoint (H:=Demo.w) Demo.manager [] prep
    "colrev_built_in.Exclude_Collections"
  = Ok {| obj_name := "ExcludeCollectionsPrep";
          obj_doc := VStr "Prepares records by excluding collections" |}.
Proof.
  destruct (load_package_endpoint_spec (H:=Demo.w) Demo.manager [] prep
              "colrev_built_in.Exclude_Collections") as (_ & _ & Hd).
  destruct (Hd _ eq_refl) as (_ & Hload & _).
  rewrite (Hload _ "colrev.ops.built_in.prep.exclude_collections"
                 "ExcludeCollectionsPrep" eq_refl eq_refl eq_refl).
  reflexivity.
Defined.

Lemma load_package_endpoint_no_type `{World} self path t id :
  dict_get t (packages self) = None ->
  PM.load_package_endpoint self path t id = Raise (KeyError (EndpointType.str t)).
Proof.
  intros Ht. unfold PM.load_package_endpoint, PM.packages_of. rewrite Ht. reflexivity.
Qed.

(** ** The package index *)

Lemma index_unavailable `{World} :
  get_package_file_content "template/package_endpoints.json" = None
  \/ get_package_file_content "template/package_endpoints.json" = Some EmptyString ->
  exists msg, PM.load_package_endpoints_index = Raise (CoLRevException msg).
Proof.
  unfold PM.load_package_endpoints_index. intros [-> | ->]; eexists; reflexivity.
Qed.

Lemma check_entries_ok value :
  PM.check_entries value = Ok tt -> Forall entry_checked value.
Proof.
  induction value as [|[id p] value IH]; simpl; intros Hc; [constructor|].
  destruct (PyStr.contains " " id) eqn:Hid; [discriminate|].
  destruct (Py.contains " " p) as [[|]|] eqn:Hp; simpl in Hc; try discriminate.
  destruct (PyStr.islower id) eqn:Hl; simpl in Hc; [|discriminate].
  constructor; [|apply IH, Hc]. repeat split; assumption.
Qed.

Lemma index_loop_checked items reg reg' :
  registry_checked reg -> PM.index_loop items reg = Ok reg' -> registry_checked reg'.
Proof.
  revert reg. induction items as [|[key value] items IH]; simpl; intros reg Hreg Hl.
  - injection Hl as <-. exact Hreg.
  - destruct (EndpointType.of_name key) as [t|] eqn:Hk; simpl in Hl; [|discriminate].
    destruct (Py.items value) as [entries|] eqn:Hv; simpl in Hl; [|discriminate].
    destruct (PM.check_entries entries) as [[]|] eqn:Hc; simpl in Hl; [|discriminate].
    refine (IH _ _ Hl). intros t' d'. rewrite dict_get_set.
    destruct (decide (t = t')) as [->|Hne]; [|apply Hreg].
    intros Hd. injection Hd as <-. apply check_entries_ok, Hc.
Qed.

Lemma index_loop_NoDup items : forall reg reg',
  NoDup (dict_keys reg) -> PM.index_loop items reg = Ok reg' -> NoDup (dict_keys reg').
Proof.
  induction items as [|[key value] items IH]; simpl; intros reg reg' Hnd Hl.
  - injection Hl as <-. exact Hnd.
  - destruct (EndpointType.of_name key) as [t|]; simpl in Hl; [|discriminate].
    destruct (Py.items value) as [entries|]; simpl in Hl; [|discriminate].
    destruct (PM.check_entries entries) as [[]|]; simpl in Hl; [|discriminate].
    refine (IH _ _ _ Hl). apply dict_set_NoDup, Hnd.
Qed.

Lemma index_NoDup `{World} reg :
  PM.load_package_endpoints_index = Ok reg -> NoDup (dict_keys reg).
Proof.
  unfold PM.load_package_endpoints_index.
  destruct (get_package_file_content _) as [[|c filedata]|]; try discriminate.
  destruct (json_loads _) as [package_dict|]; simpl; [|discriminate].
  destruct (Py.items package_dict) as [items|]; simpl; [|discriminate].
  apply index_loop_NoDup. apply NoDup_nil_2.
Qed.

(** The part of C6 that the code does establish: without content the
    construction raises [CoLRevException]; with content, the identifiers of
    the registry have no space and are lowercase, and no metadata
    dictionary has the key [" "]. *)
Lemma index_checked `{World} reg :
  PM.load_package_endpoints_index = Ok reg -> registry_checked reg.
Proof.
  unfold PM.load_package_endpoints_index.
  destruct (get_package_file_content _) as [[|c filedata]|]; try discriminate.
  destruct (json_loads _) as [package_dict|]; simpl; [|discriminate].
  destruct (Py.items package_dict) as [items|]; simpl; [|discriminate].
  apply index_loop_checked. intros t d Hd. discriminate.
Qed.

(** C6 (the code at the failing input). The index whose only entry has the
    endpoint path [colrev.ops.built in.prep.Spaced] passes the three
    assertions: the second one tests the metadata dictionary for the key
    [" "], not the endpoint path for a space. The manager is constructed,
    and its registry holds an endpoint path with a space. *)
Theorem index_accepts_space_in_endpoint_path :
  PM.load_package_endpoints_index (H:=Demo.spaced_w)
    = Ok [(prep, [("colrev_built_in.spaced",
                   VDict [("endpoint", VStr "colrev.ops.built in.prep.Spaced")])])]
  /\ PM.init (H:=Demo.spaced_w) []
     = Ok {| packages :=
               [(prep, [("colrev_built_in.spaced",
                         VDict [("endpoint", VStr "colrev.ops.built in.prep.Spaced");
                                ("installed", VBool false)])])] |}
  /\ PyStr.contains " " "colrev.ops.built in.prep.Spaced" = true.
Proof. vm_compute. repeat split. Qed.

(** ** Flagging the installed packages *)

Section Flagging.
Context `{World}.
Implicit Types (self : PackageManager) (t : PackageEndpointType) (id key : string).

Lemma set_metadata_inv self t id key x self' :
  PM.set_metadata self t id key x = Ok self' ->
  exists d md,
    dict_get t (packages self) = Some d
    /\ dict_get id d = Some (VDict md)
    /\ packages self'
       = dict_set t (dict_set id (VDict (dict_set key x md)) d) (packages self).
Proof.
  unfold PM.set_metadata, PM.packages_of.
  destruct (dict_get t (packages self)) as [d|] eqn:Hd; simpl; [|discriminate].
  destruct (dict_get id d) as [[| | | | |md]|] eqn:Hid; simpl; try discriminate.
  intros Hs. injection Hs as <-. exists d, md. auto.
Qed.

Lemma set_metadata_total self t id key x md :
  lookup_metadata self t id = Some (VDict md) ->
  exists self', PM.set_metadata self t id key x = Ok self'.
Proof.
  unfold lookup_metadata, PM.set_metadata, PM.packages_of.
  destruct (dict_get t (packages self)) as [d|]; [|discriminate].
  simpl. intros ->. simpl. eauto.
Qed.

Lemma set_metadata_lookup self t id key x self' :
  PM.set_metadata self t id key x = Ok self' ->
  exists md,
    lookup_metadata self t id = Some (VDict md)
    /\ forall t' id',
         lookup_metadata self' t' id'
         = if decide (t = t' /\ id = id') then Some (VDict (dict_set key x md))
           else lookup_metadata self t' id'.
Proof.
  intros Hs. apply set_metadata_inv in Hs as (d & md & Hd & Hid & Hp).
  exists md. unfold lookup_metadata. rewrite Hd. split; [exact Hid|].
  intros t' id'. rewrite Hp, dict_get_set.
  destruct (decide (t = t')) as [<-|Hne].
  - rewrite Hd, dict_get_set.
    destruct (decide (id = id')) as [<-|Hne'].
    + rewrite decide_True; auto.
    + rewrite decide_False; [reflexivity | tauto].
  - rewrite decide_False; [reflexivity | tauto].
Qed.

Lemma set_metadata_keys self t id key x self' :
  PM.set_metadata self t id key x = Ok self' ->
  forall t', dict_keys <$> dict_get t' (packages self')
             = dict_keys <$> dict_get t' (packages self).
Proof.
  intros Hs t'. apply set_metadata_inv in Hs as (d & md & Hd & Hid & Hp).
  rewrite Hp, dict_get_set. destruct (decide (t = t')) as [<-|Hne]; [|reflexivity].
  rewrite Hd. simpl. f_equal. eapply dict_keys_set_present, Hid.
Qed.

(** Only the key [endpoint] of the metadata matters to
    [load_package_endpoint]. *)
Lemma load_set_metadata self t id key x self' path :
  key <> "endpoint" ->
  PM.set_metadata self t id key x = Ok self' ->
  forall t' id',
    PM.load_package_endpoint self' path t' id'
    = PM.load_package_endpoint self path t' id'.
Proof.
  intros Hkey Hs t' id'.
  apply set_metadata_inv in Hs as (d & md & Hd & Hid & Hp).
  unfold PM.load_package_endpoint, PM.packages_of.
  rewrite Hp, dict_get_set.
  destruct (decide (t = t')) as [<-|Hne]; [|reflexivity].
  rewrite Hd. simpl. rewrite dict_get_set.
  destruct (decide (id = PyStr.lower id')) as [<-|Hne']; [|reflexivity].
  rewrite Hid. unfold Py.getitem. rewrite dict_get_set_ne by exact Hkey.
  reflexivity.
Qed.

Lemma not_installed_error_cases e :
  PM.not_installed_error e = true <-> e = AttributeError \/ e = ModuleNotFoundError.
Proof.
  destruct e; simpl; split; intros Hx; try discriminate; auto;
    destruct Hx; discriminate.
Qed.

Lemma flag_step self path t id self1 :
  (forall e, PM.load_package_endpoint self path t id = Raise e ->
             PM.not_installed_error e = true) ->
  PM.set_metadata self t id "installed"
    (VBool (flag_of (PM.load_package_endpoint self path t id))) = Ok self1 ->
  (forall t' id', PM.load_package_endpoint self1 path t' id'
                  = PM.load_package_endpoint self path t' id')
  /\ (forall t', dict_keys <$> dict_get t' (packages self1)
                 = dict_keys <$> dict_get t' (packages self))
  /\ (forall t' id' m, lookup_metadata self t' id' = Some m ->
                       flag_agrees self path t' id' m ->
                       exists m', lookup_metadata self1 t' id' = Some m'
                                  /\ flag_agrees self1 path t' id' m')
  /\ (exists m', lookup_metadata self1 t id = Some m'
                 /\ flag_agrees self1 path t id m').
Proof.
  intros Hcaught Hs.
  assert (Hload : forall t' id', PM.load_package_endpoint self1 path t' id'
                                 = PM.load_package_endpoint self path t' id').
  { eapply load_set_metadata; [|exact Hs]. discriminate. }
  pose proof (set_metadata_keys _ _ _ _ _ _ Hs) as Hkeys.
  destruct (set_metadata_lookup _ _ _ _ _ _ Hs) as (md & Hmd & Hlk).
  assert (Hnew : exists m', lookup_metadata self1 t id = Some m'
                            /\ flag_agrees self1 path t id m').
  { eexists. split.
    - rewrite Hlk, decide_True by auto. reflexivity.
    - exists (flag_of (PM.load_package_endpoint self path t id)).
      split; [simpl; rewrite dict_get_set_eq; reflexivity|].
      rewrite Hload.
      destruct (PM.load_package_endpoint self path t id) as [cls|e] eqn:Hr; simpl.
      + split.
        * split; [eauto | reflexivity].
        * split; [discriminate | intros (e & He & _); discriminate].
      + split.
        * split; [discriminate | intros [cls Hcls]; discriminate].
        * split; [|reflexivity].
          intros _. exists e. split; [reflexivity|].
          apply not_installed_error_cases, Hcaught. reflexivity. }
  split; [exact Hload|]. split; [exact Hkeys|]. split; [|exact Hnew].
  intros t' id' m Hm Hag.
  destruct (decide (t = t' /\ id = id')) as [[<- <-]|Hne].
  - exact Hnew.
  - exists m. split.
    + rewrite Hlk, decide_False by exact Hne. exact Hm.
    + destruct Hag as (b & Hb & Ht & Hf). exists b. rewrite Hload. auto.
Qed.

Lemma flag_identifiers_spec path t ids : forall self self',
  PM.flag_identifiers path t ids self = Ok self' ->
  (forall t' id', PM.load_package_endpoint self' path t' id'
                  = PM.load_package_endpoint self path t' id')
  /\ (forall t', dict_keys <$> dict_get t' (packages self')
                 = dict_keys <$> dict_get t' (packages self))
  /\ (forall t' id' m, lookup_metadata self t' id' = Some m ->
                       flag_agrees self path t' id' m ->
                       exists m', lookup_metadata self' t' id' = Some m'
                                  /\ flag_agrees self' path t' id' m')
  /\ (forall id, id ∈ ids ->
                 exists m', lookup_metadata self' t id = Some m'
                            /\ flag_agrees self' path t id m').
Proof.
  induction ids as [|id ids IH]; intros self self' Hf; simpl in Hf.
  - injection Hf as <-. repeat split; eauto. intros id Hin. inversion Hin.
  - assert (exists self1,
               (forall e, PM.load_package_endpoint self path t id = Raise e ->
                          PM.not_installed_error e = true)
               /\ PM.set_metadata self t id "installed"
                    (VBool (flag_of (PM.load_package_endpoint self path t id)))
                  = Ok self1
               /\ PM.flag_identifiers path t ids self1 = Ok self')
      as (self1 & Hcaught & Hset & Hrest).
    { destruct (PM.load_package_endpoint self path t id) as [cls|e] eqn:Hr; simpl.
      - destruct (PM.set_metadata self t id "installed" (VBool true)) as [self1|]
          eqn:Hs; simpl in Hf; [|discriminate].
        exists self1. split; [discriminate | auto].
      - destruct (PM.not_installed_error e) eqn:He; [|discriminate].
        destruct (PM.set_metadata self t id "installed" (VBool false)) as [self1|]
          eqn:Hs; simpl in Hf; [|discriminate].
        exists self1. split; [|auto]. intros e' He'. injection He' as <-. exact He. }
    destruct (flag_step _ _ _ _ _ Hcaught Hset) as (Hl1 & Hk1 & Hp1 & Hn1).
    destruct (IH _ _ Hrest) as (Hl2 & Hk2 & Hp2 & Hn2).
    split; [intros; rewrite Hl2; apply Hl1|].
    split; [intros; rewrite Hk2; apply Hk1|].
    split.
    + intros t' id' m Hm Hag.
      destruct (Hp1 _ _ _ Hm Hag) as (m1 & Hm1 & Hag1). eauto.
    + intros id0 Hin. apply elem_of_cons in Hin as [->|Hin]; [|auto].
      destruct Hn1 as (m1 & Hm1 & Hag1). eauto.
Qed.

Lemma flag_types_spec path types : forall self self',
  PM.flag_types path types self = Ok self' ->
  (forall t' id', PM.load_package_endpoint self' path t' id'
                  = PM.load_package_endpoint self path t' id')
  /\ (forall t', dict_keys <$> dict_get t' (packages self')
                 = dict_keys <$> dict_get t' (packages self))
  /\ (forall t' id' m, lookup_metadata self t' id' = Some m ->
                       flag_agrees self path t' id' m ->
                       exists m', lookup_metadata self' t' id' = Some m'
                                  /\ flag_agrees self' path t' id' m')
  /\ (forall t ids id, (t, ids) ∈ types -> id ∈ ids ->
                       exists m', lookup_metadata self' t id = Some m'
                                  /\ flag_agrees self' path t id m').
Proof.
  induction types as [|[t ids] types IH]; intros self self' Hf; simpl in Hf.
  - injection Hf as <-. repeat split; eauto. intros t ids id Hin. inversion Hin.
  - destruct (PM.flag_identifiers path t ids self) as [self1|] eqn:H1;
      simpl in Hf; [|discriminate].
    destruct (flag_identifiers_spec _ _ _ _ _ H1) as (Hl1 & Hk1 & Hp1 & Hn1).
    destruct (IH _ _ Hf) as (Hl2 & Hk2 & Hp2 & Hn2).
    split; [intros; rewrite Hl2; apply Hl1|].
    split; [intros; rewrite Hk2; apply Hk1|].
    split.
    + intros t' id' m Hm Hag.
      destruct (Hp1 _ _ _ Hm Hag) as (m1 & Hm1 & Hag1). eauto.
    + intros t0 ids0 id0 Hin Hid. apply elem_of_cons in Hin as [Heq|Hin].
      * injection Heq as -> ->.
        destruct (Hn1 _ Hid) as (m1 & Hm1 & Hag1). eauto.
      * eauto.
Qed.

(** Every entry that a lookup reaches is visited by the two loops. *)
Lemma lookup_metadata_visited self' self t id m :
  (forall t', dict_keys <$> dict_get t' (packages self')
              = dict_keys <$> dict_get t' (packages self)) ->
  lookup_metadata self' t id = Some m ->
  exists ids, (t, ids) ∈ map (fun '(t, d) => (t, dict_keys d)) (packages self)
              /\ id ∈ ids.
Proof.
  intros Hkeys Hm. unfold lookup_metadata in Hm. specialize (Hkeys t).
  destruct (dict_get t (packages self')) as [d'|] eqn:Hd'; [|discriminate].
  destruct (dict_get t (packages self)) as [d|] eqn:Hd; [|discriminate].
  simpl in Hkeys. injection Hkeys as Hkeys.
  exists (dict_keys d). split.
  - apply dict_get_Some_elem in Hd. apply list_elem_of_fmap.
    exists (t, d). split; [reflexivity | exact Hd].
  - rewrite <- Hkeys. eapply dict_get_Some_key, Hm.
Qed.

Lemma flag_installed_packages_spec path self self' :
  PM.flag_installed_packages path self = Ok self' ->
  (forall t id, PM.load_package_endpoint self' path t id
                = PM.load_package_endpoint self path t id)
  /\ (forall t, dict_keys <$> dict_get t (packages self')
                = dict_keys <$> dict_get t (packages self))
  /\ (forall t id m, lookup_metadata self' t id = Some m ->
                     flag_agrees self' path t id m).
Proof.
  unfold PM.flag_installed_packages. intros Hf.
  destruct (flag_types_spec _ _ _ _ Hf) as (Hl & Hk & _ & Hn).
  split; [exact Hl|]. split; [exact Hk|].
  intros t id m Hm.
  destruct (lookup_metadata_visited _ _ _ _ _ Hk Hm) as (ids & Hin & Hid).
  destruct (Hn _ _ _ Hin Hid) as (m' & Hm' & Hag). congruence.
Qed.

(** The loops raise nothing that the [except] clause catches. *)
Lemma set_metadata_raises self t id key x e :
  PM.set_metadata self t id key x = Raise e -> PM.not_installed_error e = false.
Proof.
  unfold PM.set_metadata, PM.packages_of.
  destruct (dict_get t (packages self)) as [d|]; simpl;
    [|intros Hr; injection Hr as <-; reflexivity].
  destruct (dict_get id d) as [[| | | | |md]|]; simpl;
    intros Hr; try discriminate; injection Hr as <-; reflexivity.
Qed.

Lemma flag_identifiers_raises path t ids : forall self e,
  PM.flag_identifiers path t ids self = Raise e -> PM.not_installed_error e = false.
Proof.
  induction ids as [|id ids IH]; intros self e Hf; simpl in Hf; [discriminate|].
  destruct (PM.load_package_endpoint self path t id) as [cls|e0].
  - destruct (PM.set_metadata self t id "installed" (VBool true)) as [self1|e1]
      eqn:Hs; simpl in Hf.
    + eapply IH, Hf.
    + injection Hf as <-. eapply set_metadata_raises, Hs.
  - destruct (PM.not_installed_error e0) eqn:He0.
    + destruct (PM.set_metadata self t id "installed" (VBool false)) as [self1|e1]
        eqn:Hs; simpl in Hf.
      * eapply IH, Hf.
      * injection Hf as <-. eapply set_metadata_raises, Hs.
    + injection Hf as <-. exact He0.
Qed.

Lemma flag_types_raises path types : forall self e,
  PM.flag_types path types self = Raise e -> PM.not_installed_error e = false.
Proof.
  induction types as [|[t ids] types IH]; intros self e Hf; simpl in Hf;
    [discriminate|].
  destruct (PM.flag_identifiers path t ids self) as [self1|e1] eqn:H1; simpl in Hf.
  - eapply IH, Hf.
  - injection Hf as <-. eapply flag_identifiers_raises, H1.
Qed.

(** When [load_package_endpoint] gets as far as the import, the metadata
    of the entry is a dictionary. *)
Lemma load_reaches_metadata self path t id m :
  lookup_metadata self t id = Some m ->
  PyStr.lower id = id ->
  loads_or_not_installed (PM.load_package_endpoint self path t id) ->
  exists md, m = VDict md.
Proof.
  unfold lookup_metadata, PM.load_package_endpoint, PM.packages_of.
  intros Hm Hlow. rewrite Hlow.
  destruct (dict_get t (packages self)) as [d|]; [|discriminate].
  simpl. rewrite Hm.
  destruct m as [| | | | |md]; simpl; eauto;
    intros [[cls Hc]|(e & He & Hn)]; try discriminate;
    injection He as <-; discriminate.
Qed.

Lemma lookup_metadata_keys self self' t id :
  (forall t', dict_keys <$> dict_get t' (packages self')
              = dict_keys <$> dict_get t' (packages self)) ->
  is_Some (lookup_metadata self t id) -> is_Some (lookup_metadata self' t id).
Proof.
  intros Hk [m Hm]. unfold lookup_metadata in *. specialize (Hk t).
  destruct (dict_get t (packages self)) as [d|]; [|discriminate].
  destruct (dict_get t (packages self')) as [d'|]; [|discriminate].
  simpl in Hk. injection Hk as Hk.
  destruct (dict_get_key_Some id d') as [m' Hm']; [|eauto].
  rewrite Hk. eapply dict_get_Some_key, Hm.
Qed.

(** The inner loop returns when every load returns or is caught, and
    otherwise raises what the first other load raises. *)
Lemma flag_identifiers_outcome path t ids : forall self,
  (forall id, id ∈ ids ->
              PyStr.lower id = id /\ is_Some (lookup_metadata self t id)) ->
  match PM.flag_identifiers path t ids self with
  | Ok _ =>
      forall id, id ∈ ids ->
                 loads_or_not_installed (PM.load_package_endpoint self path t id)
  | Raise e =>
      PM.not_installed_error e = false
      /\ exists id, id ∈ ids /\ PM.load_package_endpoint self path t id = Raise e
  end.
Proof.
  induction ids as [|id ids IH]; intros self Hwf; simpl.
  - intros id Hin. inversion Hin.
  - destruct (Hwf id (list_elem_of_here _ _)) as [Hlow [m Hm]].
    assert (Hgo : loads_or_not_installed (PM.load_package_endpoint self path t id) ->
              exists self1,
                PM.set_metadata self t id "installed"
                  (VBool (flag_of (PM.load_package_endpoint self path t id)))
                = Ok self1
                /\ match PM.flag_identifiers path t ids self1 with
                   | Ok _ =>
                       forall id0, id0 ∈ id :: ids ->
                         loads_or_not_installed
                           (PM.load_package_endpoint self path t id0)
                   | Raise e =>
                       PM.not_installed_error e = false
                       /\ exists id0, id0 ∈ id :: ids
                            /\ PM.load_package_endpoint self path t id0 = Raise e
                   end).
    { intros Hok.
      destruct (load_reaches_metadata _ _ _ _ _ Hm Hlow Hok) as [md ->].
      destruct (set_metadata_total self t id "installed"
                  (VBool (flag_of (PM.load_package_endpoint self path t id))) md Hm)
        as [self1 Hset].
      exists self1. split; [exact Hset|].
      assert (Hload : forall t' id', PM.load_package_endpoint self1 path t' id'
                                     = PM.load_package_endpoint self path t' id').
      { eapply load_set_metadata; [|exact Hset]. discriminate. }
      specialize (IH self1).
      destruct (PM.flag_identifiers path t ids self1) as [self2|e].
      - intros id0 Hin. apply elem_of_cons in Hin as [->|Hin]; [exact Hok|].
        rewrite <- Hload. apply IH; [|exact Hin].
        intros id1 Hin1. destruct (Hwf id1 (list_elem_of_further _ _ _ Hin1)) as [Hl Hs].
        split; [exact Hl|].
        eapply lookup_metadata_keys; [|exact Hs].
        eapply set_metadata_keys, Hset.
      - destruct IH as (Hne & id0 & Hin & Hr).
        { intros id1 Hin1.
          destruct (Hwf id1 (list_elem_of_further _ _ _ Hin1)) as [Hl Hs].
          split; [exact Hl|].
          eapply lookup_metadata_keys; [|exact Hs].
          eapply set_metadata_keys, Hset. }
        split; [exact Hne|]. exists id0. split; [apply list_elem_of_further, Hin|].
        rewrite <- Hload. exact Hr. }
    destruct (PM.load_package_endpoint self path t id) as [cls|e] eqn:Hr.
    + destruct Hgo as (self1 & Hset & Hrest); [left; eauto|].
      simpl in Hset. rewrite Hset. simpl. exact Hrest.
    + destruct (PM.not_installed_error e) eqn:He.
      * destruct Hgo as (self1 & Hset & Hrest); [right; eauto|].
        simpl in Hset. rewrite Hset. simpl. exact Hrest.
      * split; [exact He|]. exists id. split; [apply list_elem_of_here | exact Hr].
Qed.

Lemma flag_types_outcome path types : forall self,
  (forall t ids id, (t, ids) ∈ types -> id ∈ ids ->
                    PyStr.lower id = id /\ is_Some (lookup_metadata self t id)) ->
  match PM.flag_types path types self with
  | Ok _ =>
      forall t ids id, (t, ids) ∈ types -> id ∈ ids ->
        loads_or_not_installed (PM.load_package_endpoint self path t id)
  | Raise e =>
      PM.not_installed_error e = false
      /\ exists t ids id, (t, ids) ∈ types /\ id ∈ ids
                          /\ PM.load_package_endpoint self path t id = Raise e
  end.
Proof.
  induction types as [|[t ids] types IH]; intros self Hwf; simpl.
  - intros t ids id Hin. inversion Hin.
  - pose proof (flag_identifiers_outcome path t ids self) as Hinner.
    destruct (PM.flag_identifiers path t ids self) as [self1|e] eqn:H1; simpl.
    + destruct (flag_identifiers_spec _ _ _ _ _ H1) as (Hload & Hkeys & _ & _).
      assert (Hwf1 : forall t' ids' id, (t', ids') ∈ types -> id ∈ ids' ->
                PyStr.lower id = id /\ is_Some (lookup_metadata self1 t' id)).
      { intros t' ids' id Hin Hid.
        destruct (Hwf t' ids' id (list_elem_of_further _ _ _ Hin) Hid) as [Hl Hs].
        split; [exact Hl|]. eapply lookup_metadata_keys; [exact Hkeys | exact Hs]. }
      specialize (IH self1 Hwf1).
      destruct (PM.flag_types path types self1) as [self2|e].
      * intros t' ids' id Hin Hid. apply elem_of_cons in Hin as [Heq|Hin].
        -- injection Heq as -> ->. apply Hinner; [|exact Hid].
           intros id0 Hid0. apply (Hwf t ids id0 (list_elem_of_here _ _) Hid0).
        -- rewrite <- Hload. eapply IH; eassumption.
      * destruct IH as (Hne & t' & ids' & id & Hin & Hid & Hr).
        split; [exact Hne|]. exists t', ids', id.
        split; [apply list_elem_of_further, Hin|]. split; [exact Hid|].
        rewrite <- Hload. exact Hr.
    + destruct Hinner as (Hne & id & Hid & Hr).
      { intros id0 Hid0. apply (Hwf t ids id0 (list_elem_of_here _ _) Hid0). }
      split; [exact Hne|]. exists t, ids, id.
      split; [apply list_elem_of_here | auto].
Qed.

End Flagging.

(** C4. Once [PackageManager.__init__] has returned, every entry of every
    package type of the registry carries the key [installed]; its value is
    [True] exactly when [load_package_endpoint] returns for the entry, and
    [False] exactly when it raises [AttributeError] or
    [ModuleNotFoundError]. The construction returns when
    [load_package_endpoint] returns or raises one of these two for every
    entry of the index. Any other exception propagates: when the
    construction raises in the flagging, what it raises is what
    [load_package_endpoint] raises for an entry, and is not one of the two;
    and it does raise when [load_package_endpoint] raises anything else for
    an entry. *)
Theorem init_flags_installed `{World} (path : list string) (reg : registry) :
  PM.load_package_endpoints_index = Ok reg ->
  (forall self, PM.init path = Ok self ->
     forall t d id metadata,
       dict_get t (packages self) = Some d -> dict_get id d = Some metadata ->
       flag_agrees self path t id metadata)
  /\ ((forall t d id, dict_get t reg = Some d -> id ∈ dict_keys d ->
         loads_or_not_installed
           (PM.load_package_endpoint {| packages := reg |} path t id)) ->
      exists self, PM.init path = Ok self)
  /\ (forall e, PM.init path = Raise e ->
        e <> AttributeError /\ e <> ModuleNotFoundError
        /\ exists t d id,
             dict_get t reg = Some d /\ id ∈ dict_keys d
             /\ PM.load_package_endpoint {| packages := reg |} path t id = Raise e)
  /\ (forall t d id metadata e,
        dict_get t reg = Some d -> dict_get id d = Some metadata ->
        PM.load_package_endpoint {| packages := reg |} path t id = Raise e ->
        e <> AttributeError -> e <> ModuleNotFoundError ->
        exists e', PM.init path = Raise e'
                   /\ e' <> AttributeError /\ e' <> ModuleNotFoundError).
Proof.
  intros Hreg. pose proof (index_checked _ Hreg) as Hchecked.
  pose proof (index_NoDup _ Hreg) as Hnd.
  unfold PM.init. rewrite Hreg. simpl.
  (* every entry that the loops visit is an entry of the registry *)
  assert (Hvisit : forall t ids id,
            (t, ids) ∈ map (fun '(t, d) => (t, dict_keys d)) reg -> id ∈ ids ->
            exists d, dict_get t reg = Some d /\ id ∈ dict_keys d).
  { intros t ids id Hin Hid. apply list_elem_of_fmap in Hin as ([t' d] & Heq & Hin).
    injection Heq as -> ->. exists d. split; [|exact Hid].
    apply dict_get_elem_NoDup; assumption. }
  assert (Hwf : forall t ids id,
            (t, ids) ∈ map (fun '(t, d) => (t, dict_keys d)) reg -> id ∈ ids ->
            PyStr.lower id = id
            /\ is_Some (lookup_metadata {| packages := reg |} t id)).
  { intros t ids id Hin Hid. destruct (Hvisit _ _ _ Hin Hid) as (d & Hd & Hk).
    destruct (dict_get_key_Some _ _ Hk) as [m Hm]. split.
    - apply islower_lower.
      pose proof (proj1 (Forall_forall _ _) (Hchecked _ _ Hd) _
                    (dict_get_Some_elem _ _ _ Hm)) as (_ & _ & Hlow).
      exact Hlow.
    - unfold lookup_metadata. simpl. rewrite Hd. eauto. }
  pose proof (flag_types_outcome path _ {| packages := reg |} Hwf) as Hout.
  unfold PM.flag_installed_packages. simpl packages in *.
  split; [|split; [|split]].
  - intros self Hf t d id metadata Hd Hid.
    destruct (flag_installed_packages_spec _ _ _ Hf) as (_ & _ & Hag).
    apply Hag. unfold lookup_metadata. rewrite Hd. exact Hid.
  - intros Hall.
    destruct (PM.flag_types path _ {| packages := reg |}) as [self|e]; [eauto|].
    destruct Hout as (Hne & t & ids & id & Hin & Hid & Hr).
    destruct (Hvisit _ _ _ Hin Hid) as (d & Hd & Hk).
    destruct (Hall _ _ _ Hd Hk) as [[cls Hc]|(e' & He' & Hcaught)]; [congruence|].
    rewrite Hr in He'. injection He' as ->. congruence.
  - intros e He. rewrite He in Hout.
    destruct Hout as (Hne & t & ids & id & Hin & Hid & Hr).
    destruct (Hvisit _ _ _ Hin Hid) as (d & Hd & Hk).
    split; [intros ->; discriminate|]. split; [intros ->; discriminate|].
    exists t, d, id. auto.
  - intros t d id metadata e Hd Hid Hload Hne1 Hne2.
    destruct (PM.flag_types path _ {| packages := reg |}) as [self|e'] eqn:Hf.
    + exfalso.
      assert (Hin : (t, dict_keys d) ∈ map (fun '(t, d) => (t, dict_keys d)) reg).
      { apply list_elem_of_fmap. exists (t, d). split; [reflexivity|].
        eapply dict_get_Some_elem, Hd. }
      destruct (Hout t _ id Hin (dict_get_Some_key _ _ _ Hid))
        as [[cls Hc]|(e0 & He0 & Hcaught)]; [congruence|].
      rewrite Hload in He0. injection He0 as <-.
      apply not_installed_error_cases in Hcaught. tauto.
    + exists e'. split; [reflexivity|].
      destruct Hout as (Hne & _). split; intros ->; discriminate.
Qed.

Lemma init_flags_installed_witness :
  flag_agrees (H:=Demo.w) Demo.manager [] prep "colrev_built_in.get_doi_from_urls"
    (VDict [("endpoint", VStr "colrev.ops.built_in.prep.doi_from_url.DOIFromURLsPrep");
            ("installed", VBool false)])
  /\ flag_agrees (H:=Demo.w) Demo.manager [] prep "colrev_built_in.exclude_collections"
    (VDict [("endpoint",
             VStr "colrev.ops.built_in.prep.exclude_collections.ExcludeCollectionsPrep");
            ("installed", VBool true)]).
Proof.
  destruct (init_flags_installed (H:=Demo.w) [] _ eq_refl) as [Hflag _].
  split.
  - exact (Hflag Demo.manager eq_refl prep _ "colrev_built_in.get_doi_from_urls" _
             eq_refl eq_refl).
  - exact (Hflag Demo.manager eq_refl prep _ "colrev_built_in.exclude_collections" _
             eq_refl eq_refl).
Defined.

(** ** Discovering packages *)

Section Discovering.
Context `{World}.
Implicit Types (self : PackageManager) (t : PackageEndpointType) (id key : string).

Lemma lookup_metadata_packages_of self t id m :
  lookup_metadata self t id = Some m ->
  exists d, PM.packages_of self t = Ok d /\ dict_get id d = Some m.
Proof.
  unfold lookup_metadata, PM.packages_of.
  destruct (dict_get t (packages self)) as [d|]; [eauto | discriminate].
Qed.

(** One visit, from whatever the entry holds. *)
Lemma discover_entry_step path t io id self self1 mcur :
  lookup_metadata self t id = Some mcur ->
  PM.discover_entry path t io id self = Ok self1 ->
  (forall t' id', PM.load_package_endpoint self1 path t' id'
                  = PM.load_package_endpoint self path t' id')
  /\ (forall t', dict_keys <$> dict_get t' (packages self1)
                 = dict_keys <$> dict_get t' (packages self))
  /\ (forall t' id', ~ (t = t' /\ id = id') ->
                     lookup_metadata self1 t' id' = lookup_metadata self t' id')
  /\ (exists m1, discovered_metadata self path t io id mcur = Ok m1
                 /\ lookup_metadata self1 t id = Some m1).
Proof.
  intros Hcur Hstep. unfold PM.discover_entry in Hstep.
  destruct (lookup_metadata_packages_of _ _ _ _ Hcur) as (d & Hd & Hid).
  rewrite Hd in Hstep. simpl in Hstep. rewrite Hid in Hstep. simpl in Hstep.
  unfold discovered_metadata.
  destruct (PM.skips io mcur) as [[|]|] eqn:Hskip; simpl in Hstep; [| |discriminate].
  - injection Hstep as <-. simpl. repeat split; eauto.
  - destruct (PM.load_package_endpoint self path t id) as [cls|] eqn:Hload;
      simpl in Hstep; [|discriminate].
    destruct (PM.set_metadata self t id "description" (obj_doc cls)) as [selfA|]
      eqn:HsetA; simpl in Hstep; [|discriminate].
    destruct (Py.getitem mcur "installed") as [v|] eqn:Hinst; simpl in Hstep;
      [|discriminate].
    assert (HlA : forall t' id', PM.load_package_endpoint selfA path t' id'
                                 = PM.load_package_endpoint self path t' id').
    { eapply load_set_metadata; [|exact HsetA]. discriminate. }
    assert (Hl1 : forall t' id', PM.load_package_endpoint self1 path t' id'
                                 = PM.load_package_endpoint selfA path t' id').
    { eapply load_set_metadata; [|exact Hstep]. discriminate. }
    pose proof (set_metadata_keys _ _ _ _ _ _ HsetA) as HkA.
    pose proof (set_metadata_keys _ _ _ _ _ _ Hstep) as Hk1.
    destruct (set_metadata_lookup _ _ _ _ _ _ HsetA) as (md & Hmd & HlkA).
    destruct (set_metadata_lookup _ _ _ _ _ _ Hstep) as (mdA & HmdA & Hlk1).
    rewrite Hcur in Hmd. injection Hmd as ->.
    rewrite HlkA, decide_True in HmdA by auto. injection HmdA as <-.
    split; [intros; rewrite Hl1; apply HlA|].
    split; [intros; rewrite Hk1; apply HkA|].
    split.
    + intros t' id' Hne. rewrite Hlk1, decide_False by exact Hne.
      rewrite HlkA, decide_False by exact Hne. reflexivity.
    + simpl. eexists. split; [reflexivity|].
      rewrite Hlk1, decide_True by auto. f_equal. f_equal.
      apply dict_set_same. rewrite dict_get_set_ne by discriminate.
      simpl in Hinst. destruct (dict_get "installed" md); congruence.
Qed.

Lemma skips_described io md doc :
  PM.skips io (VDict (dict_set "description" doc md)) = PM.skips io (VDict md).
Proof.
  unfold PM.skips, Py.getitem. rewrite dict_get_set_ne by discriminate. reflexivity.
Qed.

(** A second visit changes nothing. *)
Lemma discovered_metadata_idempotent self path t io id m m1 :
  discovered_metadata self path t io id m = Ok m1 ->
  discovered_metadata self path t io id m1 = Ok m1.
Proof.
  unfold discovered_metadata.
  destruct (PM.skips io m) as [[|]|] eqn:Hskip; simpl; [| |discriminate].
  - intros Hm. injection Hm as <-. rewrite Hskip. reflexivity.
  - destruct (PM.load_package_endpoint self path t id) as [cls|]; simpl;
      [|discriminate].
    destruct m as [| | | | |md]; simpl; try discriminate.
    destruct (dict_get "installed" md) as [v|] eqn:Hv; simpl; [|discriminate].
    intros Hm. injection Hm as <-.
    rewrite skips_described, Hskip. simpl.
    rewrite dict_get_set_ne by discriminate. rewrite Hv. simpl.
    rewrite dict_set_set. reflexivity.
Qed.

Lemma discovered_metadata_load self self0 path t io id m :
  (forall t' id', PM.load_package_endpoint self path t' id'
                  = PM.load_package_endpoint self0 path t' id') ->
  discovered_metadata self path t io id m = discovered_metadata self0 path t io id m.
Proof. intros Hl. unfold discovered_metadata. rewrite Hl. reflexivity. Qed.

Lemma discover_loop_spec self0 path t io ids : forall self self',
  (forall t' id', PM.load_package_endpoint self path t' id'
                  = PM.load_package_endpoint self0 path t' id') ->
  (forall id m0, lookup_metadata self0 t id = Some m0 ->
                 entry_state self0 path t io id m0 (lookup_metadata self t id)) ->
  PM.discover_loop path t io ids self = Ok self' ->
  (forall t', dict_keys <$> dict_get t' (packages self')
              = dict_keys <$> dict_get t' (packages self))
  /\ (forall id m0, lookup_metadata self0 t id = Some m0 ->
                    entry_state self0 path t io id m0 (lookup_metadata self' t id))
  /\ (forall id m0 m1, lookup_metadata self0 t id = Some m0 ->
                       discovered_metadata self0 path t io id m0 = Ok m1 ->
                       lookup_metadata self t id = Some m1 ->
                       lookup_metadata self' t id = Some m1)
  /\ (forall id m0, id ∈ ids -> lookup_metadata self0 t id = Some m0 ->
                    exists m1, discovered_metadata self0 path t io id m0 = Ok m1
                               /\ lookup_metadata self' t id = Some m1).
Proof.
  induction ids as [|id ids IH]; intros self self' Hload Hinv Hloop; simpl in Hloop.
  - injection Hloop as <-. repeat split; auto. intros id m0 Hin. inversion Hin.
  - destruct (PM.discover_entry path t io id self) as [self1|] eqn:Hstep;
      simpl in Hloop; [|discriminate].
    assert (exists mcur, lookup_metadata self t id = Some mcur) as [mcur Hcur].
    { unfold PM.discover_entry, PM.packages_of, lookup_metadata in *.
      destruct (dict_get t (packages self)) as [d|]; simpl in Hstep; [|discriminate].
      destruct (dict_get id d) as [p|]; simpl in Hstep; [eauto | discriminate]. }
    destruct (discover_entry_step _ _ _ _ _ _ _ Hcur Hstep)
      as (Hl1 & Hk1 & Hother & (m1 & Hm1 & Hlk1)).
    rewrite (discovered_metadata_load _ _ _ _ _ _ _ Hload) in Hm1.
    (* the visited entry, with respect to the start *)
    assert (Hvisited : forall m0, lookup_metadata self0 t id = Some m0 ->
                                  discovered_metadata self0 path t io id m0 = Ok m1).
    { intros m0 Hm0. destruct (Hinv _ _ Hm0) as [Hc|(m1' & Hd' & Hc)];
        rewrite Hcur in Hc; injection Hc as ->; [exact Hm1|].
      rewrite (discovered_metadata_idempotent _ _ _ _ _ _ _ Hd') in Hm1.
      congruence. }
    assert (Hinv1 : forall id' m0, lookup_metadata self0 t id' = Some m0 ->
                      entry_state self0 path t io id' m0 (lookup_metadata self1 t id')).
    { intros id' m0 Hm0. destruct (decide (id = id')) as [<-|Hne].
      - right. exists m1. split; [apply Hvisited, Hm0 | exact Hlk1].
      - rewrite Hother by tauto. apply Hinv, Hm0. }
    assert (Hload1 : forall t' id', PM.load_package_endpoint self1 path t' id'
                                    = PM.load_package_endpoint self0 path t' id').
    { intros. rewrite Hl1. apply Hload. }
    destruct (IH _ _ Hload1 Hinv1 Hloop) as (Hk2 & Hinv2 & Hstay2 & Hvis2).
    split; [intros; rewrite Hk2; apply Hk1|].
    split; [exact Hinv2|].
    split.
    + intros id' m0 m1' Hm0 Hd' Hc. apply (Hstay2 _ _ _ Hm0 Hd').
      destruct (decide (id = id')) as [<-|Hne].
      * rewrite Hlk1. f_equal. rewrite (Hvisited _ Hm0) in Hd'. congruence.
      * rewrite Hother by tauto. exact Hc.
    + intros id' m0 Hin Hm0. apply elem_of_cons in Hin as [->|Hin].
      * exists m1. split; [apply Hvisited, Hm0|].
        apply (Hstay2 _ _ _ Hm0 (Hvisited _ Hm0) Hlk1).
      * apply (Hvis2 _ _ Hin Hm0).
Qed.

(** The loop returns when every visit has an outcome. *)
Lemma discover_entry_total path t io id self mcur m1 :
  lookup_metadata self t id = Some mcur ->
  discovered_metadata self path t io id mcur = Ok m1 ->
  exists self1, PM.discover_entry path t io id self = Ok self1.
Proof.
  intros Hcur Hd. unfold PM.discover_entry.
  destruct (lookup_metadata_packages_of _ _ _ _ Hcur) as (d & Hpk & Hid).
  rewrite Hpk. simpl. rewrite Hid. simpl.
  unfold discovered_metadata in Hd.
  destruct (PM.skips io mcur) as [[|]|]; simpl in *; [eauto| |discriminate].
  destruct (PM.load_package_endpoint self path t id) as [cls|]; simpl in *;
    [|discriminate].
  destruct mcur as [| | | | |md]; simpl in Hd; try discriminate.
  destruct (set_metadata_total self t id "description" (obj_doc cls) md Hcur)
    as [selfA HsetA].
  rewrite HsetA. simpl.
  destruct (dict_get "installed" md) as [v|]; simpl in *; [|discriminate].
  destruct (set_metadata_lookup _ _ _ _ _ _ HsetA) as (md' & _ & HlkA).
  eapply set_metadata_total. rewrite HlkA, decide_True by auto. reflexivity.
Qed.

Lemma discover_loop_total self0 path t io ids : forall self,
  (forall t' id', PM.load_package_endpoint self path t' id'
                  = PM.load_package_endpoint self0 path t' id') ->
  (forall id m0, lookup_metadata self0 t id = Some m0 ->
                 entry_state self0 path t io id m0 (lookup_metadata self t id)) ->
  (forall id, id ∈ ids ->
              exists m0 m1, lookup_metadata self0 t id = Some m0
                            /\ discovered_metadata self0 path t io id m0 = Ok m1) ->
  exists self', PM.discover_loop path t io ids self = Ok self'.
Proof.
  induction ids as [|id ids IH]; intros self Hload Hinv Hall; simpl; [eauto|].
  destruct (Hall id) as (m0 & m1 & Hm0 & Hd); [apply list_elem_of_here|].
  assert (exists mcur, lookup_metadata self t id = Some mcur
                       /\ discovered_metadata self path t io id mcur = Ok m1)
    as (mcur & Hcur & Hdc).
  { destruct (Hinv _ _ Hm0) as [Hc|(m1' & Hd' & Hc)].
    - exists m0. rewrite (discovered_metadata_load _ _ _ _ _ _ _ Hload). auto.
    - exists m1'. split; [exact Hc|].
      rewrite (discovered_metadata_load _ _ _ _ _ _ _ Hload).
      rewrite (discovered_metadata_idempotent _ _ _ _ _ _ _ Hd'). congruence. }
  destruct (discover_entry_total _ _ _ _ _ _ _ Hcur Hdc) as [self1 Hstep].
  rewrite Hstep. simpl.
  assert (Hone : PM.discover_loop path t io [id] self = Ok self1).
  { simpl. rewrite Hstep. reflexivity. }
  destruct (discover_loop_spec _ _ _ _ _ _ _ Hload Hinv Hone) as (_ & Hinv1 & _ & _).
  destruct (discover_entry_step _ _ _ _ _ _ _ Hcur Hstep) as (Hl1 & _).
  apply IH.
  - intros. rewrite Hl1. apply Hload.
  - exact Hinv1.
  - intros id' Hin. apply Hall. apply list_elem_of_further, Hin.
Qed.

End Discovering.

(** C7 (as stated, refuted). On the constructed manager of the example,
    whose package [colrev_built_in.get_doi_from_urls] is flagged not
    installed, [discover_packages] with [installed_only=False] does not
    return the mapping of [prep]: loading that package raises
    [ModuleNotFoundError]. For a type without an entry in the registry it
    raises [KeyError]. *)
Lemma discover_packages_raises :
  PM.init (H:=Demo.w) [] = Ok Demo.manager
  /\ PM.discover_packages (H:=Demo.w) Demo.manager [] prep false
     = Raise ModuleNotFoundError
  /\ PM.discover_packages (H:=Demo.w) Demo.manager [] dedupe true
     = Raise (KeyError "PackageEndpointType.dedupe").
Proof. vm_compute. repeat split. Qed.

(** C7 (amended). For a package type that has an entry in the registry and
    both values of [installed_only], whenever [discover_packages] returns,
    it returns the registry's whole dictionary for the type (the very
    object of the registry): the keys are those of the registry, in order;
    an entry that is skipped ([installed_only] and a false [installed]
    flag) is there with its metadata unchanged, hence without a description
    attached; every other entry is there with the [description] of its
    loaded class. On a constructed manager the call returns with
    [installed_only=True]; with [installed_only=False] it returns when
    every entry of the type is flagged installed and raises when one is
    flagged not installed. *)
Theorem discover_packages_entire_mapping `{World} (self : PackageManager)
    (path : list string) (t : PackageEndpointType) (d0 : list (string * pyval)) :
  dict_get t (packages self) = Some d0 ->
  (forall installed_only d self',
     PM.discover_packages self path t installed_only = Ok (d, self') ->
     dict_get t (packages self') = Some d
     /\ dict_keys d = dict_keys d0
     /\ (forall id m0, dict_get id d0 = Some m0 ->
           (PM.skips installed_only m0 = Ok true /\ dict_get id d = Some m0)
           \/ (PM.skips installed_only m0 = Ok false
               /\ exists cls m1,
                    PM.load_package_endpoint self path t id = Ok cls
                    /\ Py.setitem m0 "description" (obj_doc cls) = Ok m1
                    /\ dict_get id d = Some m1))
     /\ (forall id m0, installed_only = true -> dict_get id d0 = Some m0 ->
           Py.getitem m0 "installed" = Ok (VBool false) ->
           dict_get id d = Some m0))
  /\ (PM.init path = Ok self ->
      (exists d self', PM.discover_packages self path t true = Ok (d, self'))
      /\ ((forall id m0, dict_get id d0 = Some m0 ->
             Py.getitem m0 "installed" = Ok (VBool true)) ->
          exists d self', PM.discover_packages self path t false = Ok (d, self'))
      /\ (forall id m0, dict_get id d0 = Some m0 ->
             Py.getitem m0 "installed" = Ok (VBool false) ->
             exists e, PM.discover_packages self path t false = Raise e)).
Proof.
  intros Hd0.
  assert (Hstart : forall io id m0, lookup_metadata self t id = Some m0 ->
                     entry_state self path t io id m0 (lookup_metadata self t id)).
  { intros io id m0 Hm0. left. exact Hm0. }
  assert (Hlk0 : forall id, lookup_metadata self t id = dict_get id d0).
  { intros id. unfold lookup_metadata. rewrite Hd0. reflexivity. }
  assert (Hmapping : forall installed_only d self',
     PM.discover_packages self path t installed_only = Ok (d, self') ->
     dict_get t (packages self') = Some d
     /\ dict_keys d = dict_keys d0
     /\ (forall id m0, dict_get id d0 = Some m0 ->
           (PM.skips installed_only m0 = Ok true /\ dict_get id d = Some m0)
           \/ (PM.skips installed_only m0 = Ok false
               /\ exists cls m1,
                    PM.load_package_endpoint self path t id = Ok cls
                    /\ Py.setitem m0 "description" (obj_doc cls) = Ok m1
                    /\ dict_get id d = Some m1))
     /\ (forall id m0, installed_only = true -> dict_get id d0 = Some m0 ->
           Py.getitem m0 "installed" = Ok (VBool false) ->
           dict_get id d = Some m0)); [|split; [exact Hmapping|]].
  - intros io d self' Hdisc. unfold PM.discover_packages, PM.packages_of in Hdisc.
    rewrite Hd0 in Hdisc. simpl in Hdisc.
    destruct (PM.discover_loop path t io (dict_keys d0) self) as [self1|] eqn:Hloop;
      simpl in Hdisc; [|discriminate].
    destruct (dict_get t (packages self1)) as [d1|] eqn:Hd1; simpl in Hdisc;
      [|discriminate].
    injection Hdisc as <- <-.
    destruct (discover_loop_spec self path t io _ _ _ (fun _ _ => eq_refl)
                (Hstart io) Hloop) as (Hk & _ & _ & Hvis).
    assert (Hentries : forall id m0, dict_get id d0 = Some m0 ->
              exists m1, discovered_metadata self path t io id m0 = Ok m1
                         /\ dict_get id d1 = Some m1).
    { intros id m0 Hm0.
      destruct (Hvis id m0) as (m1 & Hm1 & Hlk1).
      - eapply dict_get_Some_key, Hm0.
      - rewrite Hlk0. exact Hm0.
      - exists m1. split; [exact Hm1|].
        unfold lookup_metadata in Hlk1. rewrite Hd1 in Hlk1. exact Hlk1. }
    split; [exact Hd1|]. split.
    { specialize (Hk t). rewrite Hd1, Hd0 in Hk. simpl in Hk. congruence. }
    split.
    + intros id m0 Hm0. destruct (Hentries _ _ Hm0) as (m1 & Hm1 & Hg).
      unfold discovered_metadata in Hm1.
      destruct (PM.skips io m0) as [[|]|]; simpl in Hm1; [| |discriminate].
      * left. injection Hm1 as <-. auto.
      * right. split; [reflexivity|].
        destruct (PM.load_package_endpoint self path t id) as [cls|]; simpl in Hm1;
          [|discriminate].
        destruct (Py.getitem m0 "installed"); simpl in Hm1; [|discriminate].
        exists cls, m1. auto.
    + intros id m0 -> Hm0 Hinst. destruct (Hentries _ _ Hm0) as (m1 & Hm1 & Hg).
      unfold discovered_metadata, PM.skips in Hm1. rewrite Hinst in Hm1.
      simpl in Hm1. congruence.
  - intros Hinit. unfold PM.init in Hinit.
    destruct PM.load_package_endpoints_index as [reg|]; simpl in Hinit;
      [|discriminate].
    destruct (flag_installed_packages_spec _ _ _ Hinit) as (_ & _ & Hag).
    assert (Hreturns : forall io,
              (forall id m0, dict_get id d0 = Some m0 ->
                 exists m1, discovered_metadata self path t io id m0 = Ok m1) ->
              exists d self', PM.discover_packages self path t io = Ok (d, self')).
    { intros io Hall. unfold PM.discover_packages, PM.packages_of.
      rewrite Hd0. simpl.
      destruct (discover_loop_total self path t io (dict_keys d0) self
                  (fun _ _ => eq_refl) (Hstart io)) as [self1 Hloop].
      { intros id Hin. apply dict_get_key_Some in Hin as [m0 Hm0].
        destruct (Hall _ _ Hm0) as [m1 Hm1]. exists m0, m1. rewrite Hlk0. auto. }
      rewrite Hloop. simpl.
      destruct (discover_loop_spec self path t io _ _ _ (fun _ _ => eq_refl)
                  (Hstart io) Hloop) as (Hk & _).
      specialize (Hk t). rewrite Hd0 in Hk.
      destruct (dict_get t (packages self1)) as [d1|]; [|discriminate].
      simpl. eauto. }
    split; [|split].
    + apply Hreturns. intros id m0 Hm0.
      destruct (Hag t id m0) as (b & Hb & Htrue & _); [rewrite Hlk0; exact Hm0|].
      unfold discovered_metadata, PM.skips. rewrite Hb. simpl.
      destruct b; simpl; [|eauto].
      destruct Htrue as [Ht _]. destruct (Ht eq_refl) as [cls ->]. simpl.
      destruct m0 as [| | | | |md]; try discriminate Hb. simpl. eauto.
    + intros Hall. apply Hreturns. intros id m0 Hm0.
      destruct (Hag t id m0) as (b & Hb & Htrue & _); [rewrite Hlk0; exact Hm0|].
      rewrite (Hall _ _ Hm0) in Hb. injection Hb as <-.
      unfold discovered_metadata, PM.skips.
      destruct Htrue as [Ht _]. destruct (Ht eq_refl) as [cls ->]. simpl.
      pose proof (Hall _ _ Hm0) as Hinst. rewrite Hinst. simpl.
      destruct m0 as [| | | | |md]; try discriminate Hinst. simpl. eauto.
    + intros id m0 Hm0 Hinst.
      destruct (PM.discover_packages self path t false) as [[d self']|e] eqn:Hdisc;
        [exfalso | eauto].
      destruct (Hmapping _ _ _ Hdisc) as (_ & _ & Hentries & _).
      destruct (Hag t id m0) as (b & Hb & Htrue & _); [rewrite Hlk0; exact Hm0|].
      rewrite Hinst in Hb. injection Hb as <-.
      destruct (Hentries _ _ Hm0) as [[Hskip _]|(_ & cls & _ & Hcls & _)].
      * discriminate Hskip.
      * destruct Htrue as [_ Ht]. discriminate Ht. eauto.
Qed.

Lemma discover_packages_entire_mapping_witness :
  exists d self',
    PM.discover_packages (H:=Demo.w) Demo.manager [] prep true = Ok (d, self')
    /\ dict_keys d = ["colrev_built_in.exclude_collections";
                      "colrev_built_in.get_doi_from_urls"]
    /\ dict_get "colrev_built_in.get_doi_from_urls" d
       = Some (VDict [("endpoint",
                       VStr "colrev.ops.built_in.prep.doi_from_url.DOIFromURLsPrep");
                      ("installed", VBool false)]).
Proof.
  destruct (discover_packages_entire_mapping (H:=Demo.w) Demo.manager [] prep _ eq_refl)
    as [Hmap Hret].
  destruct (Hret eq_refl) as [(d & self' & Hd) _].
  exists d, self'. split; [exact Hd|].
  destruct (Hmap true d self' Hd) as (_ & Hkeys & _ & Hkept).
  split; [exact Hkeys|].
  exact (Hkept "colrev_built_in.get_doi_from_urls" _ eq_refl eq_refl eq_refl).
Defined.

(** ** The prescreen operation *)

Lemma list_remove_absent x l :
  x ∉ l -> Prescreen.list_remove x l = Raise ValueError.
Proof.
  induction l as [|y l IH]; simpl; intros Hx; [reflexivity|].
  apply not_elem_of_cons in Hx as [Hne Hx].
  destruct (String.eqb y x) eqn:Heq.
  - apply String.eqb_eq in Heq. congruence.
  - rewrite (IH Hx). reflexivity.
Qed.

Lemma list_remove_present x l :
  x ∈ l -> exists l', Prescreen.list_remove x l = Ok l' /\ length l = S (length l').
Proof.
  induction l as [|y l IH]; simpl; intros Hx; [inversion Hx|].
  destruct (String.eqb y x) eqn:Heq; [eauto|].
  apply elem_of_cons in Hx as [->|Hx].
  - rewrite String.eqb_refl in Heq. discriminate.
  - destruct (IH Hx) as (l' & -> & Hlen). simpl. eexists. split; [reflexivity|].
    simpl. congruence.
Qed.

Lemma run_endpoints_appends `{Prescreen.Env} (self : Prescreen.operation_state)
    (split : list string) (selected : list pyval) :
  forall recs trace,
    exists trace',
      snd (Prescreen.run_endpoints self selected recs split trace)
      = (trace ++ trace')%list.
Proof.
  induction selected as [|p selected IH]; intros recs trace; simpl.
  - exists []. unfold ret. simpl. rewrite app_nil_r. reflexivity.
  - unfold bind, lift, Prescreen.emit.
    destruct (Py.getitem p "endpoint") as [name|]; simpl;
      [|exists []; rewrite app_nil_r; reflexivity].
    destruct (Prescreen.lookup_endpoint _ name) as [e|]; simpl;
      [|exists [Prescreen.Logger_info_run name]; reflexivity].
    destruct (Prescreen.run_prescreen e recs split) as [recs'|]; simpl.
    + destruct (IH recs' ((trace ++ [Prescreen.Logger_info_run name])
                            ++ [Prescreen.Run_prescreen e split])%list)
        as [trace' ->].
      eexists. rewrite <- !app_assoc. reflexivity.
    + eexists. rewrite <- !app_assoc. reflexivity.
Qed.

(** C9. For a [split_str] other than [NA], [main] removes the empty string
    from the comma-split list before anything else: when no part is empty
    it raises [ValueError] with nothing done (no records loaded, no
    endpoint run); when a part is empty the removal succeeds and the
    records are loaded next. *)
Theorem main_split_without_empty_part `{Prescreen.Env}
    (self : Prescreen.operation_state) (split_str : string)
    (trace : list (Prescreen.event Prescreen.endpoint)) :
  split_str <> "NA" ->
  (EmptyString ∉ PyStr.split ","%char split_str ->
   Prescreen.main self split_str trace = (Raise ValueError, trace))
  /\ (EmptyString ∈ PyStr.split ","%char split_str ->
      exists trace',
        snd (Prescreen.main self split_str trace)
        = (trace ++ Prescreen.Load_records_dict :: trace')%list).
Proof.
  intros Hna. unfold Prescreen.main, bind, lift.
  assert (Hneq : String.eqb split_str "NA" = false).
  { apply String.eqb_neq, Hna. }
  rewrite Hneq. simpl. split.
  - intros Habsent. rewrite (list_remove_absent _ _ Habsent). reflexivity.
  - intros Hpresent. destruct (list_remove_present _ _ Hpresent) as (l' & -> & _).
    unfold Prescreen.emit.
    destruct Prescreen.load_records_dict as [recs|e].
    + destruct (run_endpoints_appends self l' (Prescreen.settings_endpoints self)
                  recs (trace ++ [Prescreen.Load_records_dict])%list) as [trace' ->].
      exists trace'. rewrite <- app_assoc. reflexivity.
    + exists []. reflexivity.
Qed.

Lemma main_split_without_empty_part_witness :
  Prescreen.main (H:=DemoPrescreen.env) DemoPrescreen.self "a,b" []
  = (Raise ValueError, []).
Proof.
  refine (proj1 (main_split_without_empty_part (H:=DemoPrescreen.env)
                   DemoPrescreen.self "a,b" [] _) _).
  - discriminate.
  - vm_compute. intros Hin.
    repeat (apply elem_of_cons in Hin as [Hin|Hin]; [discriminate Hin|]).
    inversion Hin.
Defined.

(** With [NA] nothing is split, and with an empty part the split is used. *)
Example main_runs :
  Prescreen.main (H:=DemoPrescreen.env) DemoPrescreen.self "NA" []
  = (Ok tt, [Prescreen.Load_records_dict;
             Prescreen.Logger_info_run (VStr "colrev_built_in.scope_prescreen");
             Prescreen.Run_prescreen "ScopePrescreen" []])
  /\ Prescreen.main (H:=DemoPrescreen.env) DemoPrescreen.self "Smith2020," []
     = (Ok tt, [Prescreen.Load_records_dict;
                Prescreen.Logger_info_run (VStr "colrev_built_in.scope_prescreen");
                Prescreen.Run_prescreen "ScopePrescreen" ["Smith2020"]]).
Proof. vm_compute. split; reflexivity. Qed.

(** ** Loading packages: the deep copy *)

Section DeepCopy.

Lemma deepcopy_items_spec s0 items : forall memo s copies s',
  deepcopy_items s0 items memo s = (copies, s') ->
  (forall l r, dict_get l memo = Some r ->
               st_objs s !! r = Some (obj_at s0 l) /\ length (st_objs s0) <= r) ->
  length (st_objs s0) <= length (st_objs s) ->
  st_lists s' = st_lists s /\ sys_path s' = sys_path s /\ stdout s' = stdout s
  /\ (exists new, st_objs s' = (st_objs s ++ new)%list)
  /\ Forall2 (fun l r => st_objs s' !! r = Some (obj_at s0 l)
                         /\ length (st_objs s0) <= r) items copies.
Proof.
  induction items as [|l items IH]; intros memo s copies s' Hcopy Hmemo Hlen;
    simpl in Hcopy.
  - injection Hcopy as <- <-. repeat split; auto.
    exists []. rewrite app_nil_r. reflexivity.
  - destruct (dict_get l memo) as [r'|] eqn:Hl.
    + destruct (deepcopy_items s0 items memo s) as [copies1 s1] eqn:Hrest.
      injection Hcopy as <- <-.
      destruct (IH _ _ _ _ Hrest Hmemo Hlen) as (Hls & Hp & Ho & (new & Hnew) & Hall).
      repeat split; auto; [eauto|].
      constructor; [|exact Hall].
      destruct (Hmemo _ _ Hl) as [Hr' Hfresh]. split; [|exact Hfresh].
      rewrite Hnew. apply lookup_app_l_Some, Hr'.
    + unfold alloc_obj in Hcopy. cbv beta iota in Hcopy.
      set (s1 := {| st_lists := st_lists s;
                    st_objs := (st_objs s ++ [obj_at s0 l])%list;
                    sys_path := sys_path s; stdout := stdout s |}) in Hcopy.
      match type of Hcopy with
      | context [deepcopy_items ?a ?b ?c ?d] =>
          destruct (deepcopy_items a b c d) as [copies1 s2] eqn:Hrest
      end.
      injection Hcopy as <- <-.
      assert (Hmemo1 : forall l0 r,
                dict_get l0 ((l, length (st_objs s) : ref) :: memo) = Some r ->
                st_objs s1 !! r = Some (obj_at s0 l0) /\ length (st_objs s0) <= r).
      { intros l0 r. simpl. destruct (decide (l = l0)) as [<-|Hne].
        - intros Hr. injection Hr as <-. split; [|exact Hlen].
          subst s1. simpl. apply list_lookup_middle. reflexivity.
        - intros Hr. destruct (Hmemo _ _ Hr) as [Hr' Hfresh]. split; [|exact Hfresh].
          subst s1. simpl. apply lookup_app_l_Some, Hr'. }
      assert (Hlen1 : length (st_objs s0) <= length (st_objs s1)).
      { subst s1. simpl. rewrite length_app. lia. }
      destruct (IH _ _ _ _ Hrest Hmemo1 Hlen1) as (Hls & Hp & Ho & (new & Hnew) & Hall).
      repeat split; auto.
      * exists (obj_at s0 l :: new). rewrite Hnew. subst s1. simpl.
        rewrite <- app_assoc. reflexivity.
      * constructor; [|exact Hall]. split; [|exact Hlen].
        rewrite Hnew. apply lookup_app_l_Some. subst s1. simpl.
        apply list_lookup_middle. reflexivity.
Qed.

(** [deepcopy] returns a new list object whose items are new objects with
    the contents of the items of the list it is given; nothing that was in
    the store changes. *)
Lemma deepcopy_spec sel s :
  exists l copies s_c,
    deepcopy sel s = (Ok l, snd (alloc_list copies s_c))
    /\ deepcopy_items s (list_at s sel) [] s = (copies, s_c)
    /\ list_at (snd (alloc_list copies s_c)) l = copies
    /\ st_objs (snd (alloc_list copies s_c)) = st_objs s_c
    /\ store_kept s (snd (alloc_list copies s_c))
    /\ Forall2 (fun l r => st_objs s_c !! r = Some (obj_at s l)
                           /\ length (st_objs s) <= r) (list_at s sel) copies.
Proof.
  unfold deepcopy.
  destruct (deepcopy_items s (list_at s sel) [] s) as [copies s_c] eqn:Hcopy.
  destruct (deepcopy_items_spec _ _ _ _ _ _ Hcopy) as (Hls & Hp & Ho & (new & Hnew) & Hall).
  { intros l r Hl. discriminate. }
  { lia. }
  exists (length (st_lists s_c)), copies, s_c. simpl.
  repeat split; auto.
  - unfold list_at. simpl. rewrite list_lookup_middle by reflexivity. reflexivity.
  - intros r v Hr. simpl. rewrite Hnew. apply lookup_app_l_Some, Hr.
  - intros r l Hr. simpl. rewrite Hls. apply lookup_app_l_Some, Hr.
Qed.

End DeepCopy.

(** ** Loading packages: building [packages_dict] *)

Section Resolving.
Context `{World}.

Ltac break_match :=
  match goal with
  | |- context [match ?x with _ => _ end] => destruct x eqn:?
  end.

Lemma resolved_skip sp id e0 pd :
  entry_settings e0 = sp -> resolved sp id pd (dict_set id e0 pd).
Proof.
  intros He0. split; [|split].
  - exists e0. rewrite dict_get_set_eq. auto.
  - intros id' Hne. apply dict_get_set_ne. congruence.
  - apply dict_set_NoDup.
Qed.

Lemma resolved_set sp id e e0 pd :
  entry_settings e = sp -> resolved sp id pd (dict_set id e (dict_set id e0 pd)).
Proof.
  intros He. split; [|split].
  - exists e. rewrite dict_get_set_eq. auto.
  - intros id' Hne. rewrite !dict_get_set_ne by congruence. reflexivity.
  - intros Hnd. apply dict_set_NoDup, dict_set_NoDup, Hnd.
Qed.

(** Going through a selected package leaves the objects of the store
    alone, whatever the outcome. *)
Lemma resolve_package_store self t ign sp pd s :
  same_store s (snd (Load.resolve_package self t ign sp pd s)).
Proof.
  unfold Load.resolve_package, bind, lift, ret, raise, read_obj, print,
    get_sys_path, sys_path_append, same_store.
  repeat (cbn [fst snd st_objs st_lists]; try break_match); auto.
Qed.

Lemma resolve_package_ok self t ign sp pd s pd' s' :
  Load.resolve_package self t ign sp pd s = (Ok pd', s') ->
  exists id, identifier_of s sp = Ok id /\ resolved sp id pd pd'.
Proof.
  unfold Load.resolve_package, identifier_of, bind, lift, read_obj.
  destruct (Py.getitem (obj_at s sp) "endpoint") as [endpoint|]; cbn [rbind];
    [|discriminate].
  destruct (Py.lower endpoint) as [id|]; [|discriminate].
  intros Hres. exists id. split; [reflexivity|].
  revert Hres. unfold ret, raise, print, get_sys_path, sys_path_append.
  destruct ign;
    repeat (cbn [fst snd]; try break_match); intros Hres;
    try discriminate Hres; injection Hres as <- <-;
    first [apply resolved_skip; reflexivity | apply resolved_set; reflexivity].
Qed.

Lemma identifier_of_same_store s s' r :
  same_store s s' -> identifier_of s' r = identifier_of s r.
Proof. intros [Ho _]. unfold identifier_of, obj_at. rewrite Ho. reflexivity. Qed.

Lemma last_selected_same_store s s' id sps found :
  same_store s s' -> last_selected s' id sps found = last_selected s id sps found.
Proof.
  intros Hs. revert found. induction sps as [|r sps IH]; intros found; simpl;
    [reflexivity|].
  rewrite (identifier_of_same_store _ _ _ Hs). apply IH.
Qed.

Lemma same_store_trans s1 s2 s3 :
  same_store s1 s2 -> same_store s2 s3 -> same_store s1 s3.
Proof. intros [H1 H2] [H3 H4]. split; congruence. Qed.

Lemma resolve_loop_store self t ign sps : forall pd s,
  same_store s (snd (Load.resolve_loop self t ign sps pd s)).
Proof.
  induction sps as [|sp sps IH]; intros pd s; simpl.
  - split; reflexivity.
  - unfold bind.
    pose proof (resolve_package_store self t ign sp pd s) as Hstep.
    destruct (Load.resolve_package self t ign sp pd s) as [[pd1|e] s1]; simpl in *.
    + eapply same_store_trans; [exact Hstep | apply IH].
    + exact Hstep.
Qed.

(** [packages_dict] after the loop: no key twice, and under every
    identifier the settings of the last selected package with it. *)
Lemma resolve_loop_ok self t ign sps : forall pd s pd' s',
  Load.resolve_loop self t ign sps pd s = (Ok pd', s') ->
  (NoDup (dict_keys pd) -> NoDup (dict_keys pd'))
  /\ (forall id, entry_settings <$> dict_get id pd'
                 = last_selected s id sps (entry_settings <$> dict_get id pd))
  /\ Forall (fun r => exists id, identifier_of s r = Ok id) sps.
Proof.
  induction sps as [|sp sps IH]; intros pd s pd' s' Hloop; simpl in Hloop.
  - injection Hloop as <- <-. simpl. auto.
  - unfold bind in Hloop.
    pose proof (resolve_package_store self t ign sp pd s) as Hstore.
    destruct (Load.resolve_package self t ign sp pd s) as [[pd1|e] s1] eqn:Hstep;
      [|discriminate].
    simpl in Hstore.
    destruct (resolve_package_ok _ _ _ _ _ _ _ _ Hstep)
      as (id & Hid & (e & He & Hset) & Hother & Hnd).
    destruct (IH _ _ _ _ Hloop) as (Hnd' & Hlast & Hids).
    split; [auto|]. split.
    + intros id'. rewrite Hlast. simpl. rewrite Hid.
      rewrite (last_selected_same_store _ _ _ _ _ Hstore). f_equal.
      destruct (String.eqb id id') eqn:Heq.
      * apply String.eqb_eq in Heq. subst id'. rewrite He. simpl. congruence.
      * apply String.eqb_neq in Heq. rewrite Hother by congruence. reflexivity.
    + constructor; [eauto|].
      eapply Forall_impl; [exact Hids|]. simpl. intros r [id' Hr].
      exists id'. rewrite <- (identifier_of_same_store _ _ _ Hstore). exact Hr.
Qed.

Lemma last_selected_elem s id sps : forall found r,
  last_selected s id sps found = Some r -> r ∈ sps \/ found = Some r.
Proof.
  induction sps as [|sp sps IH]; intros found r; simpl; [auto|].
  intros Hl. destruct (IH _ _ Hl) as [Hin|Hf].
  - left. apply list_elem_of_further, Hin.
  - destruct (identifier_of s sp) as [id'|]; [|auto].
    destruct (String.eqb id' id); [|auto].
    injection Hf as <-. left. apply list_elem_of_here.
Qed.

Lemma last_selected_found s id sps : forall found,
  (exists r, r ∈ sps /\ identifier_of s r = Ok id) \/ is_Some found ->
  is_Some (last_selected s id sps found).
Proof.
  induction sps as [|sp sps IH]; intros found; simpl.
  - intros [(r & Hin & _)|Hf]; [inversion Hin | exact Hf].
  - intros [(r & Hin & Hr)|Hf]; apply IH.
    + apply elem_of_cons in Hin as [->|Hin]; [|eauto].
      right. rewrite Hr, String.eqb_refl. eauto.
    + right. destruct (identifier_of s sp) as [id'|]; [|exact Hf].
      destruct (String.eqb id' id); [eauto | exact Hf].
Qed.

End Resolving.

(** ** Loading packages: custom classes and instantiation *)

Section Instantiating.
Context `{World}.

Ltac break_match :=
  match goal with
  | |- context [match ?x with _ => _ end] => destruct x eqn:?
  end.

Lemma package_type_registered t :
  exists details, dict_get t PM.package_type_overview = Some details.
Proof. destruct t; eexists; reflexivity. Qed.

Lemma make_params_overview t details (op : operation) r :
  dict_get t PM.package_type_overview = Some details ->
  Load.make_params details t op r
  = Ok [(operation_name details, inl op); ("settings", inr r)].
Proof.
  intros Hd. destruct t; vm_compute in Hd; injection Hd as <-; reflexivity.
Qed.

Lemma drop_broken_loop_store details ign items : forall pd s,
  same_store s (snd (Load.drop_broken_loop details ign items pd s)).
Proof.
  induction items as [|[k val] items IH]; intros pd s; simpl.
  - split; reflexivity.
  - unfold bind, raise, print, same_store in *.
    repeat (cbn [fst snd st_objs st_lists]; try break_match); auto; apply IH.
Qed.

Lemma drop_broken_loop_ok details ign items : forall pd s pd' s',
  Load.drop_broken_loop details ign items pd s = (Ok pd', s') ->
  (forall k val, (k, val) ∈ items ->
                 entry_settings <$> dict_get k pd = Some (entry_settings val)) ->
  s' = s
  /\ dict_keys pd' = dict_keys pd
  /\ (forall k, entry_settings <$> dict_get k pd' = entry_settings <$> dict_get k pd).
Proof.
  induction items as [|[k val] items IH]; intros pd s pd' s' Hloop Hitems;
    simpl in Hloop.
  - injection Hloop as <- <-. auto.
  - assert (Hrest : forall k' val', (k', val') ∈ items ->
              entry_settings <$> dict_get k' pd = Some (entry_settings val')).
    { intros k' val' Hin. apply Hitems, list_elem_of_further, Hin. }
    destruct (entry_custom_flag val); simpl in Hloop; [|apply (IH _ _ _ _ Hloop Hrest)].
    destruct (Load.getattr_endpoint (entry_endpoint val) (custom_class details))
      as [cls|e].
    + set (e1 := {| entry_settings := entry_settings val;
                    entry_endpoint := Some (EndpointClass cls);
                    entry_custom_flag := false |}) in Hloop.
      assert (Hsame : forall k', entry_settings <$> dict_get k' (dict_set k e1 pd)
                                 = entry_settings <$> dict_get k' pd).
      { intros k'. rewrite dict_get_set. destruct (decide (k = k')) as [<-|Hne];
          [|reflexivity].
        simpl. symmetry. apply Hitems, list_elem_of_here. }
      destruct (IH _ _ _ _ Hloop) as (Hs & Hk & Hset).
      { intros k' val' Hin. rewrite Hsame. apply Hrest, Hin. }
      split; [exact Hs|]. split.
      * rewrite Hk.
        pose proof (Hitems k val (list_elem_of_here _ _)) as Hk0.
        destruct (dict_get k pd) as [e0|] eqn:He0; [|discriminate].
        eapply dict_keys_set_present, He0.
      * intros k'. rewrite Hset. apply Hsame.
    + unfold raise, bind, print in Hloop.
      destruct e; destruct ign; simpl in Hloop; discriminate.
Qed.

Lemma instantiate_loop_ok details t (op : operation) items : forall s res s',
  dict_get t PM.package_type_overview = Some details ->
  Load.instantiate_loop details t op true items s = (Ok res, s') ->
  Forall2 (instantiated details op) items res.
Proof.
  induction items as [|[id e] items IH]; intros s res s' Hd Hloop; simpl in Hloop.
  - injection Hloop as <- <-. constructor.
  - unfold bind, lift in Hloop.
    rewrite (make_params_overview _ _ _ _ Hd) in Hloop.
    destruct (entry_endpoint e) as [[cls|m]|] eqn:Hep; simpl in Hloop;
      try discriminate.
    destruct (construct cls _ s) as [[inst|] s1] eqn:Hcall; [|discriminate].
    destruct (verifyObject (import_name details) inst) as [[]|] eqn:Hver;
      [|discriminate].
    destruct (Load.instantiate_loop details t op true items s1) as [[rest|] s2]
      eqn:Hrest; [|discriminate].
    injection Hloop as <- <-.
    constructor; [|eapply IH; eassumption].
    split; [reflexivity|]. simpl. exists cls, inst, s, s1. auto.
Qed.

End Instantiating.

(** ** Loading packages: the whole of [load_packages] *)

Section LoadPackages.
Context `{World}.

Lemma identifier_of_objs s s' r :
  st_objs s' = st_objs s -> identifier_of s' r = identifier_of s r.
Proof. intros Ho. unfold identifier_of, obj_at. rewrite Ho. reflexivity. Qed.

Lemma last_selected_objs s s' id sps found :
  st_objs s' = st_objs s -> last_selected s' id sps found = last_selected s id sps found.
Proof.
  intros Hs. revert found. induction sps as [|r sps IH]; intros found; simpl;
    [reflexivity|].
  rewrite (identifier_of_objs _ _ _ Hs). apply IH.
Qed.

Lemma instantiated_keys details (op : operation) items res :
  Forall2 (instantiated details op) items res -> dict_keys res = dict_keys items.
Proof.
  unfold dict_keys. induction 1 as [|item value items res [Hfst _] _ IH]; simpl;
    [reflexivity|].
  rewrite Hfst, IH. reflexivity.
Qed.

(** The three phases of a call of [load_packages] that returns. *)
Lemma load_packages_phases self t sel (op : operation) ign inst_objs s res s' :
  Load.load_packages self t sel op ign inst_objs s = (Ok res, s') ->
  exists details copies s_c l pd1 s1 pd2,
    dict_get t PM.package_type_overview = Some details
    /\ deepcopy_items s (list_at s sel) [] s = (copies, s_c)
    /\ Forall2 (fun l r => st_objs s_c !! r = Some (obj_at s l)
                           /\ length (st_objs s) <= r) (list_at s sel) copies
    /\ store_kept s (snd (alloc_list copies s_c))
    /\ st_objs (snd (alloc_list copies s_c)) = st_objs s_c
    /\ deepcopy sel s = (Ok l, snd (alloc_list copies s_c))
    /\ Load.resolve_loop self t ign copies [] (snd (alloc_list copies s_c))
       = (Ok pd1, s1)
    /\ Load.drop_broken_loop details ign pd1 pd1 s1 = (Ok pd2, s1)
    /\ Load.instantiate_loop details t op inst_objs pd2 s1 = (Ok res, s')
    /\ NoDup (dict_keys pd1)
    /\ dict_keys pd2 = dict_keys pd1
    /\ (forall id, entry_settings <$> dict_get id pd2
                   = last_selected s_c id copies None)
    /\ Forall (fun r => exists id, identifier_of s_c r = Ok id) copies.
Proof.
  intros Hload. unfold Load.load_packages in Hload.
  destruct (package_type_registered t) as [details Hd].
  rewrite Hd in Hload.
  unfold bind, Load.get_packages_dict, Load.drop_broken_packages in Hload.
  rewrite Hd in Hload. unfold bind in Hload.
  destruct (deepcopy_spec sel s) as (l & copies & s_c & Hdc & Hitems & Hlist & Hobjs
                                      & Hkept & Hall).
  rewrite Hdc, Hlist in Hload.
  destruct (Load.resolve_loop self t ign copies [] (snd (alloc_list copies s_c)))
    as [[pd1|] s1] eqn:Hres; [|discriminate].
  destruct (resolve_loop_ok _ _ _ _ _ _ _ _ Hres) as (Hnd & Hlast & Hids).
  specialize (Hnd (NoDup_nil_2)).
  destruct (Load.drop_broken_loop details ign pd1 pd1 s1) as [[pd2|] s2] eqn:Hdrop;
    [|discriminate].
  destruct (drop_broken_loop_ok _ _ _ _ _ _ _ Hdrop) as (-> & Hk & Hset).
  { intros k val Hin. rewrite (dict_get_elem_NoDup _ _ _ Hnd Hin). reflexivity. }
  exists details, copies, s_c, l, pd1, s1, pd2.
  split; [exact Hd|]. split; [exact Hitems|]. split; [exact Hall|].
  split; [exact Hkept|]. split; [exact Hobjs|]. split; [exact Hdc|].
  split; [exact Hres|]. split; [exact Hdrop|]. split; [exact Hload|].
  split; [exact Hnd|]. split; [exact Hk|]. split.
  - intros id. rewrite Hset, Hlast. simpl. apply last_selected_objs, Hobjs.
  - eapply Forall_impl; [exact Hids|]. simpl. intros r [id Hr]. exists id.
    rewrite <- Hr. symmetry. apply identifier_of_objs, Hobjs.
Qed.

End LoadPackages.

(** ** Loading packages: what happens to the caller's objects *)

Section Frame.
Context `{World}.

Lemma kept_below_refl n s : kept_below n s s.
Proof. split; auto. Qed.

Lemma kept_below_trans n s1 s2 s3 :
  kept_below n s1 s2 -> kept_below n s2 s3 -> kept_below n s1 s3.
Proof. intros [H1 H2] [H3 H4]. split; eauto. Qed.

Lemma same_store_kept_below n s s' : same_store s s' -> kept_below n s s'.
Proof. intros [Ho Hl]. split; intros; congruence. Qed.

(** The constructor calls touch no object below [n] when every entry holds
    settings at [n] or above. *)
Lemma instantiate_loop_frame details t (op : operation) inst_objs n items :
  constructor_frame ->
  dict_get t PM.package_type_overview = Some details ->
  Forall (fun item : string * package_entry => n <= entry_settings (snd item)) items ->
  forall s, kept_below n s (snd (Load.instantiate_loop details t op inst_objs items s)).
Proof.
  intros Hframe Hd. induction 1 as [|[id e] items Hfresh _ IH]; intros s; simpl.
  - apply kept_below_refl.
  - unfold bind, lift. rewrite (make_params_overview _ _ _ _ Hd).
    destruct (entry_endpoint e) as [[cls|m]|]; simpl; [| |apply kept_below_refl];
      destruct inst_objs; simpl; try apply kept_below_refl.
    + pose proof (Hframe cls (operation_name details) op (entry_settings e) s)
        as [Hobjs Hlists].
      destruct (construct cls _ s) as [[inst|] s1]; simpl in *.
      * assert (Hstep : kept_below n s s1).
        { split; [|exact Hlists]. intros r v Hr. apply Hobjs. simpl in Hfresh. lia. }
        destruct (verifyObject (import_name details) inst) as [[]|]; simpl;
          [|exact Hstep].
        specialize (IH s1).
        destruct (Load.instantiate_loop details t op true items s1) as [[rest|] s2];
          simpl in *; eapply kept_below_trans; eauto.
      * split; [|exact Hlists]. intros r v Hr. apply Hobjs. simpl in Hfresh. lia.
    + specialize (IH s).
      destruct (Load.instantiate_loop details t op false items s) as [[rest|] s2];
        simpl in *; exact IH.
    + specialize (IH s).
      destruct (Load.instantiate_loop details t op false items s) as [[rest|] s2];
        simpl in *; exact IH.
Qed.

Lemma drop_broken_packages_store pd t ign s :
  same_store s (snd (Load.drop_broken_packages pd t ign s)).
Proof.
  unfold Load.drop_broken_packages.
  destruct (dict_get t PM.package_type_overview); [apply drop_broken_loop_store|].
  split; reflexivity.
Qed.

(** Whatever its outcome, [__get_packages_dict] keeps the store it is
    given, and the settings of the entries it returns are new objects. *)
Lemma get_packages_dict_outcome self sel t ign s :
  let out := Load.get_packages_dict self sel t ign s in
  store_kept s (snd out)
  /\ forall pd1, fst out = Ok pd1 ->
       NoDup (dict_keys pd1)
       /\ forall id e, dict_get id pd1 = Some e ->
                       length (st_objs s) <= entry_settings e.
Proof.
  unfold Load.get_packages_dict, bind.
  destruct (deepcopy_spec sel s) as (l & copies & s_c & Hdc & Hitems & Hlist & Hobjs
                                      & Hkept & Hall).
  rewrite Hdc, Hlist.
  pose proof (resolve_loop_store self t ign copies [] (snd (alloc_list copies s_c)))
    as [Hso Hsl].
  destruct (Load.resolve_loop self t ign copies [] (snd (alloc_list copies s_c)))
    as [r1 s3] eqn:Hres.
  simpl in *. split.
  - destruct Hkept as [Hko Hkl]. split; intros; [rewrite Hso | rewrite Hsl]; auto.
  - intros pd1 ->.
    destruct (resolve_loop_ok _ _ _ _ _ _ _ _ Hres) as (Hnd & Hlast & _).
    split; [apply Hnd, NoDup_nil_2|].
    intros id e He. specialize (Hlast id). rewrite He in Hlast. simpl in Hlast.
    symmetry in Hlast. apply last_selected_elem in Hlast as [Hin|Hf]; [|discriminate].
    apply list_elem_of_lookup in Hin as [i Hi].
    destruct (Forall2_lookup_r _ _ _ _ _ Hall Hi) as (l0 & _ & _ & Hfresh).
    exact Hfresh.
Qed.

Lemma drop_broken_packages_settings pd1 t ign s pd2 s' n :
  Load.drop_broken_packages pd1 t ign s = (Ok pd2, s') ->
  NoDup (dict_keys pd1) ->
  (forall id e, dict_get id pd1 = Some e -> n <= entry_settings e) ->
  Forall (fun item : string * package_entry => n <= entry_settings (snd item)) pd2.
Proof.
  unfold Load.drop_broken_packages.
  destruct (dict_get t PM.package_type_overview) as [details|]; [|discriminate].
  intros Hdrop Hnd Hfresh.
  destruct (drop_broken_loop_ok _ _ _ _ _ _ _ Hdrop) as (_ & Hk & Hset).
  { intros k val Hin. rewrite (dict_get_elem_NoDup _ _ _ Hnd Hin). reflexivity. }
  apply Forall_forall. intros [id e] Hin. simpl.
  assert (He : dict_get id pd2 = Some e).
  { apply dict_get_elem_NoDup; [rewrite Hk; exact Hnd | exact Hin]. }
  specialize (Hset id). rewrite He in Hset. simpl in Hset.
  destruct (dict_get id pd1) as [e1|] eqn:He1; [|discriminate].
  simpl in Hset. injection Hset as ->. eapply Hfresh, He1.
Qed.

End Frame.

(** C8. Provided the endpoint constructors change no object but the
    settings they are handed, [load_packages] changes nothing that was in
    the store when it was called, whether it returns or raises: the list
    object [selected_packages] has the items it had, and every settings
    object in it has the contents it had. What the constructors are handed
    are the deep copies that [__get_packages_dict] makes. (Imports and
    [verifyObject] are functions of the environment and do not write to
    the store.) *)
Theorem load_packages_keeps_selected `{World} (self : PackageManager)
    (t : PackageEndpointType) (selected_packages : ref) (op : operation)
    (ignore_not_available instantiate_objects : bool) (s : pystate) :
  constructor_frame ->
  let s' := snd (Load.load_packages self t selected_packages op
                   ignore_not_available instantiate_objects s) in
  store_kept s s'
  /\ forall items,
       st_lists s !! selected_packages = Some items ->
       st_lists s' !! selected_packages = Some items
       /\ forall r settings, r ∈ items -> st_objs s !! r = Some settings ->
                             st_objs s' !! r = Some settings.
Proof.
  intros Hframe s'.
  assert (Hkept : store_kept s s').
  { subst s'. unfold Load.load_packages.
    destruct (dict_get t PM.package_type_overview) as [details|] eqn:Hd;
      [|split; auto].
    unfold bind.
    pose proof (get_packages_dict_outcome self selected_packages t
                  ignore_not_available s) as [Hk1 Hfresh].
    destruct (Load.get_packages_dict self selected_packages t ignore_not_available s)
      as [[pd1|e1] s1]; simpl in *; [|exact Hk1].
    destruct (Hfresh pd1 eq_refl) as [Hnd Hnew].
    pose proof (drop_broken_packages_store pd1 t ignore_not_available s1) as Hs2.
    destruct (Load.drop_broken_packages pd1 t ignore_not_available s1)
      as [[pd2|e2] s2] eqn:Hdrop; simpl in *.
    - pose proof (drop_broken_packages_settings _ _ _ _ _ _ _ Hdrop Hnd Hnew) as Hall.
      pose proof (instantiate_loop_frame details t op instantiate_objects
                    (length (st_objs s)) pd2 Hframe Hd Hall s2) as [Ho3 Hl3].
      destruct Hk1 as [Ho1 Hl1]. destruct Hs2 as [Ho2 Hl2].
      split.
      + intros r v Hr. apply Ho3; [eapply lookup_lt_Some, Hr|].
        rewrite Ho2. apply Ho1, Hr.
      + intros r l Hr. apply Hl3. rewrite Hl2. apply Hl1, Hr.
    - destruct Hk1 as [Ho1 Hl1]. destruct Hs2 as [Ho2 Hl2].
      split; intros; [rewrite Ho2 | rewrite Hl2]; auto. }
  split; [exact Hkept|].
  destruct Hkept as [Ho Hl]. intros items Hitems. split; [apply Hl, Hitems|].
  intros r settings _ Hr. apply Ho, Hr.
Qed.

(** The constructor of the examples changes the settings object it is
    handed, and nothing else. *)
Lemma demo_constructor_frame : constructor_frame (H:=Demo.w).
Proof.
  intros cls name op r s. simpl. unfold Demo.demo_construct. simpl.
  destruct (decide (name = "settings")); simpl.
  - split; auto.
  - destruct (Py.setitem (obj_at s r) "seen" (VBool true)); simpl; split; auto.
    intros r' v Hne Hr'. rewrite list_lookup_insert_ne by congruence. exact Hr'.
Qed.

Lemma load_packages_keeps_selected_witness :
  let s' := snd (Load.load_packages (H:=Demo.w) Demo.manager prescreen 0
                   "prescreen_op" false true Demo.store) in
  st_lists s' !! 0 = Some [0; 1]
  /\ st_objs s' !! 0 = Some (VDict [("endpoint", VStr "colrev_built_in.scope_prescreen");
                                    ("TimeScopeFrom", VInt 2000)])
  /\ st_objs s' !! 1 = Some (VDict [("endpoint", VStr "custom_prescreen_script")])
  /\ st_objs s' !! 5
     = Some (VDict [("endpoint", VStr "colrev_built_in.scope_prescreen");
                    ("TimeScopeFrom", VInt 2000); ("seen", VBool true)]).
Proof.
  intros s'.
  destruct (load_packages_keeps_selected (H:=Demo.w) Demo.manager prescreen 0
              "prescreen_op" false true Demo.store demo_constructor_frame)
    as [_ Hsel].
  destruct (Hsel [0; 1] eq_refl) as [Hlist Hobjs].
  split; [exact Hlist|]. split; [|split].
  - apply (Hobjs 0 _ (list_elem_of_here _ _) eq_refl).
  - apply (Hobjs 1 _ (list_elem_of_further _ _ _ (list_elem_of_here _ _)) eq_refl).
  - vm_compute. reflexivity.
Defined.

(** ** The precedence of built-in, module and custom packages *)

Section Precedence.
Context `{World}.

(** The body of the loop of [__get_packages_dict] for a selected package
    with the identifier [id]. A registered identifier is loaded from the
    registry, or skipped with a message when it is flagged not installed.
    With [ignore_not_available=False], an identifier that is not
    registered is imported as a module when [id.py] is no file, and is
    imported from the project directory, with [.] appended to [sys.path],
    when it is one; both get the [custom_flag]. *)
Lemma resolve_package_precedence self t ign sp pd s id registered :
  identifier_of s sp = Ok id ->
  dict_get t (packages self) = Some registered ->
  let entry ep flag := {| entry_settings := sp; entry_endpoint := ep;
                          entry_custom_flag := flag |} in
  let pd0 := dict_set id (entry None false) pd in
  (forall metadata v,
     dict_get id registered = Some metadata ->
     Py.getitem metadata "installed" = Ok v ->
     (Py.truthy v = false ->
      Load.resolve_package self t ign sp pd s
      = (Ok pd0, snd (print ("Cannot load " +:+ id +:+ " (not installed)") s)))
     /\ (forall cls, Py.truthy v = true ->
           PM.load_package_endpoint self (sys_path s) t id = Ok cls ->
           Load.resolve_package self t ign sp pd s
           = (Ok (dict_set id (entry (Some (EndpointClass cls)) false) pd0), s)))
  /\ (forall m,
        dict_get id registered = None ->
        is_file (id +:+ ".py") = false ->
        import_module (sys_path s) id None = Ok m ->
        Load.resolve_package self t false sp pd s
        = (Ok (dict_set id (entry (Some (EndpointModule m)) true) pd0), s))
  /\ (forall m,
        dict_get id registered = None ->
        is_file (id +:+ ".py") = true ->
        import_module (sys_path s ++ ["."])%list id (Some ".") = Ok m ->
        Load.resolve_package self t false sp pd s
        = (Ok (dict_set id (entry (Some (EndpointModule m)) true) pd0),
           snd (sys_path_append "." s))).
Proof.
  intros Hid Hreg entry pd0. unfold identifier_of in Hid.
  unfold Load.resolve_package, bind, lift, read_obj, PM.packages_of.
  destruct (Py.getitem (obj_at s sp) "endpoint") as [endpoint|]; simpl in Hid;
    [|discriminate].
  rewrite Hid, Hreg. simpl.
  split; [|split].
  - intros metadata v -> ->. simpl. split.
    + intros ->. reflexivity.
    + intros cls -> Hload. simpl. unfold get_sys_path. rewrite Hload. reflexivity.
  - intros m -> -> Himp. simpl. unfold get_sys_path. rewrite Himp. reflexivity.
  - intros m -> -> Himp. simpl. rewrite Himp. reflexivity.
Qed.

(** With [ignore_not_available=True], an identifier that is not registered
    raises, whatever could be imported. *)
Lemma resolve_package_ignoring self t sp pd s id registered :
  identifier_of s sp = Ok id ->
  dict_get t (packages self) = Some registered ->
  dict_get id registered = None ->
  Load.resolve_package self t true sp pd s
  = (Raise (MissingDependencyError ("Dependency " +:+ id +:+ " not available.")), s).
Proof.
  intros Hid Hreg Hnone. unfold identifier_of in Hid.
  unfold Load.resolve_package, bind, lift, read_obj, PM.packages_of.
  destruct (Py.getitem (obj_at s sp) "endpoint") as [endpoint|]; simpl in Hid;
    [|discriminate].
  rewrite Hid, Hreg. simpl. rewrite Hnone. reflexivity.
Qed.

End Precedence.

(** C2 (the code at the failing input). The selected prep package
    [colrev_custom_prep] is not in the registry, no file
    [colrev_custom_prep.py] is in the directory, and the module is
    installed and has the class [CustomPrep]. With
    [ignore_not_available=False] it is imported as a module and
    instantiated; with [ignore_not_available=True] the guard before the
    module branch raises [MissingDependencyError], so that the branches of
    [__get_packages_dict] and [__drop_broken_packages] that skip
    unavailable modules are never reached. *)
Theorem module_package_refused_when_ignoring :
  ~ registered_under Demo.manager prep "colrev_custom_prep"
  /\ is_file (World:=Demo.w) "colrev_custom_prep.py" = false
  /\ import_module (World:=Demo.w) (sys_path Demo.store) "colrev_custom_prep" None
     = Ok Demo.colrev_custom_prep
  /\ fst (Load.load_packages (H:=Demo.w) Demo.manager prep 1 "prep_op" false true
            Demo.store)
     = Ok [("colrev_custom_prep",
            LoadedInstance
              ({| Demo.inst_class := "CustomPrep";
                  Demo.inst_keywords := ["prep_operation"; "settings"];
                  Demo.inst_settings := 5 |} : endpoint_instance (World:=Demo.w)))]
  /\ fst (Load.load_packages (H:=Demo.w) Demo.manager prep 1 "prep_op" true true
            Demo.store)
     = Raise (MissingDependencyError "Dependency colrev_custom_prep not available.").
Proof.
  split.
  - intros (d & m & Hd & Hm). vm_compute in Hd. injection Hd as <-.
    vm_compute in Hm. discriminate.
  - vm_compute. repeat split.
Qed.

(** ** Further runs of [load_packages] on the example store *)

(** A built-in package that is flagged not installed is skipped with a
    message by [__get_packages_dict]; its entry has no endpoint, for which
    [load_packages] raises. *)
Example not_installed_package_is_skipped :
  let out := Load.load_packages (H:=Demo.w) Demo.manager prep 2 "prep_op" false true
               Demo.store in
  fst out = Raise (MissingDependencyError
                     "colrev_built_in.get_doi_from_urls is not available")
  /\ stdout (snd out)
     = ["Cannot load colrev_built_in.get_doi_from_urls (not installed)"].
Proof. vm_compute. split; reflexivity. Qed.

(** Two selected packages with the same identifier give one instance, made
    with the copy of the settings of the second. *)
Example same_identifier_twice :
  let out := Load.load_packages (H:=Demo.w) Demo.manager prescreen 3 "prescreen_op"
               false true Demo.store in
  fst out
  = Ok [("colrev_built_in.scope_prescreen",
         LoadedInstance
           ({| Demo.inst_class := "ScopePrescreen";
               Demo.inst_keywords := ["prescreen_operation"; "settings"];
               Demo.inst_settings := 6 |} : endpoint_instance (World:=Demo.w)))]
  /\ st_objs (snd out) !! 6
     = Some (VDict [("endpoint", VStr "colrev_built_in.Scope_Prescreen");
                    ("TimeScopeFrom", VInt 1990); ("seen", VBool true)])
  /\ st_objs (snd out) !! 4
     = Some (VDict [("endpoint", VStr "colrev_built_in.Scope_Prescreen");
                    ("TimeScopeFrom", VInt 1990)]).
Proof. vm_compute. repeat split. Qed.

(** * Further properties of the registry and of the operations *)

(** ** Selected packages that cannot be loaded *)

Section NotLoaded.
Context `{World}.

Lemma copies_identifier s s_c originals copies :
  Forall2 (fun l r => st_objs s_c !! r = Some (obj_at s l)
                      /\ length (st_objs s) <= r) originals copies ->
  Forall2 (fun l r => identifier_of s_c r = identifier_of s l) originals copies.
Proof.
  intros Hall. eapply Forall2_impl; [exact Hall|]. simpl.
  intros l r [Hr _]. unfold identifier_of.
  assert (Ho : obj_at s_c r = obj_at s l).
  { unfold obj_at at 1. unfold ref in *. rewrite Hr. reflexivity. }
  rewrite Ho. reflexivity.
Qed.

Lemma last_selected_identifier s id sps : forall found r,
  last_selected s id sps found = Some r ->
  (r ∈ sps /\ identifier_of s r = Ok id) \/ found = Some r.
Proof.
  induction sps as [|sp sps IH]; intros found r; simpl; [auto|].
  intros Hl. destruct (IH _ _ Hl) as [[Hin Hid]|Hf].
  - left. split; [apply list_elem_of_further, Hin | exact Hid].
  - destruct (identifier_of s sp) as [id'|] eqn:Hsp; [|auto].
    destruct (String.eqb id' id) eqn:Heq; [|auto].
    apply String.eqb_eq in Heq. subst id'. injection Hf as <-.
    left. split; [apply list_elem_of_here | exact Hsp].
Qed.

(** An entry of [packages_dict] without endpoint and without flag. *)
Lemma resolve_loop_not_installed self t ign id registered metadata v sps :
  dict_get t (packages self) = Some registered ->
  dict_get id registered = Some metadata ->
  Py.getitem metadata "installed" = Ok v ->
  Py.truthy v = false ->
  forall pd s pd' s',
    Load.resolve_loop self t ign sps pd s = (Ok pd', s') ->
    (exists e, dict_get id pd = Some e /\ entry_endpoint e = None
               /\ entry_custom_flag e = false)
    \/ (exists r, r ∈ sps /\ identifier_of s r = Ok id) ->
    exists e, dict_get id pd' = Some e /\ entry_endpoint e = None
              /\ entry_custom_flag e = false.
Proof.
  intros Hreg Hid Hinst Hfalse.
  induction sps as [|sp sps IH]; intros pd s pd' s' Hloop Hpre; simpl in Hloop.
  - injection Hloop as <- <-. destruct Hpre as [Hq|(r & Hin & _)]; [exact Hq|].
    inversion Hin.
  - unfold bind in Hloop.
    pose proof (resolve_package_store self t ign sp pd s) as Hstore.
    destruct (Load.resolve_package self t ign sp pd s) as [[pd1|e] s1] eqn:Hstep;
      [|discriminate].
    simpl in Hstore.
    destruct (resolve_package_ok _ _ _ _ _ _ _ _ Hstep) as (id' & Hid' & _ & Hother & _).
    apply (IH _ _ _ _ Hloop).
    destruct (decide (id' = id)) as [->|Hne].
    + left.
      destruct (resolve_package_precedence self t ign sp pd s id registered Hid' Hreg)
        as (Hbuilt & _).
      destruct (Hbuilt _ _ Hid Hinst) as [Hskip _].
      rewrite (Hskip Hfalse) in Hstep. injection Hstep as <- _.
      eexists. rewrite dict_get_set_eq. split; [reflexivity|]. auto.
    + destruct Hpre as [(e & He & Hq)|(r & Hin & Hr)].
      * left. exists e. rewrite Hother by congruence. auto.
      * right. exists r. apply elem_of_cons in Hin as [->|Hin]; [congruence|].
        split; [exact Hin|]. rewrite (identifier_of_same_store _ _ _ Hstore). exact Hr.
Qed.

Lemma drop_broken_loop_keeps_unflagged details ign id items : forall pd s pd' s',
  Load.drop_broken_loop details ign items pd s = (Ok pd', s') ->
  (forall val, (id, val) ∈ items -> entry_custom_flag val = false) ->
  dict_get id pd' = dict_get id pd.
Proof.
  induction items as [|[k val] items IH]; intros pd s pd' s' Hloop Hflag;
    simpl in Hloop.
  - injection Hloop as <- _. reflexivity.
  - assert (Hrest : forall val', (id, val') ∈ items -> entry_custom_flag val' = false).
    { intros val' Hin. apply Hflag, list_elem_of_further, Hin. }
    destruct (entry_custom_flag val) eqn:Hcf; simpl in Hloop;
      [|apply (IH _ _ _ _ Hloop Hrest)].
    destruct (Load.getattr_endpoint (entry_endpoint val) (custom_class details))
      as [cls|e].
    + rewrite (IH _ _ _ _ Hloop Hrest). apply dict_get_set_ne.
      intros ->. rewrite (Hflag val (list_elem_of_here _ _)) in Hcf. discriminate.
    + unfold raise, bind, print in Hloop.
      destruct e; destruct ign; simpl in Hloop; discriminate.
Qed.

Lemma instantiate_loop_endpoints details t (op : operation) inst items :
  dict_get t PM.package_type_overview = Some details ->
  forall s res s',
    Load.instantiate_loop details t op inst items s = (Ok res, s') ->
    dict_keys res = dict_keys items
    /\ Forall (fun item : string * package_entry =>
                 is_Some (entry_endpoint (snd item))) items.
Proof.
  intros Hd. induction items as [|[id e] items IH]; intros s res s' Hloop;
    simpl in Hloop.
  - injection Hloop as <- _. split; [reflexivity | constructor].
  - unfold bind, lift in Hloop. rewrite (make_params_overview _ _ _ _ Hd) in Hloop.
    destruct (entry_endpoint e) as [ep|] eqn:Hep; [|discriminate].
    destruct inst.
    + destruct (Load.call_endpoint ep _ s) as [[i|] s1]; [|discriminate].
      destruct (verifyObject (import_name details) i) as [[]|]; [|discriminate].
      destruct (Load.instantiate_loop details t op true items s1) as [[rest|] s2]
        eqn:Hrest; [|discriminate].
      injection Hloop as <- _. destruct (IH _ _ _ Hrest) as [Hk Hall].
      split; [unfold dict_keys in *; simpl; congruence|].
      constructor; [simpl; rewrite Hep; eauto | exact Hall].
    + destruct (Load.instantiate_loop details t op false items s) as [[rest|] s2]
        eqn:Hrest; [|discriminate].
      injection Hloop as <- _. destruct (IH _ _ _ Hrest) as [Hk Hall].
      split; [unfold dict_keys in *; simpl; congruence|].
      constructor; [simpl; rewrite Hep; eauto | exact Hall].
Qed.

End NotLoaded.

(** X1. A selected package whose identifier is in the registry and is
    flagged not installed makes [load_packages] raise, with either value of
    [ignore_not_available] and of [instantiate_objects]:
    [__get_packages_dict] prints its message and leaves the entry without
    endpoint, and the last loop of [load_packages] finds it so. *)
Theorem load_packages_not_installed `{World} (self : PackageManager)
    (t : PackageEndpointType) (selected_packages : ref) (op : operation)
    (ignore_not_available instantiate_objects : bool) (s : pystate)
    (registered : list (string * pyval)) (l : ref) (id : string)
    (metadata v : pyval) :
  dict_get t (packages self) = Some registered ->
  l ∈ list_at s selected_packages ->
  identifier_of s l = Ok id ->
  dict_get id registered = Some metadata ->
  Py.getitem metadata "installed" = Ok v ->
  Py.truthy v = false ->
  exists e, fst (Load.load_packages self t selected_packages op ignore_not_available
                   instantiate_objects s) = Raise e.
Proof.
  intros Hreg Hl Hid Hmeta Hinst Hfalse.
  destruct (Load.load_packages self t selected_packages op ignore_not_available
              instantiate_objects s) as [[res|e] s'] eqn:Hload; [exfalso | eauto].
  destruct (load_packages_phases _ _ _ _ _ _ _ _ _ Hload)
    as (details & copies & s_c & l0 & pd1 & s1 & pd2 & Hd & _ & Hall & _ & Hobjs & _
        & Hres & Hdrop & Hinstl & Hnd & Hk & _ & _).
  (* the copy of [l] has the identifier of [l] *)
  apply list_elem_of_lookup in Hl as [i Hi].
  destruct (Forall2_lookup_l _ _ _ _ _ (copies_identifier _ _ _ _ Hall) Hi)
    as (r & Hr & Hidr).
  assert (Hq : exists e, dict_get id pd1 = Some e /\ entry_endpoint e = None
                         /\ entry_custom_flag e = false).
  { eapply (resolve_loop_not_installed _ _ _ _ _ _ _ _ Hreg Hmeta Hinst Hfalse
              _ _ _ _ Hres).
    right. exists r. split; [eapply list_elem_of_lookup_2, Hr|].
    rewrite (identifier_of_objs _ _ _ Hobjs), Hidr. exact Hid. }
  destruct Hq as (e & He & Hnone & Hflag).
  assert (He2 : dict_get id pd2 = Some e).
  { rewrite (drop_broken_loop_keeps_unflagged _ _ _ _ _ _ _ _ Hdrop); [exact He|].
    intros val Hin. rewrite (dict_get_elem_NoDup _ _ _ Hnd Hin) in He.
    injection He as ->. exact Hflag. }
  destruct (instantiate_loop_endpoints _ _ _ _ _ Hd _ _ _ Hinstl) as [_ Hsome].
  pose proof (proj1 (Forall_forall _ _) Hsome _ (dict_get_Some_elem _ _ _ He2)) as [ep Hep].
  simpl in Hep. congruence.
Qed.

Lemma load_packages_not_installed_witness :
  exists e, fst (Load.load_packages (H:=Demo.w) Demo.manager prep 2 "prep_op" true false
                   Demo.store) = Raise e.
Proof.
  refine (load_packages_not_installed (H:=Demo.w) Demo.manager prep 2 "prep_op" true
            false Demo.store _ 3 "colrev_built_in.get_doi_from_urls" _ (VBool false)
            eq_refl _ eq_refl eq_refl eq_refl eq_refl).
  apply list_elem_of_here.
Defined.

(** ** The keys and the classes of the returned dictionary *)

Section Origin.
Context `{World}.

Lemma identifier_of_no_upper s r id :
  identifier_of s r = Ok id -> PyStr.has_upper id = false.
Proof.
  unfold identifier_of.
  destruct (Py.getitem (obj_at s r) "endpoint") as [v|]; simpl; [|discriminate].
  destruct v; simpl; try discriminate.
  intros Hid. injection Hid as <-. apply has_upper_lower.
Qed.

Lemma custom_file_package_same_store self t s s' r :
  same_store s s' -> custom_file_package self t s' r = custom_file_package self t s r.
Proof.
  intros Hs. unfold custom_file_package.
  rewrite (identifier_of_same_store _ _ _ Hs). reflexivity.
Qed.

(** One selected package: its entry, the other entries, and [sys.path]. *)
Lemma resolve_package_origin self t ign sp pd s pd' s' path0 k :
  Load.resolve_package self t ign sp pd s = (Ok pd', s') ->
  sys_path s = (path0 ++ repeat "." k)%list ->
  exists id e,
    identifier_of s sp = Ok id
    /\ dict_get id pd' = Some e
    /\ entry_origin self t ign path0 id e
    /\ (forall id', id' <> id -> dict_get id' pd' = dict_get id' pd)
    /\ sys_path s'
       = (sys_path s ++ repeat "." (if custom_file_package self t s sp then 1 else 0))%list.
Proof.
  intros Hres Hpath.
  unfold Load.resolve_package, bind, lift, read_obj in Hres.
  unfold custom_file_package, identifier_of.
  destruct (Py.getitem (obj_at s sp) "endpoint") as [endpoint|]; cbn [rbind] in *;
    [|discriminate].
  destruct (Py.lower endpoint) as [id|]; [|discriminate].
  unfold PM.packages_of in *.
  destruct (dict_get t (packages self)) as [registered|] eqn:Hreg; [|discriminate].
  exists id. unfold dict_mem.
  destruct (dict_get id registered) as [metadata|] eqn:Hid.
  - destruct (Py.getitem metadata "installed") as [v|]; [|discriminate].
    destruct (Py.truthy v); simpl in Hres.
    + unfold get_sys_path in Hres.
      destruct (PM.load_package_endpoint self (sys_path s) t id) as [cls|] eqn:Hl;
        [|discriminate].
      injection Hres as <- <-. eexists. split; [reflexivity|].
      split; [rewrite dict_get_set_eq; reflexivity|]. split.
      { exists registered, k. split; [exact Hreg|]. rewrite Hid.
        split; [reflexivity|]. right. exists cls. split; [reflexivity|].
        rewrite <- Hpath. exact Hl. }
      split; [|simpl; rewrite app_nil_r; reflexivity].
      intros id' Hne. rewrite !dict_get_set_ne by congruence. reflexivity.
    + injection Hres as <- <-. eexists. split; [reflexivity|].
      split; [rewrite dict_get_set_eq; reflexivity|]. split.
      { exists registered, k. split; [exact Hreg|]. rewrite Hid.
        split; [reflexivity|]. left. reflexivity. }
      split; [|simpl; rewrite app_nil_r; reflexivity].
      intros id' Hne. rewrite dict_get_set_ne by congruence. reflexivity.
  - destruct ign; [discriminate|]. simpl.
    destruct (is_file (id +:+ ".py")) eqn:Hfile; simpl in Hres.
    + destruct (import_module (sys_path s ++ ["."])%list id (Some ".")) as [m|] eqn:Hm;
        [|discriminate].
      injection Hres as <- <-. eexists. split; [reflexivity|].
      split; [rewrite dict_get_set_eq; reflexivity|]. split.
      { exists registered, (S k). split; [exact Hreg|]. rewrite Hid.
        split; [reflexivity|]. split; [reflexivity|]. exists m.
        split; [reflexivity|]. rewrite Hfile. split; [|intros _; lia].
        rewrite <- Hm, Hpath, <- app_assoc. do 2 f_equal. apply repeat_cons. }
      split; [|reflexivity].
      intros id' Hne. rewrite !dict_get_set_ne by congruence. reflexivity.
    + unfold get_sys_path in Hres.
      destruct (import_module (sys_path s) id None) as [m|e] eqn:Hm.
      * injection Hres as <- <-. eexists. split; [reflexivity|].
        split; [rewrite dict_get_set_eq; reflexivity|]. split.
        { exists registered, k. split; [exact Hreg|]. rewrite Hid.
          split; [reflexivity|]. split; [reflexivity|]. exists m.
          split; [reflexivity|]. rewrite Hfile. split; [|discriminate].
          rewrite <- Hpath. exact Hm. }
        split; [|simpl; rewrite app_nil_r; reflexivity].
        intros id' Hne. rewrite !dict_get_set_ne by congruence. reflexivity.
      * destruct e; discriminate.
Qed.

Lemma resolve_loop_origin self t ign path0 sps : forall pd s pd' s' k,
  Load.resolve_loop self t ign sps pd s = (Ok pd', s') ->
  sys_path s = (path0 ++ repeat "." k)%list ->
  (forall id e, dict_get id pd = Some e -> entry_origin self t ign path0 id e) ->
  (forall id e, dict_get id pd' = Some e -> entry_origin self t ign path0 id e)
  /\ sys_path s'
     = (sys_path s
          ++ repeat "." (length (List.filter (custom_file_package self t s) sps)))%list.
Proof.
  induction sps as [|sp sps IH]; intros pd s pd' s' k Hloop Hpath Hpd;
    simpl in Hloop.
  - injection Hloop as <- <-. split; [exact Hpd|]. simpl. rewrite app_nil_r.
    reflexivity.
  - unfold bind in Hloop.
    pose proof (resolve_package_store self t ign sp pd s) as Hstore.
    destruct (Load.resolve_package self t ign sp pd s) as [[pd1|e] s1] eqn:Hstep;
      [|discriminate].
    simpl in Hstore.
    destruct (resolve_package_origin _ _ _ _ _ _ _ _ _ _ Hstep Hpath)
      as (id & e & Hid & He & Horigin & Hother & Hpath1).
    set (n := if custom_file_package self t s sp then 1 else 0) in *.
    assert (Hpath1' : sys_path s1 = (path0 ++ repeat "." (k + n))%list).
    { rewrite Hpath1, Hpath, <- app_assoc, repeat_app. reflexivity. }
    destruct (IH _ _ _ _ _ Hloop Hpath1') as [Hall Hpath2].
    { intros id' e' He'. destruct (decide (id' = id)) as [->|Hne].
      - rewrite He in He'. injection He' as <-. exact Horigin.
      - rewrite Hother in He' by exact Hne. apply Hpd, He'. }
    split; [exact Hall|]. rewrite Hpath2, Hpath1, <- app_assoc. f_equal.
    rewrite <- repeat_app. f_equal.
    rewrite (filter_ext _ _ (fun r => custom_file_package_same_store self t _ _ r Hstore)).
    simpl. subst n. destruct (custom_file_package self t s sp); reflexivity.
Qed.

(** What [__drop_broken_packages] leaves under a key: the entry made
    from an item with the [custom_flag], or the entry as it was. *)
Lemma drop_broken_loop_entries details ign items : forall pd s pd' s',
  Load.drop_broken_loop details ign items pd s = (Ok pd', s') ->
  forall k e', dict_get k pd' = Some e' ->
    (exists val cls,
       (k, val) ∈ items /\ entry_custom_flag val = true
       /\ Load.getattr_endpoint (entry_endpoint val) (custom_class details) = Ok cls
       /\ e' = {| entry_settings := entry_settings val;
                  entry_endpoint := Some (EndpointClass cls);
                  entry_custom_flag := false |})
    \/ (dict_get k pd = Some e'
        /\ forall val, (k, val) ∈ items -> entry_custom_flag val = false).
Proof.
  induction items as [|[k0 val0] items IH]; intros pd s pd' s' Hloop k e' He';
    simpl in Hloop.
  - injection Hloop as <- _. right. split; [exact He'|]. intros val Hin. inversion Hin.
  - destruct (entry_custom_flag val0) eqn:Hcf; simpl in Hloop.
    + destruct (Load.getattr_endpoint (entry_endpoint val0) (custom_class details))
        as [cls|e] eqn:Hget.
      * destruct (IH _ _ _ _ Hloop _ _ He')
          as [(val & cls' & Hin & Hflag & Hattr & ->)|[Hget' Hnone]].
        -- left. exists val, cls'. split; [apply list_elem_of_further, Hin|]. auto.
        -- destruct (decide (k0 = k)) as [->|Hne].
           ++ rewrite dict_get_set_eq in Hget'. injection Hget' as <-.
              left. exists val0, cls. split; [apply list_elem_of_here|]. auto.
           ++ rewrite dict_get_set_ne in Hget' by exact Hne.
              right. split; [exact Hget'|]. intros val Hin.
              apply elem_of_cons in Hin as [Heq|Hin]; [congruence | apply Hnone, Hin].
      * unfold raise, bind, print in Hloop.
        destruct e; destruct ign; simpl in Hloop; discriminate.
    + destruct (IH _ _ _ _ Hloop _ _ He')
        as [(val & cls' & Hin & Hflag & Hattr & ->)|[Hget' Hnone]].
      * left. exists val, cls'. split; [apply list_elem_of_further, Hin|]. auto.
      * right. split; [exact Hget'|]. intros val Hin.
        apply elem_of_cons in Hin as [Heq|Hin]; [congruence | apply Hnone, Hin].
Qed.

(** The endpoint of an entry after [__drop_broken_packages] is a class,
    and [class_origin] tells which. *)
Lemma entries_class_origin self t ign path0 details pd1 pd2 s1 s2 :
  dict_get t PM.package_type_overview = Some details ->
  NoDup (dict_keys pd1) ->
  (forall id e, dict_get id pd1 = Some e -> entry_origin self t ign path0 id e) ->
  Load.drop_broken_loop details ign pd1 pd1 s1 = (Ok pd2, s2) ->
  forall id e2 ep,
    dict_get id pd2 = Some e2 -> entry_endpoint e2 = Some ep ->
    exists cls, ep = EndpointClass cls /\ class_origin self t ign path0 id cls.
Proof.
  intros Hd Hnd Horigin Hdrop id e2 ep He2 Hep.
  destruct (drop_broken_loop_entries _ _ _ _ _ _ _ Hdrop _ _ He2)
    as [(val & cls & Hin & Hflag & Hattr & ->)|[He1 Hnone]].
  - simpl in Hep. injection Hep as <-. exists cls. split; [reflexivity|].
    destruct (Horigin _ _ (dict_get_elem_NoDup _ _ _ Hnd Hin))
      as (registered & k & Hreg & Hcase).
    exists registered, details, k. split; [exact Hreg|]. split; [exact Hd|].
    destruct (dict_get id registered).
    + destruct Hcase as [Hf _]. congruence.
    + destruct Hcase as (Hign & _ & m & Hm & Himp & Hk).
      split; [exact Hign|]. exists m. split; [exact Himp|]. split; [exact Hk|].
      rewrite Hm in Hattr. exact Hattr.
  - destruct (Horigin _ _ He1) as (registered & k & Hreg & Hcase).
    pose proof (Hnone _ (dict_get_Some_elem _ _ _ He1)) as Hflag.
    destruct (dict_get id registered) eqn:Hid.
    + destruct Hcase as [_ [Hn|(cls & Hcls & Hload)]]; [congruence|].
      exists cls. split; [congruence|].
      exists registered, details, k. split; [exact Hreg|]. split; [exact Hd|].
      rewrite Hid. exact Hload.
    + destruct Hcase as (_ & Hf & _). congruence.
Qed.

Lemma instantiate_loop_classes details t (op : operation) items :
  dict_get t PM.package_type_overview = Some details ->
  forall s res s',
    Load.instantiate_loop details t op false items s = (Ok res, s') ->
    s' = s
    /\ Forall2 (fun (item : string * package_entry) (value : string * loaded) =>
                  fst value = fst item
                  /\ exists ep, entry_endpoint (snd item) = Some ep
                                /\ snd value = LoadedEndpoint ep) items res.
Proof.
  intros Hd. induction items as [|[id e] items IH]; intros s res s' Hloop;
    simpl in Hloop.
  - injection Hloop as <- <-. split; [reflexivity | constructor].
  - unfold bind, lift in Hloop. rewrite (make_params_overview _ _ _ _ Hd) in Hloop.
    destruct (entry_endpoint e) as [ep|] eqn:Hep; [|discriminate].
    destruct (Load.instantiate_loop details t op false items s) as [[rest|] s2]
      eqn:Hrest; [|discriminate].
    injection Hloop as <- <-. destruct (IH _ _ _ Hrest) as [-> Hall].
    split; [reflexivity|]. constructor; [|exact Hall].
    split; [reflexivity|]. exists ep. auto.
Qed.

Lemma filter_copies self t s s_c originals copies :
  Forall2 (fun l r => identifier_of s_c r = identifier_of s l) originals copies ->
  length (List.filter (custom_file_package self t s_c) copies)
  = length (List.filter (custom_file_package self t s) originals).
Proof.
  induction 1 as [|l r originals copies Hid _ IH]; simpl; [reflexivity|].
  assert (Hc : custom_file_package self t s_c r = custom_file_package self t s l).
  { unfold custom_file_package. rewrite Hid. reflexivity. }
  rewrite Hc. destruct (custom_file_package self t s l); simpl; [f_equal|]; exact IH.
Qed.

(** The entries of [packages_dict] and [sys.path] after the phases of a
    call that returns. *)
Lemma load_packages_origin self t sel (op : operation) ign inst s res s' :
  Load.load_packages self t sel op ign inst s = (Ok res, s') ->
  exists details pd2 copies s_c s1,
    dict_get t PM.package_type_overview = Some details
    /\ deepcopy_items s (list_at s sel) [] s = (copies, s_c)
    /\ same_store (snd (alloc_list copies s_c)) s1
    /\ sys_path s1
       = (sys_path s ++ repeat "."
            (length (List.filter (custom_file_package self t s) (list_at s sel))))%list
    /\ Load.instantiate_loop details t op inst pd2 s1 = (Ok res, s')
    /\ NoDup (dict_keys pd2)
    /\ forall id e2 ep,
         dict_get id pd2 = Some e2 -> entry_endpoint e2 = Some ep ->
         exists cls, ep = EndpointClass cls
                     /\ class_origin self t ign (sys_path s) id cls.
Proof.
  intros Hload.
  destruct (load_packages_phases _ _ _ _ _ _ _ _ _ Hload)
    as (details & copies & s_c & l0 & pd1 & s1 & pd2 & Hd & Hcopy & Hall & _ & Hobjs & _
        & Hres & Hdrop & Hinstl & Hnd & Hk & _ & _).
  destruct (deepcopy_items_spec _ _ _ _ _ _ Hcopy) as (_ & Hp & _ & _ & _).
  { intros l r Hl. discriminate. }
  { lia. }
  assert (Hpath : sys_path (snd (alloc_list copies s_c))
                  = (sys_path s ++ repeat "." 0)%list).
  { simpl. rewrite app_nil_r. exact Hp. }
  destruct (resolve_loop_origin _ _ _ _ _ _ _ _ _ _ Hres Hpath) as [Horigin Hpath1].
  { intros id e He. discriminate. }
  exists details, pd2, copies, s_c, s1.
  split; [exact Hd|]. split; [exact Hcopy|]. split.
  { pose proof (resolve_loop_store self t ign copies [] (snd (alloc_list copies s_c)))
      as Hst. rewrite Hres in Hst. exact Hst. }
  split.
  { rewrite Hpath1. simpl sys_path at 1. rewrite Hp. do 2 f_equal.
    rewrite <- (filter_copies self t s s_c (list_at s sel) copies
                  (copies_identifier _ _ _ _ Hall)).
    rewrite (filter_ext _ (custom_file_package self t s_c)); [reflexivity|].
    intros r. unfold custom_file_package.
    rewrite (identifier_of_objs _ _ _ Hobjs). reflexivity. }
  split; [exact Hinstl|]. split; [rewrite Hk; exact Hnd|].
  eapply entries_class_origin; eassumption.
Qed.

End Origin.

(** The entries of [packages_dict] behind the returned dictionary: their
    settings and the origin of their classes. *)
Lemma load_packages_entries `{World} self t sel (op : operation) ign inst s res s' :
  Load.load_packages self t sel op ign inst s = (Ok res, s') ->
  exists details pd2 copies s_c s1,
    dict_get t PM.package_type_overview = Some details
    /\ deepcopy_items s (list_at s sel) [] s = (copies, s_c)
    /\ Forall2 (fun l r => st_objs s_c !! r = Some (obj_at s l)
                           /\ length (st_objs s) <= r) (list_at s sel) copies
    /\ Forall (fun r => exists id, identifier_of s_c r = Ok id) copies
    /\ Load.instantiate_loop details t op inst pd2 s1 = (Ok res, s')
    /\ NoDup (dict_keys pd2)
    /\ (forall id, entry_settings <$> dict_get id pd2
                   = last_selected s_c id copies None)
    /\ forall id e2 ep,
         dict_get id pd2 = Some e2 -> entry_endpoint e2 = Some ep ->
         exists cls, ep = EndpointClass cls
                     /\ class_origin self t ign (sys_path s) id cls.
Proof.
  intros Hload.
  destruct (load_packages_phases _ _ _ _ _ _ _ _ _ Hload)
    as (details & copies & s_c & l0 & pd1 & s1 & pd2 & Hd & Hcopy & Hall & _ & Hobjs & _
        & Hres & Hdrop & Hinstl & Hnd & Hk & Hset & Hids).
  destruct (deepcopy_items_spec _ _ _ _ _ _ Hcopy) as (_ & Hp & _ & _ & _).
  { intros l r Hl. discriminate. }
  { lia. }
  assert (Hpath : sys_path (snd (alloc_list copies s_c))
                  = (sys_path s ++ repeat "." 0)%list).
  { simpl. rewrite app_nil_r. exact Hp. }
  destruct (resolve_loop_origin _ _ _ _ _ _ _ _ _ _ Hres Hpath) as [Horigin _].
  { intros id e He. discriminate. }
  exists details, pd2, copies, s_c, s1.
  split; [exact Hd|]. split; [exact Hcopy|]. split; [exact Hall|].
  split; [exact Hids|]. split; [exact Hinstl|]. split; [rewrite Hk; exact Hnd|].
  split; [exact Hset|].
  eapply entries_class_origin; eassumption.
Qed.

(** C1 (as stated, refuted). The list object [3] of the example selects
    the built-in prescreen package twice, with different settings. Both
    selected packages resolve to the endpoint class [ScopePrescreen], yet
    [load_packages] constructs one instance only, with the copy of the
    settings of the second: the copy of the settings of the first (the
    object [5]) is handed to no constructor. *)
Lemma load_packages_one_instance_per_identifier :
  let out := Load.load_packages (H:=Demo.w) Demo.manager prescreen 3 "prescreen_op"
               false true Demo.store in
  list_at Demo.store 3 = [0; 4]
  /\ identifier_of Demo.store 0 = Ok "colrev_built_in.scope_prescreen"
  /\ identifier_of Demo.store 4 = Ok "colrev_built_in.scope_prescreen"
  /\ obj_at Demo.store 0 <> obj_at Demo.store 4
  /\ PM.load_package_endpoint (H:=Demo.w) Demo.manager (sys_path Demo.store) prescreen
       "colrev_built_in.scope_prescreen"
     = Ok {| obj_name := "ScopePrescreen"; obj_doc := VStr "Rule-based prescreen" |}
  /\ fst out
     = Ok [("colrev_built_in.scope_prescreen",
            LoadedInstance
              ({| Demo.inst_class := "ScopePrescreen";
                  Demo.inst_keywords := ["prescreen_operation"; "settings"];
                  Demo.inst_settings := 6 |} : endpoint_instance (World:=Demo.w)))]
  /\ st_objs (snd out) !! 6
     = Some (VDict [("endpoint", VStr "colrev_built_in.Scope_Prescreen");
                    ("TimeScopeFrom", VInt 1990); ("seen", VBool true)])
  /\ st_objs (snd out) !! 5
     = Some (VDict [("endpoint", VStr "colrev_built_in.scope_prescreen");
                    ("TimeScopeFrom", VInt 2000)]).
Proof. vm_compute. repeat split. discriminate. Qed.

(** C1 (amended). When [load_packages] returns with
    [instantiate_objects=True], for the package type [t] (every one of
    them is registered in [package_type_overview]): the selected packages
    were deep-copied; the returned dictionary has one key for every
    identifier among the selected packages; and every value is an
    instance, made by calling the class that the identifier resolved to
    (the class that [load_package_endpoint] gives for a registered
    identifier, the custom class of the imported module for any other
    one) with exactly the two keyword arguments [operation_name] of the
    type, bound to the operation, and [settings], bound to the copy of
    the settings of the last selected package with that identifier; the
    instance has passed [verifyObject] for the interface of the type. *)
Theorem load_packages_instantiates `{World} (self : PackageManager)
    (t : PackageEndpointType) (selected_packages : ref) (op : operation)
    (ignore_not_available : bool) (s : pystate)
    (res : list (string * loaded)) (s' : pystate) :
  Load.load_packages self t selected_packages op ignore_not_available true s
    = (Ok res, s') ->
  exists details copies s_c,
    dict_get t PM.package_type_overview = Some details
    /\ deepcopy_items s (list_at s selected_packages) [] s = (copies, s_c)
    /\ Forall2 (fun l r => st_objs s_c !! r = Some (obj_at s l)
                           /\ length (st_objs s) <= r)
         (list_at s selected_packages) copies
    /\ Forall (fun r => exists id, identifier_of s_c r = Ok id /\ id ∈ dict_keys res)
         copies
    /\ NoDup (dict_keys res)
    /\ forall id v, (id, v) ∈ res ->
         exists cls r inst s_call s_done,
           v = LoadedInstance inst
           /\ class_origin self t ignore_not_available (sys_path s) id cls
           /\ last_selected s_c id copies None = Some r
           /\ construct cls [(operation_name details, inl op); ("settings", inr r)]
                s_call = (Ok inst, s_done)
           /\ verifyObject (import_name details) inst = Ok tt.
Proof.
  intros Hload.
  destruct (load_packages_entries _ _ _ _ _ _ _ _ _ Hload)
    as (details & pd2 & copies & s_c & s1 & Hd & Hcopy & Hall & Hids & Hinst & Hnd
        & Hset & Horigin).
  pose proof (instantiate_loop_ok _ _ _ _ _ _ _ Hd Hinst) as Hres.
  pose proof (instantiated_keys _ _ _ _ Hres) as Hkeys.
  exists details, copies, s_c.
  split; [exact Hd|]. split; [exact Hcopy|]. split; [exact Hall|].
  split; [|split].
  - apply Forall_forall. intros r Hr.
    pose proof (proj1 (Forall_forall _ _) Hids r Hr) as [id Hid].
    exists id. split; [exact Hid|].
    rewrite Hkeys.
    destruct (last_selected_found s_c id copies None) as [r' Hr'].
    { left. eauto. }
    rewrite <- Hset in Hr'.
    destruct (dict_get id pd2) as [e|] eqn:He; [|discriminate].
    eapply dict_get_Some_key, He.
  - rewrite Hkeys. exact Hnd.
  - intros id v Hin.
    apply list_elem_of_lookup in Hin as [i Hi].
    destruct (Forall2_lookup_r _ _ _ _ _ Hres Hi) as ([id' e] & Hi' & Hfst & Hrel).
    simpl in Hfst. subst id'.
    destruct Hrel as (cls & inst & s_call & s_done & Hep & Hv & Hcall & Hver).
    simpl in Hep, Hv, Hcall.
    assert (He : dict_get id pd2 = Some e).
    { apply (dict_get_elem_NoDup id e pd2 Hnd). eapply list_elem_of_lookup_2, Hi'. }
    destruct (Horigin _ _ _ He Hep) as (cls' & Hcls & Hor). injection Hcls as <-.
    exists cls, (entry_settings e), inst, s_call, s_done.
    split; [exact Hv|]. split; [exact Hor|]. split.
    + rewrite <- Hset, He. reflexivity.
    + split; [exact Hcall | exact Hver].
Qed.

Lemma load_packages_instantiates_witness :
  exists cls inst s_call s_done,
    class_origin (H:=Demo.w) Demo.manager prescreen false
      ["/usr/lib/python3/site-packages"] "custom_prescreen_script" cls
    /\ construct (World:=Demo.w) cls
         [("prescreen_operation", inl "prescreen_op"); ("settings", inr 6)] s_call
       = (Ok inst, s_done)
    /\ verifyObject (World:=Demo.w) PrescreenPackageInterface inst = Ok tt.
Proof.
  destruct (load_packages_instantiates (H:=Demo.w) Demo.manager prescreen 0
              "prescreen_op" false Demo.store _ _ eq_refl)
    as (details & copies & s_c & Hd & Hc & _ & _ & _ & Hall).
  vm_compute in Hd. injection Hd as <-.
  vm_compute in Hc. injection Hc as <- <-.
  destruct (Hall "custom_prescreen_script" _
              (list_elem_of_further _ _ _ (list_elem_of_here _ _)))
    as (cls & r & inst & s_call & s_done & _ & Hor & Hlast & Hcall & Hver).
  vm_compute in Hlast. injection Hlast as <-.
  exists cls, inst, s_call, s_done.
  split; [exact Hor|]. split; [exact Hcall | exact Hver].
Defined.


(** X2. The keys of the dictionary that [load_packages] returns, with
    either value of [instantiate_objects]: no key is there twice, every
    key is the lower-cased [endpoint] of a selected package and so holds no
    upper-case letter, and every selected package has a string under
    [endpoint] whose lower-cased form is a key. A selected package without
    [endpoint], or with another object than a string there, is therefore
    never passed over: the call does not return. *)
Theorem load_packages_keys `{World} (self : PackageManager) (t : PackageEndpointType)
    (selected_packages : ref) (op : operation)
    (ignore_not_available instantiate_objects : bool) (s : pystate)
    (res : list (string * loaded)) (s' : pystate) :
  Load.load_packages self t selected_packages op ignore_not_available
    instantiate_objects s = (Ok res, s') ->
  NoDup (dict_keys res)
  /\ (forall k, k ∈ dict_keys res ->
        PyStr.has_upper k = false
        /\ exists l, l ∈ list_at s selected_packages /\ identifier_of s l = Ok k)
  /\ (forall l, l ∈ list_at s selected_packages ->
        exists name, Py.getitem (obj_at s l) "endpoint" = Ok (VStr name)
                     /\ PyStr.lower name ∈ dict_keys res).
Proof.
  intros Hload.
  destruct (load_packages_phases _ _ _ _ _ _ _ _ _ Hload)
    as (details & copies & s_c & l0 & pd1 & s1 & pd2 & Hd & _ & Hall & _ & _ & _
        & _ & _ & Hinstl & Hnd & Hk & Hlast & Hids).
  destruct (instantiate_loop_endpoints _ _ _ _ _ Hd _ _ _ Hinstl) as [Hkeys _].
  pose proof (copies_identifier _ _ _ _ Hall) as Hcid.
  rewrite Hkeys, Hk. split; [exact Hnd|]. rewrite <- Hk. split.
  - intros k Hin. apply dict_get_key_Some in Hin as [e He].
    pose proof (Hlast k) as Hl. rewrite He in Hl. simpl in Hl. symmetry in Hl.
    apply last_selected_identifier in Hl as [[Hr Hid]|Hf]; [|discriminate].
    split; [apply (identifier_of_no_upper _ _ _ Hid)|].
    apply list_elem_of_lookup in Hr as [i Hi].
    destruct (Forall2_lookup_r _ _ _ _ _ Hcid Hi) as (l & Hl & Hidl).
    exists l. split; [eapply list_elem_of_lookup_2, Hl|]. rewrite <- Hidl. exact Hid.
  - intros l Hin. apply list_elem_of_lookup in Hin as [i Hi].
    destruct (Forall2_lookup_l _ _ _ _ _ Hcid Hi) as (r & Hr & Hidr).
    pose proof (proj1 (Forall_forall _ _) Hids r (list_elem_of_lookup_2 _ _ _ Hr))
      as [id Hid].
    assert (Hsome : is_Some (last_selected s_c id copies None)).
    { apply last_selected_found. left. exists r.
      split; [eapply list_elem_of_lookup_2, Hr | exact Hid]. }
    rewrite <- Hlast in Hsome. destruct Hsome as [r' Hr'].
    rewrite Hidr in Hid. unfold identifier_of in Hid.
    destruct (Py.getitem (obj_at s l) "endpoint") as [v|]; simpl in Hid;
      [|discriminate].
    destruct v; simpl in Hid; try discriminate. injection Hid as <-.
    eexists. split; [reflexivity|].
    destruct (dict_get (PyStr.lower s0) pd2) as [e|] eqn:He; [|discriminate].
    eapply dict_get_Some_key, He.
Qed.

Lemma load_packages_keys_witness :
  exists res s',
    Load.load_packages (H:=Demo.w) Demo.manager prescreen 3 "prescreen_op" false true
      Demo.store = (Ok res, s')
    /\ NoDup (dict_keys res)
    /\ PyStr.has_upper "colrev_built_in.scope_prescreen" = false.
Proof.
  eexists. eexists. split; [reflexivity|].
  destruct (load_packages_keys (H:=Demo.w) Demo.manager prescreen 3 "prescreen_op"
              false true Demo.store _ _ eq_refl) as (Hnd & Hkeys & _).
  split; [exact Hnd|].
  apply (Hkeys "colrev_built_in.scope_prescreen"). apply list_elem_of_here.
Defined.

(** X3. The class behind every value that [load_packages] returns with
    [instantiate_objects=True]: the value is an instance made by calling a
    class, and that class is the one [load_package_endpoint] gives for a
    registered identifier, and the attribute [custom_class] of the type
    (as [CustomPrescreen]) of the imported module for an identifier that is
    not registered. That module is imported with the package argument
    [.] exactly when [<identifier>.py] is a file, and then [.] is on
    [sys.path]; the search path is the [sys.path] of the call followed
    by the entries [.] appended up to then. *)
Theorem load_packages_class_origin `{World} (self : PackageManager)
    (t : PackageEndpointType) (selected_packages : ref) (op : operation)
    (ignore_not_available : bool) (s : pystate)
    (res : list (string * loaded)) (s' : pystate) :
  Load.load_packages self t selected_packages op ignore_not_available true s
  = (Ok res, s') ->
  forall id v, (id, v) ∈ res ->
    exists cls inst params s_call s_done,
      v = LoadedInstance inst
      /\ construct cls params s_call = (Ok inst, s_done)
      /\ class_origin self t ignore_not_available (sys_path s) id cls.
Proof.
  intros Hload id v Hin.
  destruct (load_packages_origin _ _ _ _ _ _ _ _ _ Hload)
    as (details & pd2 & copies & s_c & s1 & Hd & _ & _ & _ & Hinstl & Hnd & Horigin).
  pose proof (instantiate_loop_ok _ _ _ _ _ _ _ Hd Hinstl) as Hall.
  apply list_elem_of_lookup in Hin as [i Hi].
  destruct (Forall2_lookup_r _ _ _ _ _ Hall Hi)
    as ([id' e2] & He2 & Hfst & cls & inst & s_call & s_done & Hep & Hv & Hcall & _).
  simpl in Hfst, Hep, Hv, Hcall. subst id' v.
  apply list_elem_of_lookup_2 in He2.
  destruct (Horigin _ _ _ (dict_get_elem_NoDup _ _ _ Hnd He2) Hep)
    as (cls' & Hcls & Hor).
  injection Hcls as <-.
  exists cls, inst. eexists. exists s_call, s_done.
  split; [reflexivity|]. split; [exact Hcall | exact Hor].
Qed.

Lemma load_packages_class_origin_witness :
  exists cls,
    class_origin (H:=Demo.w) Demo.manager prescreen false
      ["/usr/lib/python3/site-packages"] "custom_prescreen_script" cls.
Proof.
  destruct (load_packages_class_origin (H:=Demo.w) Demo.manager prescreen 0
              "prescreen_op" false Demo.store _ _ eq_refl "custom_prescreen_script" _
              (list_elem_of_further _ _ _ (list_elem_of_here _ _)))
    as (cls & _ & _ & _ & _ & _ & _ & Hor).
  exists cls. exact Hor.
Defined.

(** X4. With [instantiate_objects=False], [load_packages] returns the
    classes themselves and calls no constructor: every value is a class
    (never a module and never an instance), with the same origin as in the
    other mode, and the store after the call is the store before it with
    the deep copy added, the copied settings untouched. *)
Theorem load_packages_classes_only `{World} (self : PackageManager)
    (t : PackageEndpointType) (selected_packages : ref) (op : operation)
    (ignore_not_available : bool) (s : pystate)
    (res : list (string * loaded)) (s' : pystate) :
  Load.load_packages self t selected_packages op ignore_not_available false s
  = (Ok res, s') ->
  (forall id v, (id, v) ∈ res ->
     exists cls, v = LoadedEndpoint (EndpointClass cls)
                 /\ class_origin self t ignore_not_available (sys_path s) id cls)
  /\ exists copies s_c,
       deepcopy_items s (list_at s selected_packages) [] s = (copies, s_c)
       /\ st_objs s' = st_objs s_c
       /\ st_lists s' = (st_lists s ++ [copies])%list
       /\ Forall2 (fun l r => st_objs s' !! r = Some (obj_at s l))
            (list_at s selected_packages) copies.
Proof.
  intros Hload.
  destruct (load_packages_origin _ _ _ _ _ _ _ _ _ Hload)
    as (details & pd2 & copies & s_c & s1 & Hd & Hcopy & [Hobjs Hlists] & _ & Hinstl
        & Hnd & Horigin).
  destruct (instantiate_loop_classes _ _ _ _ Hd _ _ _ Hinstl) as [-> Hall].
  split.
  - intros id v Hin. apply list_elem_of_lookup in Hin as [i Hi].
    destruct (Forall2_lookup_r _ _ _ _ _ Hall Hi)
      as ([id' e2] & He2 & Hfst & ep & Hep & Hv).
    simpl in Hfst, Hep, Hv. subst id' v.
    apply list_elem_of_lookup_2 in He2.
    destruct (Horigin _ _ _ (dict_get_elem_NoDup _ _ _ Hnd He2) Hep)
      as (cls & -> & Hor).
    exists cls. auto.
  - destruct (deepcopy_items_spec _ _ _ _ _ _ Hcopy) as (Hls & _ & _ & _ & Hitems).
    { intros l r Hl. discriminate. }
    { lia. }
    exists copies, s_c. split; [exact Hcopy|]. simpl in Hobjs, Hlists.
    split; [exact Hobjs|]. split; [rewrite Hlists, Hls; reflexivity|].
    eapply Forall2_impl; [exact Hitems|]. simpl. intros l r [Hr _].
    unfold ref in *. rewrite Hobjs. exact Hr.
Qed.

Lemma load_packages_classes_only_witness :
  exists cls,
    class_origin (H:=Demo.w) Demo.manager prescreen false
      ["/usr/lib/python3/site-packages"] "colrev_built_in.scope_prescreen" cls.
Proof.
  destruct (load_packages_classes_only (H:=Demo.w) Demo.manager prescreen 0
              "prescreen_op" false Demo.store _ _ eq_refl) as [Hall _].
  destruct (Hall "colrev_built_in.scope_prescreen" _ (list_elem_of_here _ _))
    as (cls & _ & Hor).
  exists cls. exact Hor.
Defined.

(** X5. [__get_packages_dict] appends [.] to [sys.path] once for every
    selected package that is a custom script of the project directory,
    counted with repetitions, and takes nothing off again: when it
    returns, [sys.path] is what it was, followed by that many entries
    [.]. *)
Theorem get_packages_dict_sys_path `{World} (self : PackageManager)
    (selected_packages : ref) (t : PackageEndpointType)
    (ignore_not_available : bool) (s : pystate)
    (packages_dict : list (string * package_entry)) (s' : pystate) :
  Load.get_packages_dict self selected_packages t ignore_not_available s
  = (Ok packages_dict, s') ->
  sys_path s'
  = (sys_path s
       ++ repeat "." (length (List.filter (custom_file_package self t s)
                                (list_at s selected_packages))))%list.
Proof.
  unfold Load.get_packages_dict, bind.
  destruct (deepcopy_spec selected_packages s)
    as (l & copies & s_c & Hdc & Hcopy & Hlist & Hobjs & _ & Hall).
  rewrite Hdc, Hlist. intros Hres.
  destruct (deepcopy_items_spec _ _ _ _ _ _ Hcopy) as (_ & Hp & _ & _ & _).
  { intros l1 r Hl. discriminate. }
  { lia. }
  assert (Hpath : sys_path (snd (alloc_list copies s_c))
                  = (sys_path s ++ repeat "." 0)%list).
  { simpl. rewrite app_nil_r. exact Hp. }
  destruct (resolve_loop_origin _ _ _ _ _ _ _ _ _ _ Hres Hpath) as [_ Hpath1].
  { intros id e He. discriminate. }
  rewrite Hpath1. simpl sys_path at 1. rewrite Hp. do 2 f_equal.
  rewrite <- (filter_copies self t s s_c (list_at s selected_packages) copies
                (copies_identifier _ _ _ _ Hall)).
  rewrite (filter_ext _ (custom_file_package self t s_c)); [reflexivity|].
  intros r. unfold custom_file_package.
  rewrite (identifier_of_objs _ _ _ Hobjs). reflexivity.
Qed.

Lemma get_packages_dict_sys_path_witness :
  exists packages_dict s',
    Load.get_packages_dict (H:=Demo.w) Demo.manager 0 prescreen false Demo.store
    = (Ok packages_dict, s')
    /\ sys_path s' = ["/usr/lib/python3/site-packages"; "."].
Proof.
  eexists. eexists. split; [reflexivity|].
  apply (get_packages_dict_sys_path (H:=Demo.w) Demo.manager 0 prescreen false
           Demo.store _ _ eq_refl).
Defined.

(** ** Discovering packages again *)

Section Rediscovering.
Context `{World}.

Lemma discovered_metadata_installed self path t io id m m1 :
  discovered_metadata self path t io id m = Ok m1 ->
  Py.getitem m1 "installed" = Py.getitem m "installed".
Proof.
  unfold discovered_metadata.
  destruct (PM.skips io m) as [[|]|]; simpl; [| |discriminate].
  - intros Hm. injection Hm as <-. reflexivity.
  - destruct (PM.load_package_endpoint self path t id) as [cls|]; simpl;
      [|discriminate].
    destruct m as [| | | | |md]; simpl; try discriminate.
    destruct (dict_get "installed" md) as [v|] eqn:Hv; simpl; [|discriminate].
    intros Hm. injection Hm as <-. simpl.
    rewrite dict_get_set_ne by discriminate. rewrite Hv. reflexivity.
Qed.

(** A visit of an entry that is as a visit leaves it changes nothing. *)
Lemma discover_entry_fixed path t io id self m :
  lookup_metadata self t id = Some m ->
  discovered_metadata self path t io id m = Ok m ->
  PM.discover_entry path t io id self = Ok self.
Proof.
  intros Hcur Hfix. unfold PM.discover_entry, PM.set_metadata.
  unfold lookup_metadata in Hcur. unfold PM.packages_of.
  destruct (dict_get t (packages self)) as [d|] eqn:Hd; [|discriminate].
  simpl. rewrite Hcur. simpl.
  unfold discovered_metadata in Hfix.
  destruct (PM.skips io m) as [[|]|]; simpl in *; [reflexivity| |discriminate].
  destruct (PM.load_package_endpoint self path t id) as [cls|]; simpl in *;
    [|discriminate].
  destruct m as [| | | | |md]; simpl in Hfix; try discriminate.
  destruct (dict_get "installed" md) as [v|] eqn:Hv; simpl in Hfix; [|discriminate].
  injection Hfix as Hfix.
  destruct self as [pk]. cbn [packages] in *.
  cbn [Py.setitem Py.getitem rbind packages]. rewrite Hfix, Hv.
  rewrite (dict_set_same id (VDict md) d Hcur), (dict_set_same t d _ Hd).
  cbn [rbind packages]. rewrite Hd. cbn [rbind]. rewrite Hcur.
  cbn [rbind Py.setitem packages].
  rewrite (dict_set_same "installed" v md Hv).
  rewrite (dict_set_same id (VDict md) d Hcur), (dict_set_same t d _ Hd).
  reflexivity.
Qed.

Lemma discover_loop_fixed path t io ids self :
  (forall id, id ∈ ids ->
     exists m, lookup_metadata self t id = Some m
               /\ discovered_metadata self path t io id m = Ok m) ->
  PM.discover_loop path t io ids self = Ok self.
Proof.
  induction ids as [|id ids IH]; intros Hall; simpl; [reflexivity|].
  destruct (Hall id (list_elem_of_here _ _)) as (m & Hm & Hfix).
  rewrite (discover_entry_fixed _ _ _ _ _ _ Hm Hfix). simpl.
  apply IH. intros id' Hin. apply Hall, list_elem_of_further, Hin.
Qed.

(** What the loop keeps: what [load_package_endpoint] does, and the
    [installed] flag of every entry. *)
Lemma discover_loop_keeps path t io ids : forall self self',
  PM.discover_loop path t io ids self = Ok self' ->
  (forall t' id', PM.load_package_endpoint self' path t' id'
                  = PM.load_package_endpoint self path t' id')
  /\ (forall t' id' m', lookup_metadata self' t' id' = Some m' ->
        exists m, lookup_metadata self t' id' = Some m
                  /\ Py.getitem m' "installed" = Py.getitem m "installed"
                  /\ (t' <> t -> m' = m)).
Proof.
  induction ids as [|id ids IH]; intros self self' Hloop; simpl in Hloop.
  - injection Hloop as <-. split; [reflexivity|]. intros t' id' m' Hm'. eauto.
  - destruct (PM.discover_entry path t io id self) as [self1|] eqn:Hstep;
      simpl in Hloop; [|discriminate].
    assert (exists mcur, lookup_metadata self t id = Some mcur) as [mcur Hcur].
    { unfold PM.discover_entry, PM.packages_of, lookup_metadata in *.
      destruct (dict_get t (packages self)) as [d|]; simpl in Hstep; [|discriminate].
      destruct (dict_get id d) as [p|]; simpl in Hstep; [eauto | discriminate]. }
    destruct (discover_entry_step _ _ _ _ _ _ _ Hcur Hstep)
      as (Hl1 & _ & Hother & (m1 & Hm1 & Hlk1)).
    destruct (IH _ _ Hloop) as [Hl2 Hk2].
    split; [intros; rewrite Hl2; apply Hl1|].
    intros t' id' m' Hm'. destruct (Hk2 _ _ _ Hm') as (m & Hm & Hinst & Hsame).
    destruct (decide (t = t' /\ id = id')) as [[<- <-]|Hne].
    + exists mcur. split; [exact Hcur|]. rewrite Hlk1 in Hm. injection Hm as <-.
      split; [|congruence].
      rewrite Hinst. apply (discovered_metadata_installed _ _ _ _ _ _ _ Hm1).
    + exists m. rewrite <- (Hother _ _ Hne). auto.
Qed.

End Rediscovering.

(** X6. [discover_packages] called a second time, with the same
    arguments, returns the same dictionary and leaves the registry as the
    first call left it: the descriptions are written over themselves. *)
Theorem discover_packages_twice `{World} (self : PackageManager) (path : list string)
    (t : PackageEndpointType) (installed_only : bool)
    (d : list (string * pyval)) (self' : PackageManager) :
  PM.discover_packages self path t installed_only = Ok (d, self') ->
  PM.discover_packages self' path t installed_only = Ok (d, self').
Proof.
  unfold PM.discover_packages. intros Hfirst.
  destruct (PM.packages_of self t) as [d0|] eqn:Hd0; simpl in Hfirst; [|discriminate].
  destruct (PM.discover_loop path t installed_only (dict_keys d0) self) as [self1|]
    eqn:Hloop; simpl in Hfirst; [|discriminate].
  destruct (PM.packages_of self1 t) as [d1|] eqn:Hd1; simpl in Hfirst; [|discriminate].
  injection Hfirst as <- <-. rewrite Hd1. simpl.
  destruct (discover_loop_keeps _ _ _ _ _ _ Hloop) as [Hload _].
  destruct (discover_loop_spec self path t installed_only (dict_keys d0) self self1)
    as (Hkeys & _ & _ & Hvisited); [reflexivity| |exact Hloop|].
  { intros id m0 Hm0. left. exact Hm0. }
  assert (Hk : dict_keys d1 = dict_keys d0).
  { specialize (Hkeys t). unfold PM.packages_of in Hd0, Hd1.
    destruct (dict_get t (packages self)); [|discriminate].
    destruct (dict_get t (packages self1)); [|discriminate].
    simpl in Hkeys. congruence. }
  rewrite Hk, discover_loop_fixed; [simpl; rewrite Hd1; reflexivity|].
  intros id Hin. apply dict_get_key_Some in Hin as [m0 Hm0].
  assert (Hlk0 : lookup_metadata self t id = Some m0).
  { unfold lookup_metadata. unfold PM.packages_of in Hd0.
    destruct (dict_get t (packages self)); [|discriminate]. congruence. }
  destruct (Hvisited id m0) as (m1 & Hm1 & Hlk1); [eapply dict_get_Some_key, Hm0 | exact Hlk0 |].
  exists m1. split; [exact Hlk1|].
  rewrite (discovered_metadata_load self1 self _ _ _ _ _ Hload).
  apply (discovered_metadata_idempotent _ _ _ _ _ _ _ Hm1).
Qed.

Lemma discover_packages_twice_witness :
  exists d self',
    PM.discover_packages (H:=Demo.w) Demo.manager [] prescreen false = Ok (d, self')
    /\ PM.discover_packages (H:=Demo.w) self' [] prescreen false = Ok (d, self').
Proof.
  eexists. eexists. split; [reflexivity|].
  apply (discover_packages_twice (H:=Demo.w) Demo.manager [] prescreen false _ _ eq_refl).
Defined.

(** X7. [discover_packages] keeps what the constructor established: it
    changes no entry of another package type, no [installed] flag and
    nothing that [load_package_endpoint] does, so that the flags that
    agreed with [load_package_endpoint] before the call agree with it
    after the call. *)
Theorem discover_packages_keeps_flags `{World} (self : PackageManager)
    (path : list string) (t : PackageEndpointType) (installed_only : bool)
    (d : list (string * pyval)) (self' : PackageManager) :
  PM.discover_packages self path t installed_only = Ok (d, self') ->
  (forall t' id', PM.load_package_endpoint self' path t' id'
                  = PM.load_package_endpoint self path t' id')
  /\ (forall t' id', t' <> t ->
        lookup_metadata self' t' id' = lookup_metadata self t' id')
  /\ (forall t' id' m',
        lookup_metadata self' t' id' = Some m' ->
        (forall m, lookup_metadata self t' id' = Some m ->
                   flag_agrees self path t' id' m) ->
        flag_agrees self' path t' id' m').
Proof.
  unfold PM.discover_packages. intros Hfirst.
  destruct (PM.packages_of self t) as [d0|] eqn:Hd0; simpl in Hfirst; [|discriminate].
  destruct (PM.discover_loop path t installed_only (dict_keys d0) self) as [self1|]
    eqn:Hloop; simpl in Hfirst; [|discriminate].
  destruct (PM.packages_of self1 t) as [d1|] eqn:Hd1; simpl in Hfirst; [|discriminate].
  injection Hfirst as <- <-.
  destruct (discover_loop_keeps _ _ _ _ _ _ Hloop) as [Hload Hkeep].
  destruct (discover_loop_spec self path t installed_only (dict_keys d0) self self1)
    as (Hkeys & _ & _ & _); [reflexivity| |exact Hloop|].
  { intros id m0 Hm0. left. exact Hm0. }
  split; [exact Hload|]. split.
  - intros t' id' Hne.
    destruct (lookup_metadata self1 t' id') as [m'|] eqn:Hm'.
    + destruct (Hkeep _ _ _ Hm') as (m & Hm & _ & Hsame). rewrite Hm, (Hsame Hne).
      reflexivity.
    + specialize (Hkeys t'). unfold lookup_metadata in *.
      destruct (dict_get t' (packages self1)) as [e1|];
        destruct (dict_get t' (packages self)) as [e0|]; simpl in Hkeys;
        try discriminate; [|reflexivity].
      injection Hkeys as Hkeys.
      destruct (dict_get id' e0) as [m|] eqn:Hm; [|reflexivity].
      apply dict_get_Some_key in Hm. rewrite <- Hkeys in Hm.
      apply dict_get_key_Some in Hm as [m1 Hm1]. congruence.
  - intros t' id' m' Hm' Hagree.
    destruct (Hkeep _ _ _ Hm') as (m & Hm & Hinst & _).
    destruct (Hagree _ Hm) as (b & Hb & Htrue & Hfalse).
    exists b. rewrite Hinst, Hload. auto.
Qed.

Lemma discover_packages_keeps_flags_witness :
  exists d self',
    PM.discover_packages (H:=Demo.w) Demo.manager [] prescreen false = Ok (d, self')
    /\ lookup_metadata self' prep "colrev_built_in.get_doi_from_urls"
       = lookup_metadata Demo.manager prep "colrev_built_in.get_doi_from_urls".
Proof.
  eexists. eexists. split; [reflexivity|].
  destruct (discover_packages_keeps_flags (H:=Demo.w) Demo.manager [] prescreen false
              _ _ eq_refl) as (_ & Hother & _).
  apply Hother. discriminate.
Defined.

(** ** The prescreen operation looks its endpoints up by their raw names *)

Lemma run_endpoints_names `{Prescreen.Env} (self : Prescreen.operation_state)
    (split : list string) (selected : list pyval) :
  forall recs trace trace',
    Prescreen.run_endpoints self selected recs split trace = (Ok tt, trace') ->
    Forall (fun p => exists name,
                Py.getitem p "endpoint" = Ok (VStr name)
                /\ name ∈ dict_keys (Prescreen.prescreen_package_endpoints self))
      selected.
Proof.
  induction selected as [|p selected IH]; intros recs trace trace' Hrun;
    [constructor|].
  simpl in Hrun. unfold bind, lift, Prescreen.emit in Hrun.
  destruct (Py.getitem p "endpoint") as [name|] eqn:Hname; [|discriminate].
  destruct (Prescreen.lookup_endpoint (Prescreen.prescreen_package_endpoints self) name)
    as [e|] eqn:He; [|discriminate].
  destruct (Prescreen.run_prescreen e recs split) as [recs'|]; [|discriminate].
  constructor; [|eapply IH, Hrun].
  unfold Prescreen.lookup_endpoint in He.
  destruct name as [| | |name| |]; try discriminate.
  exists name. split; [exact Hname|].
  destruct (dict_get name (Prescreen.prescreen_package_endpoints self)) as [e'|] eqn:Hget;
    [|discriminate].
  eapply dict_get_Some_key, Hget.
Qed.

(** X8. [Prescreen.main] looks every endpoint of the settings up in
    [self.prescreen_package_endpoints] under the name as the settings
    spell it, whereas [load_packages] stores it under the lower-cased
    name. So when the keys hold no upper-case letter, as those of
    [load_packages] do: [main] returns only if every endpoint name of the
    settings is a string in lower case that is one of the keys; and when
    the first endpoint of the settings has a name with an upper-case
    letter, [main] raises [KeyError] for that name as soon as the split
    is accepted and the records are loaded, with no endpoint run. *)
Theorem main_looks_up_raw_names `{Prescreen.Env} (self : Prescreen.operation_state)
    (split_str : string) (trace : list (Prescreen.event Prescreen.endpoint)) :
  (forall k, k ∈ dict_keys (Prescreen.prescreen_package_endpoints self) ->
             PyStr.has_upper k = false) ->
  (forall trace',
     Prescreen.main self split_str trace = (Ok tt, trace') ->
     Forall (fun p => exists name,
                 Py.getitem p "endpoint" = Ok (VStr name)
                 /\ name ∈ dict_keys (Prescreen.prescreen_package_endpoints self)
                 /\ PyStr.lower name = name)
       (Prescreen.settings_endpoints self))
  /\ (forall d rest name recs,
        Prescreen.settings_endpoints self = VDict d :: rest ->
        dict_get "endpoint" d = Some (VStr name) ->
        PyStr.has_upper name = true ->
        split_str = "NA" \/ EmptyString ∈ PyStr.split ","%char split_str ->
        Prescreen.load_records_dict = Ok recs ->
        Prescreen.main self split_str trace
        = (Raise (KeyError name),
           (trace ++ [Prescreen.Load_records_dict;
                      Prescreen.Logger_info_run (VStr name)])%list)).
Proof.
  intros Hkeys. split.
  - intros trace' Hmain.
    assert (Hrun : exists recs split trace1,
              Prescreen.run_endpoints self (Prescreen.settings_endpoints self) recs split
                trace1 = (Ok tt, trace')).
    { unfold Prescreen.main, bind, lift, ret, Prescreen.emit in Hmain.
      destruct (negb (split_str =? "NA")%string).
      - destruct (Prescreen.list_remove EmptyString (PyStr.split ","%char split_str))
          as [split|]; [|discriminate].
        destruct Prescreen.load_records_dict as [recs|]; [eauto | discriminate].
      - destruct Prescreen.load_records_dict as [recs|]; [eauto | discriminate]. }
    destruct Hrun as (recs & split & trace1 & Hrun).
    eapply Forall_impl; [apply (run_endpoints_names _ _ _ _ _ _ Hrun)|].
    simpl. intros p (name & Hname & Hin). exists name.
    split; [exact Hname|]. split; [exact Hin|]. apply lower_no_upper, Hkeys, Hin.
  - intros d rest name recs Hsettings Hname Hupper Hsplit Hrecs.
    assert (Hmiss : dict_get name (Prescreen.prescreen_package_endpoints self) = None).
    { destruct (dict_get name (Prescreen.prescreen_package_endpoints self)) as [e|]
        eqn:He; [|reflexivity].
      apply dict_get_Some_key, Hkeys in He. congruence. }
    assert (Hfirst : forall split trace1,
              Prescreen.run_endpoints self (Prescreen.settings_endpoints self) recs split
                trace1
              = (Raise (KeyError name),
                 (trace1 ++ [Prescreen.Logger_info_run (VStr name)])%list)).
    { intros split trace1. rewrite Hsettings. cbn [Prescreen.run_endpoints].
      unfold bind, lift, Prescreen.emit. cbn [Py.getitem]. rewrite Hname.
      cbn [Prescreen.lookup_endpoint]. rewrite Hmiss. reflexivity. }
    unfold Prescreen.main, bind, lift, ret, Prescreen.emit.
    destruct (String.eqb_spec split_str "NA") as [->|Hna]; cbn [negb].
    + rewrite Hrecs, Hfirst, <- app_assoc. reflexivity.
    + destruct Hsplit as [Heq|Hin]; [contradiction|].
      destruct (list_remove_present _ _ Hin) as (split & -> & _).
      rewrite Hrecs, Hfirst, <- app_assoc. reflexivity.
Qed.

Lemma main_looks_up_raw_names_witness :
  Forall (fun p => exists name,
              Py.getitem p "endpoint" = Ok (VStr name)
              /\ name ∈ dict_keys (Prescreen.prescreen_package_endpoints
                                     DemoPrescreen.self)
              /\ PyStr.lower name = name)
    (Prescreen.settings_endpoints DemoPrescreen.self)
  /\ Prescreen.main (H:=DemoPrescreen.env) DemoMixedCase.self "NA" []
     = (Raise (KeyError "colrev_built_in.Scope_Prescreen"),
        [Prescreen.Load_records_dict;
         Prescreen.Logger_info_run (VStr "colrev_built_in.Scope_Prescreen")]).
Proof.
  split.
  - refine (proj1 (main_looks_up_raw_names (H:=DemoPrescreen.env) DemoPrescreen.self
                     "NA" [] _) _ eq_refl).
    intros k Hin. apply list_elem_of_singleton in Hin. subst k. reflexivity.
  - refine (proj2 (main_looks_up_raw_names (H:=DemoPrescreen.env) DemoMixedCase.self
                     "NA" [] _) _ _ _ _ eq_refl eq_refl eq_refl (or_introl eq_refl)
                  eq_refl).
    intros k Hin. apply list_elem_of_singleton in Hin. subst k. reflexivity.
Defined.

Lemma selected_in_packages_dict `{World} self t sel (op : operation) ign inst s res s'
    l id :
  Load.load_packages self t sel op ign inst s = (Ok res, s') ->
  l ∈ list_at s sel ->
  identifier_of s l = Ok id ->
  id ∈ dict_keys res.
Proof.
  intros Hload Hin Hid.
  destruct (load_packages_phases _ _ _ _ _ _ _ _ _ Hload)
    as (details & copies & s_c & l0 & pd1 & s1 & pd2 & Hd & _ & Hall & _ & _ & _
        & _ & _ & Hinstl & _ & _ & Hlast & _).
  destruct (instantiate_loop_endpoints _ _ _ _ _ Hd _ _ _ Hinstl) as [Hkeys _].
  apply list_elem_of_lookup in Hin as [i Hi].
  destruct (Forall2_lookup_l _ _ _ _ _ (copies_identifier _ _ _ _ Hall) Hi)
    as (r & Hr & Hidr).
  assert (Hsome : is_Some (last_selected s_c id copies None)).
  { apply last_selected_found. left. exists r.
    split; [eapply list_elem_of_lookup_2, Hr | congruence]. }
  rewrite <- Hlast in Hsome. destruct Hsome as [r' Hr'].
  destruct (dict_get id pd2) as [e|] eqn:He; [|discriminate].
  rewrite Hkeys. eapply dict_get_Some_key, He.
Qed.

(** X9. A custom package whose module does not have the class that the
    package type asks for ([custom_class] in [package_type_overview]) is
    never loaded: with an identifier that is not registered among the
    selected packages, and no importable module of that name with that
    attribute, [load_packages] raises. This is what happens to the script
    that [PDFGet.setup_custom_script] writes and appends to
    [pdf_get_man_package_endpoints]: the template defines [CustomPDFGet],
    the type [pdf_get_man] asks for [CustomPDFGetMan]. *)
Theorem load_packages_custom_class_missing `{World} (self : PackageManager)
    (t : PackageEndpointType) (selected_packages : ref) (op : operation)
    (ignore_not_available instantiate_objects : bool) (s : pystate)
    (registered : list (string * pyval)) (details : package_type_details)
    (l : ref) (id : string) :
  dict_get t (packages self) = Some registered ->
  dict_get t PM.package_type_overview = Some details ->
  l ∈ list_at s selected_packages ->
  identifier_of s l = Ok id ->
  dict_get id registered = None ->
  (forall path anchor m,
     import_module path id anchor = Ok m ->
     getattr m (custom_class details) = Raise AttributeError) ->
  exists e, fst (Load.load_packages self t selected_packages op ignore_not_available
                   instantiate_objects s) = Raise e.
Proof.
  intros Hreg Hd Hl Hid Hnone Hmissing.
  destruct (Load.load_packages self t selected_packages op ignore_not_available
              instantiate_objects s) as [[res|e] s'] eqn:Hload; [exfalso | eauto].
  pose proof (selected_in_packages_dict _ _ _ _ _ _ _ _ _ _ _ Hload Hl Hid) as Hkey.
  destruct (load_packages_origin _ _ _ _ _ _ _ _ _ Hload)
    as (details' & pd2 & copies & s_c & s1 & Hd' & _ & _ & _ & Hinstl & Hnd & Horigin).
  destruct (instantiate_loop_endpoints _ _ _ _ _ Hd' _ _ _ Hinstl) as [Hkeys Hsome].
  rewrite Hkeys in Hkey. apply dict_get_key_Some in Hkey as [e2 He2].
  pose proof (proj1 (Forall_forall _ _) Hsome _ (dict_get_Some_elem _ _ _ He2))
    as [ep Hep].
  simpl in Hep.
  destruct (Horigin _ _ _ He2 Hep) as (cls & _ & registered' & details'' & k & Hreg'
                                       & Hd'' & Hcase).
  rewrite Hreg in Hreg'. injection Hreg' as <-.
  rewrite Hd in Hd''. injection Hd'' as <-.
  rewrite Hnone in Hcase. destruct Hcase as (_ & m & Himp & _ & Hattr).
  rewrite (Hmissing _ _ _ Himp) in Hattr. discriminate.
Qed.

Lemma load_packages_custom_class_missing_witness :
  exists e, fst (Load.load_packages (H:=DemoTemplate.w) DemoTemplate.manager pdf_get_man 0
                   "pdf_get_man_op" false true DemoTemplate.store) = Raise e.
Proof.
  refine (load_packages_custom_class_missing (H:=DemoTemplate.w) DemoTemplate.manager
            pdf_get_man 0 "pdf_get_man_op" false true DemoTemplate.store [] _ 0
            "custom_pdf_get_script" eq_refl eq_refl _ eq_refl eq_refl _).
  - apply list_elem_of_here.
  - intros path anchor m. simpl.
    match goal with |- (if ?b then _ else _) = _ -> _ => destruct b end; intros Hm;
      [injection Hm as <-; reflexivity | discriminate].
Defined.

(** ** The details of a package: paths and schema *)

Section SchemaValues.

(** Induction over the values, through the lists and dictionaries. *)
Lemma sval_nested_ind (P : sval -> Prop) :
  P SNone -> (forall b, P (SBool b)) -> (forall z, P (SInt z)) ->
  (forall s, P (SStr s)) -> (forall p, P (SPath p)) ->
  (forall l, P (SList l)) ->
  (forall d, Forall (fun item => P (snd item)) d -> P (SDict d)) ->
  forall v, P v.
Proof.
  intros HNone HBool HInt HStr HPath HList HDict. fix IH 1.
  intros [ |b|z|s|p|l|d].
  - exact HNone.
  - apply HBool.
  - apply HInt.
  - apply HStr.
  - apply HPath.
  - apply HList.
  - apply HDict. induction d as [|[k x] d IHd]; constructor; [apply IH | exact IHd].
Qed.

Lemma dict_get_replaced (f : sval -> sval) k (d : list (string * sval)) :
  dict_get k (map (fun item => (fst item, f (snd item))) d) = f <$> dict_get k d.
Proof.
  induction d as [|[k' x] d IH]; simpl; [reflexivity|].
  destruct (decide (k' = k)); [reflexivity | exact IH].
Qed.

Lemma replace_value_path_free v : Details.path_free (Details.replace_value v) = true.
Proof.
  induction v as [ |b|z|s|p|l|d IH] using sval_nested_ind; try reflexivity.
  simpl. induction IH as [|[k x] d Hx _ IHd]; simpl; [reflexivity|].
  simpl in Hx. rewrite Hx. exact IHd.
Qed.

Lemma replace_value_fixed v :
  Details.replace_value v = v <-> Details.path_free v = true.
Proof.
  induction v as [ |b|z|s|p|l|d IH] using sval_nested_ind; simpl;
    try (split; reflexivity).
  - split; discriminate.
  - induction IH as [|[k x] d Hx _ IHd]; simpl; [split; reflexivity|].
    simpl in Hx. rewrite andb_true_iff, <- Hx, <- IHd. split.
    + intros Heq. injection Heq as Hx' Hd'. split; congruence.
    + intros [-> Hd']. injection Hd' as ->. reflexivity.
Qed.

Lemma replace_path_by_str_keys d :
  dict_keys (Details.replace_path_by_str d) = dict_keys d
  /\ Details.path_free (SDict (Details.replace_path_by_str d)) = true.
Proof.
  split.
  - unfold Details.replace_path_by_str, dict_keys. rewrite map_map. reflexivity.
  - apply (replace_value_path_free (SDict d)).
Qed.

End SchemaValues.

(** X10. [__replace_path_by_str] keeps the keys and their order, leaves
    no path under a key at any depth of nested dictionaries, and changes
    nothing exactly when there was no such path: it is idempotent. Lists
    are not looked into, so a path inside a list stays a path. *)
Theorem replace_path_by_str_spec (orig_dict : list (string * sval)) :
  dict_keys (Details.replace_path_by_str orig_dict) = dict_keys orig_dict
  /\ Details.path_free (SDict (Details.replace_path_by_str orig_dict)) = true
  /\ (Details.replace_path_by_str orig_dict = orig_dict
      <-> Details.path_free (SDict orig_dict) = true)
  /\ (forall k l, dict_get k orig_dict = Some (SList l) ->
                  dict_get k (Details.replace_path_by_str orig_dict) = Some (SList l)).
Proof.
  destruct (replace_path_by_str_keys orig_dict) as [Hkeys Hfree].
  split; [exact Hkeys|]. split; [exact Hfree|]. split.
  - rewrite <- (replace_value_fixed (SDict orig_dict)). simpl.
    unfold Details.replace_path_by_str. split; congruence.
  - intros k l Hk. unfold Details.replace_path_by_str.
    rewrite dict_get_replaced, Hk. reflexivity.
Qed.

Section PackageDetails.
Context `{World} `{SettingsClasses}.

Lemma set_property_keys pd parameter key x pd' :
  Details.set_property pd parameter key x = Ok pd' ->
  dict_keys pd' = dict_keys pd.
Proof.
  unfold Details.set_property. simpl.
  destruct (dict_get "properties" pd) as [properties|] eqn:Hp; simpl; [|discriminate].
  destruct (SVal.getitem properties parameter) as [property|]; simpl; [|discriminate].
  destruct (SVal.setitem property key x) as [property'|]; simpl; [|discriminate].
  destruct (SVal.setitem properties parameter property') as [properties'|]; simpl;
    [|discriminate].
  intros Hpd. injection Hpd as <-. eapply dict_keys_set_present, Hp.
Qed.

Lemma add_property_keys pd name x pd' :
  Details.add_property pd name x = Ok pd' ->
  dict_keys pd' = dict_keys pd
  /\ exists properties,
       dict_get "properties" pd = Some (SDict properties)
       /\ dict_get "properties" pd' = Some (SDict (dict_set name x properties)).
Proof.
  unfold Details.add_property. simpl.
  destruct (dict_get "properties" pd) as [properties|] eqn:Hp; simpl; [|discriminate].
  destruct properties as [ | | | | | |properties]; simpl; try discriminate.
  intros Hpd. injection Hpd as <-.
  split; [eapply dict_keys_set_present, Hp|].
  exists properties. split; [reflexivity | apply dict_get_set_eq].
Qed.

Lemma copy_detail_keys detail parameter key pd pd' :
  Details.copy_detail detail parameter key pd = Ok pd' ->
  dict_keys pd' = dict_keys pd.
Proof.
  unfold Details.copy_detail. destruct (dict_get key detail).
  - apply set_property_keys.
  - intros Hpd. injection Hpd as <-. reflexivity.
Qed.

Lemma add_details_keys sc parameter pd pd' :
  Details.add_details sc parameter pd = Ok pd' ->
  dict_keys pd' = dict_keys pd.
Proof.
  unfold Details.add_details.
  destruct (_details sc) as [details|]; [|intros Hpd; injection Hpd as <-; reflexivity].
  destruct (dict_get parameter details) as [detail|];
    [|intros Hpd; injection Hpd as <-; reflexivity].
  destruct (Details.copy_detail detail parameter "tooltip" pd) as [pd1|] eqn:H1;
    simpl; [|discriminate].
  destruct (Details.copy_detail detail parameter "min" pd1) as [pd2|] eqn:H2;
    simpl; [|discriminate].
  destruct (Details.copy_detail detail parameter "max" pd2) as [pd3|] eqn:H3;
    simpl; [|discriminate].
  intros H4.
  rewrite (copy_detail_keys _ _ _ _ _ H4), (copy_detail_keys _ _ _ _ _ H3),
    (copy_detail_keys _ _ _ _ _ H2). apply (copy_detail_keys _ _ _ _ _ H1).
Qed.

Lemma parameter_loop_keys sc parameters : forall pd pd',
  Details.parameter_loop sc parameters pd = Ok pd' ->
  dict_keys pd' = dict_keys pd.
Proof.
  induction parameters as [|parameter rest IH]; intros pd pd'; simpl.
  - intros Hpd. injection Hpd as <-. reflexivity.
  - destruct (Details.add_details sc parameter pd) as [pd1|] eqn:H1; simpl;
      [|discriminate].
    intros Hrest. rewrite (IH _ _ Hrest). apply (add_details_keys _ _ _ _ H1).
Qed.

Lemma fix_path_type_keys name pd pd' :
  Details.fix_path_type name pd = Ok pd' ->
  dict_keys pd' = dict_keys pd /\ "properties" ∈ dict_keys pd.
Proof.
  unfold Details.fix_path_type. simpl.
  destruct (dict_get "properties" pd) as [properties|] eqn:Hp; simpl; [|discriminate].
  apply dict_get_Some_key in Hp.
  destruct (SVal.contains name properties) as [[|]|]; simpl; [| |discriminate].
  - intros Hset. split; [apply (set_property_keys _ _ _ _ _ Hset) | exact Hp].
  - intros Hpd. injection Hpd as <-. auto.
Qed.

End PackageDetails.

(** X11. [get_package_details] for a package whose class has no
    [settings_class] raises [AttributeError]: the schema is asked of
    [settings_class] before [settings_class] is compared with [None],
    so that the [ServiceNotAvailableException] of the next statement is
    never raised. *)
Theorem get_package_details_no_settings_class `{World} `{SettingsClasses}
    (self : PackageManager) (path : list string) (t : PackageEndpointType)
    (package_identifier : string) (package_class : pyobject) :
  PM.load_package_endpoint self path t (PyStr.lower package_identifier)
  = Ok package_class ->
  settings_class package_class = None ->
  Details.get_package_details self path t package_identifier = Raise AttributeError.
Proof.
  intros Hload Hnone. unfold Details.get_package_details.
  rewrite Hload. simpl. rewrite Hnone. reflexivity.
Qed.

Lemma get_package_details_no_settings_class_witness :
  Details.get_package_details (H:=Demo.w) (H0:=DemoDetails.classes) Demo.manager []
    prep "colrev_built_in.Exclude_Collections" = Raise AttributeError.
Proof.
  apply (get_package_details_no_settings_class (H:=Demo.w) (H0:=DemoDetails.classes)
           Demo.manager [] prep "colrev_built_in.Exclude_Collections"
           {| obj_name := "ExcludeCollectionsPrep";
              obj_doc := VStr "Prepares records by excluding collections" |});
    reflexivity.
Defined.

(** X12. What [get_package_details] returns: the schema of the settings
    class of the package, with its keys in their order, [properties]
    among them, and no path left under the keys of the nested
    dictionaries; for a search source, [properties] has the two entries
    [filename] and [load_conversion_package_endpoint] that the function
    adds. *)
Theorem get_package_details_result `{World} `{SettingsClasses}
    (self : PackageManager) (path : list string) (t : PackageEndpointType)
    (package_identifier : string) (package_details : list (string * sval)) :
  Details.get_package_details self path t package_identifier = Ok package_details ->
  exists package_class sc,
    PM.load_package_endpoint self path t (PyStr.lower package_identifier)
    = Ok package_class
    /\ settings_class package_class = Some sc
    /\ dict_keys package_details = dict_keys (json_schema sc)
    /\ "properties" ∈ dict_keys package_details
    /\ Details.path_free (SDict package_details) = true
    /\ (t = search_source ->
        exists properties,
          dict_get "properties" package_details = Some (SDict properties)
          /\ dict_get "filename" properties = Some (SDict [("type", SStr "path")])
          /\ dict_get "load_conversion_package_endpoint" properties
             = Some (SDict [("type", SStr "script");
                            ("package_endpoint_type", SStr "load_conversion")])).
Proof.
  unfold Details.get_package_details.
  destruct (PM.load_package_endpoint self path t (PyStr.lower package_identifier))
    as [package_class|] eqn:Hload; simpl; [|discriminate].
  destruct (settings_class package_class) as [sc|] eqn:Hsc; simpl; [|discriminate].
  destruct (Details.parameter_loop sc (List.filter Details.public (annotations sc))
              (json_schema sc)) as [pd1|] eqn:H1; simpl; [|discriminate].
  destruct (Details.fix_path_type "paper_path" pd1) as [pd2|] eqn:H2; simpl;
    [|discriminate].
  destruct (Details.fix_path_type "word_template" pd2) as [pd3|] eqn:H3; simpl;
    [|discriminate].
  destruct (Details.fix_path_type "paper_output" pd3) as [pd4|] eqn:H4; simpl;
    [|discriminate].
  pose proof (parameter_loop_keys _ _ _ _ H1) as Hk1.
  destruct (fix_path_type_keys _ _ _ H2) as [Hk2 Hprop].
  destruct (fix_path_type_keys _ _ _ H3) as [Hk3 _].
  destruct (fix_path_type_keys _ _ _ H4) as [Hk4 _].
  assert (Hk : dict_keys pd4 = dict_keys (json_schema sc)) by congruence.
  assert (Hp4 : "properties" ∈ dict_keys pd4) by (rewrite Hk, <- Hk1; exact Hprop).
  intros Hres. exists package_class, sc. split; [reflexivity|]. split; [exact Hsc|].
  destruct (decide (search_source = t)) as [<-|Hne].
  - destruct (Details.add_property pd4 "filename" (SDict [("type", SStr "path")]))
      as [pd5|] eqn:H5; simpl in Hres; [|discriminate].
    destruct (Details.add_property pd5 "load_conversion_package_endpoint" _)
      as [pd6|] eqn:H6; simpl in Hres; [|discriminate].
    injection Hres as <-.
    destruct (add_property_keys _ _ _ _ H5) as (Hk5 & props4 & _ & Hp5).
    destruct (add_property_keys _ _ _ _ H6) as (Hk6 & props5 & Hp5' & Hp6).
    rewrite Hp5 in Hp5'. injection Hp5' as <-.
    destruct (replace_path_by_str_keys pd6) as [Hkr Hfree].
    split; [congruence|]. split; [rewrite Hkr, Hk6, Hk5; exact Hp4|].
    split; [exact Hfree|]. intros _.
    eexists. unfold Details.replace_path_by_str.
    rewrite dict_get_replaced, Hp6. split; [reflexivity|].
    rewrite !dict_get_replaced.
    rewrite dict_get_set_ne by discriminate. rewrite !dict_get_set_eq. auto.
  - injection Hres as <-.
    destruct (replace_path_by_str_keys pd4) as [Hkr Hfree].
    split; [congruence|]. split; [rewrite Hkr; exact Hp4|].
    split; [exact Hfree|]. intros Heq. congruence.
Qed.

Lemma get_package_details_result_witness :
  exists package_details,
    Details.get_package_details (H:=Demo.w) (H0:=DemoDetails.classes) Demo.manager []
      prescreen "colrev_built_in.scope_prescreen" = Ok package_details
    /\ Details.path_free (SDict package_details) = true.
Proof.
  eexists. split; [reflexivity|].
  destruct (get_package_details_result (H:=Demo.w) (H0:=DemoDetails.classes)
              Demo.manager [] prescreen "colrev_built_in.scope_prescreen" _ eq_refl)
    as (_ & _ & _ & _ & _ & _ & Hfree & _).
  exact Hfree.
Defined.

(** ** The prescreen data and the split command *)

Section PrescreenSplit.

Lemma fold_max_le rest : forall n m,
  (m = n \/ m ∈ rest) -> m <= fold_left Nat.max rest n.
Proof.
  induction rest as [|k rest IH]; intros n m Hm; simpl.
  - destruct Hm as [->|Hin]; [lia | inversion Hin].
  - destruct Hm as [->|Hin].
    + transitivity (Nat.max n k); [lia | apply IH; auto].
    + apply elem_of_cons in Hin as [->|Hin].
      * transitivity (Nat.max n k); [lia | apply IH; auto].
      * apply IH. auto.
Qed.

Lemma count_status_le status rsl : forall n,
  PrescreenData.count_status status rsl = Ok n -> n <= length rsl.
Proof.
  induction rsl as [|x rsl IH]; intros n; simpl.
  - intros Hn. injection Hn as <-. lia.
  - destruct (Py.getitem x "colrev_status") as [v|]; simpl; [|discriminate].
    destruct (PrescreenData.count_status status rsl) as [n'|]; simpl; [|discriminate].
    intros Hn. injection Hn as <-. specialize (IH _ eq_refl).
    destruct (PrescreenData.str_eq status v); lia.
Qed.

Lemma id_lengths_spec rsl : forall ns,
  PrescreenData.id_lengths rsl = Ok ns ->
  Forall2 (fun x n => exists id, Py.getitem x "ID" = Ok id
                                 /\ PrescreenData.len id = Ok n) rsl ns.
Proof.
  induction rsl as [|x rsl IH]; intros ns; simpl.
  - intros Hn. injection Hn as <-. constructor.
  - destruct (Py.getitem x "ID") as [id|] eqn:Hid; simpl; [|discriminate].
    destruct (PrescreenData.len id) as [n|] eqn:Hn; simpl; [|discriminate].
    destruct (PrescreenData.id_lengths rsl) as [ns'|]; simpl; [|discriminate].
    intros Hns. injection Hns as <-. constructor; [eauto | apply IH; reflexivity].
Qed.

Lemma take_ids_spec turns : forall items added,
  PrescreenData.take_ids turns items = Ok added ->
  length added = turns
  /\ Forall2 (fun x id => Py.getitem x "ID" = Ok id) (firstn turns items) added.
Proof.
  induction turns as [|turns IH]; intros items added; simpl.
  - intros Ha. injection Ha as <-. split; [reflexivity | constructor].
  - destruct items as [|x rest]; [discriminate|].
    destruct (Py.getitem x "ID") as [id|] eqn:Hid; simpl; [|discriminate].
    destruct (PrescreenData.take_ids turns rest) as [added'|] eqn:Hrest; simpl;
      [|discriminate].
    intros Ha. injection Ha as <-. destruct (IH _ _ Hrest) as [Hlen Hall].
    split; [simpl; lia | constructor; assumption].
Qed.

Lemma strings_spec l : forall ss,
  PrescreenData.strings l = Ok ss -> l = map VStr ss.
Proof.
  induction l as [|v l IH]; intros ss; simpl.
  - intros Hs. injection Hs as <-. reflexivity.
  - destruct v; try discriminate.
    destruct (PrescreenData.strings l) as [r|]; simpl; [|discriminate].
    intros Hs. injection Hs as <-. simpl. f_equal. apply IH. reflexivity.
Qed.

Lemma get_data_items md_processed rsl next_records d :
  PrescreenData.get_data md_processed rsl next_records = Ok d ->
  PrescreenData.items d = next_records.
Proof.
  unfold PrescreenData.get_data.
  destruct (PrescreenData.count_status md_processed rsl); simpl; [|discriminate].
  destruct (PrescreenData.id_lengths rsl) as [ns|]; simpl; [|discriminate].
  destruct (PrescreenData.max_of ns); simpl; [|discriminate].
  intros Hd. injection Hd as <-. reflexivity.
Qed.

Lemma split_nonempty sep s : PyStr.split sep s <> [].
Proof.
  destruct s as [|c r]; simpl; [discriminate|].
  destruct (Ascii.eqb c sep); [discriminate|].
  destruct (PyStr.split sep r); discriminate.
Qed.

Lemma split_app sep a b :
  PyStr.split sep (a +:+ String sep b) = (PyStr.split sep a ++ PyStr.split sep b)%list.
Proof.
  induction a as [|c a IH]; simpl.
  - rewrite Ascii.eqb_refl. reflexivity.
  - destruct (Ascii.eqb c sep); [simpl; f_equal; exact IH|].
    change ((a +:+ String sep b)) with (a +:+ String sep b) in *.
    rewrite IH. pose proof (split_nonempty sep a) as Hne.
    destruct (PyStr.split sep a) as [|h t]; [contradiction | reflexivity].
Qed.

Lemma split_join ids :
  ids <> [] ->
  PyStr.split ","%char (PrescreenData.join "," ids)
  = concat (map (PyStr.split ","%char) ids).
Proof.
  induction ids as [|a rest IH]; intros Hne; [contradiction|].
  destruct rest as [|b rest].
  - simpl. rewrite app_nil_r. reflexivity.
  - change (PrescreenData.join "," (a :: b :: rest))
      with (a +:+ String ","%char (PrescreenData.join "," (b :: rest))).
    rewrite split_app, IH by discriminate. reflexivity.
Qed.

End PrescreenSplit.

(** X13. [get_data] returns only for a list of record states that is not
    empty ([max] of nothing raises [ValueError]), also when no record is
    to be prescreened. The padding is the longest identifier plus two,
    capped at forty: it lies between 2 and 40, and every identifier plus
    two fits into it unless the cap is reached. The number of tasks is at
    most the number of records. *)
Theorem get_data_spec (md_processed : string) (record_state_list next_records : list pyval)
    (prescreen_data : PrescreenData.prescreen_data) :
  PrescreenData.get_data md_processed record_state_list next_records
  = Ok prescreen_data ->
  record_state_list <> []
  /\ 2 <= PrescreenData.PAD prescreen_data <= 40
  /\ PrescreenData.nr_tasks prescreen_data <= length record_state_list
  /\ PrescreenData.items prescreen_data = next_records
  /\ Forall (fun x => exists id n,
                 Py.getitem x "ID" = Ok id /\ PrescreenData.len id = Ok n
                 /\ Nat.min (n + 2) 40 <= PrescreenData.PAD prescreen_data)
       record_state_list.
Proof.
  unfold PrescreenData.get_data.
  destruct (PrescreenData.count_status md_processed record_state_list) as [nr|] eqn:Hnr;
    simpl; [|discriminate].
  destruct (PrescreenData.id_lengths record_state_list) as [ns|] eqn:Hns; simpl;
    [|discriminate].
  destruct ns as [|n rest]; simpl; [discriminate|].
  intros Hd. injection Hd as <-. simpl.
  pose proof (id_lengths_spec _ _ Hns) as Hall.
  split; [intros ->; inversion Hall|].
  split; [lia|]. split; [apply (count_status_le _ _ _ Hnr)|]. split; [reflexivity|].
  apply Forall_forall. intros x Hx. apply list_elem_of_lookup in Hx as [i Hi].
  destruct (Forall2_lookup_l _ _ _ _ _ Hall Hi) as (m & Hm & id & Hid & Hlen).
  exists id, m. split; [exact Hid|]. split; [exact Hlen|].
  assert (m <= fold_left Nat.max rest n).
  { apply fold_max_le. apply list_elem_of_lookup_2 in Hm.
    apply elem_of_cons in Hm as [->|Hm]; auto. }
  lia.
Qed.

Lemma get_data_spec_witness :
  exists prescreen_data,
    PrescreenData.get_data "md_processed"
      [VDict [("ID", VStr "Smith2020"); ("colrev_status", VStr "md_processed")];
       VDict [("ID", VStr "Jones21"); ("colrev_status", VStr "md_prepared")]] []
    = Ok prescreen_data
    /\ 2 <= PrescreenData.PAD prescreen_data <= 40.
Proof.
  eexists. split; [reflexivity|].
  destruct (get_data_spec "md_processed"
              [VDict [("ID", VStr "Smith2020"); ("colrev_status", VStr "md_processed")];
               VDict [("ID", VStr "Jones21"); ("colrev_status", VStr "md_prepared")]]
              [] _ eq_refl) as (_ & Hpad & _).
  exact Hpad.
Defined.

Lemma create_prescreen_split_added md_processed record_state_list next_records
    create_split prescreen_splits :
  PrescreenData.create_prescreen_split md_processed record_state_list next_records
    create_split = Ok prescreen_splits ->
  create_split <> 0%Z
  /\ exists prescreen_data added,
       PrescreenData.get_data md_processed record_state_list next_records
       = Ok prescreen_data
       /\ PrescreenData.take_ids
            (Z.to_nat (Z.of_nat (PrescreenData.nr_tasks prescreen_data) / create_split))
            next_records = Ok (map VStr added)
       /\ prescreen_splits
          = ["colrev prescreen --split " +:+ PrescreenData.join "," added].
Proof.
  unfold PrescreenData.create_prescreen_split.
  destruct (PrescreenData.get_data md_processed record_state_list next_records)
    as [prescreen_data|] eqn:Hdata; simpl; [|discriminate].
  destruct (Z.eqb_spec create_split 0) as [->|Hne]; simpl; [discriminate|].
  rewrite (get_data_items _ _ _ _ Hdata).
  destruct (PrescreenData.take_ids _ next_records) as [added|] eqn:Htake; simpl;
    [|discriminate].
  destruct (PrescreenData.strings added) as [ss|] eqn:Hss; simpl; [|discriminate].
  intros Hres. injection Hres as <-. split; [exact Hne|].
  exists prescreen_data, ss. apply strings_spec in Hss. subst added. auto.
Qed.

(** X14. [create_prescreen_split] returns one command, whatever the
    number [create_split] of researchers: the command of the first share,
    with the identifiers of the first [floor(nr_tasks / create_split)]
    records that [read_next_record] yields, joined by commas. It returns
    for no [create_split] of zero. *)
Theorem create_prescreen_split_one_command (md_processed : string)
    (record_state_list next_records : list pyval) (create_split : Z)
    (prescreen_splits : list string) :
  PrescreenData.create_prescreen_split md_processed record_state_list next_records
    create_split = Ok prescreen_splits ->
  create_split <> 0%Z
  /\ exists prescreen_data added,
       PrescreenData.get_data md_processed record_state_list next_records
       = Ok prescreen_data
       /\ prescreen_splits
          = ["colrev prescreen --split " +:+ PrescreenData.join "," added]
       /\ length added
          = Z.to_nat (Z.of_nat (PrescreenData.nr_tasks prescreen_data) / create_split)
       /\ Forall2 (fun x id => Py.getitem x "ID" = Ok (VStr id))
            (firstn (length added) next_records) added.
Proof.
  intros Hsplit.
  destruct (create_prescreen_split_added _ _ _ _ _ Hsplit)
    as (Hne & prescreen_data & added & Hdata & Htake & Hcmd).
  split; [exact Hne|]. exists prescreen_data, added.
  destruct (take_ids_spec _ _ _ Htake) as [Hlen Hall].
  rewrite length_map in Hlen.
  split; [exact Hdata|]. split; [exact Hcmd|]. split; [exact Hlen|].
  rewrite Hlen. apply Forall2_fmap_r in Hall. exact Hall.
Qed.

Lemma create_prescreen_split_one_command_witness :
  exists prescreen_splits,
    PrescreenData.create_prescreen_split "md_processed"
      [VDict [("ID", VStr "Smith2020"); ("colrev_status", VStr "md_processed")];
       VDict [("ID", VStr "Jones21"); ("colrev_status", VStr "md_processed")];
       VDict [("ID", VStr "Lee2019"); ("colrev_status", VStr "md_processed")]]
      [VDict [("ID", VStr "Smith2020")]; VDict [("ID", VStr "Jones21")];
       VDict [("ID", VStr "Lee2019")]] 3
    = Ok prescreen_splits
    /\ length prescreen_splits = 1.
Proof.
  eexists. split; [reflexivity|].
  destruct (create_prescreen_split_one_command "md_processed"
              [VDict [("ID", VStr "Smith2020"); ("colrev_status", VStr "md_processed")];
               VDict [("ID", VStr "Jones21"); ("colrev_status", VStr "md_processed")];
               VDict [("ID", VStr "Lee2019"); ("colrev_status", VStr "md_processed")]]
              [VDict [("ID", VStr "Smith2020")]; VDict [("ID", VStr "Jones21")];
               VDict [("ID", VStr "Lee2019")]] 3 _ eq_refl)
    as (_ & d & added & _ & Hcmd & _).
  reflexivity.
Defined.

Lemma join_not_NA ids :
  Forall (fun id => id <> "NA") ids -> PrescreenData.join "," ids <> "NA".
Proof.
  intros Hall Heq. destruct ids as [|a [|b rest]].
  - discriminate.
  - simpl in Heq. inversion Hall; contradiction.
  - assert (Hs : PyStr.split ","%char (PrescreenData.join "," (a :: b :: rest))
                 = ["NA"]) by (rewrite Heq; reflexivity).
    rewrite split_join in Hs by discriminate. simpl in Hs.
    pose proof (split_nonempty ","%char a) as Ha.
    pose proof (split_nonempty ","%char b) as Hb.
    destruct (PyStr.split ","%char a) as [|a1 ta]; [contradiction|].
    destruct (PyStr.split ","%char b) as [|b1 tb]; [contradiction|].
    simpl in Hs. injection Hs as _ Hs. destruct ta; discriminate.
Qed.

(** X15. The command that [create_prescreen_split] returns cannot be run
    as it is: with at least one record per researcher, and identifiers
    without empty parts between commas and other than [NA], the list of
    identifiers after [--split], given to [main] as [split_str], has no
    empty part, and [main] raises [ValueError] at [split.remove] before
    it loads a record. *)
Theorem split_command_not_accepted `{Prescreen.Env} (self : Prescreen.operation_state)
    (md_processed : string) (record_state_list next_records : list pyval)
    (create_split : Z) (prescreen_splits : list string)
    (prescreen_data : PrescreenData.prescreen_data)
    (trace : list (Prescreen.event Prescreen.endpoint)) :
  PrescreenData.create_prescreen_split md_processed record_state_list next_records
    create_split = Ok prescreen_splits ->
  PrescreenData.get_data md_processed record_state_list next_records
  = Ok prescreen_data ->
  (0 < create_split <= Z.of_nat (PrescreenData.nr_tasks prescreen_data))%Z ->
  Forall (fun x => forall id,
              Py.getitem x "ID" = Ok (VStr id) ->
              (EmptyString ∉ PyStr.split ","%char id) /\ id <> "NA") next_records ->
  exists split_str,
    prescreen_splits = ["colrev prescreen --split " +:+ split_str]
    /\ Prescreen.main self split_str trace = (Raise ValueError, trace).
Proof.
  intros Hsplit Hdata Hshare Hids.
  destruct (create_prescreen_split_added _ _ _ _ _ Hsplit)
    as (_ & d & added & Hd & Htake & ->).
  rewrite Hdata in Hd. injection Hd as <-.
  destruct (take_ids_spec _ _ _ Htake) as [Hlen Hall].
  rewrite length_map in Hlen. apply Forall2_fmap_r in Hall.
  exists (PrescreenData.join "," added). split; [reflexivity|].
  assert (Hgood : Forall (fun id => (EmptyString ∉ PyStr.split ","%char id)
                                    /\ id <> "NA") added).
  { apply Forall_forall. intros id Hin. apply list_elem_of_lookup in Hin as [i Hi].
    destruct (Forall2_lookup_r _ _ _ _ _ Hall Hi) as (x & Hx & Hid).
    apply list_elem_of_lookup_2, subseteq_take in Hx.
    apply (proj1 (Forall_forall _ _) Hids x Hx id Hid). }
  assert (Hne : added <> []).
  { intros ->. simpl in Hlen.
    assert (1 <= Z.of_nat (PrescreenData.nr_tasks prescreen_data) / create_split)%Z.
    { apply Z.div_le_lower_bound; lia. }
    lia. }
  assert (Hna : (PrescreenData.join "," added =? "NA")%string = false).
  { apply String.eqb_neq, join_not_NA.
    eapply Forall_impl; [exact Hgood|]. simpl. tauto. }
  unfold Prescreen.main, bind, lift. rewrite Hna. simpl.
  rewrite list_remove_absent; [reflexivity|].
  rewrite split_join by exact Hne.
  clear -Hgood. induction Hgood as [|id ids [Hid _] _ IH]; simpl.
  - intros Hin. inversion Hin.
  - intros Hin. apply elem_of_app in Hin as [Hin|Hin]; [exact (Hid Hin) | exact (IH Hin)].
Qed.

Lemma split_command_not_accepted_witness :
  exists split_str,
    Prescreen.main (H:=DemoPrescreen.env) DemoPrescreen.self split_str []
    = (Raise ValueError, []).
Proof.
  destruct (split_command_not_accepted (H:=DemoPrescreen.env) DemoPrescreen.self
              "md_processed"
              [VDict [("ID", VStr "Smith2020"); ("colrev_status", VStr "md_processed")];
               VDict [("ID", VStr "Jones21"); ("colrev_status", VStr "md_processed")]]
              [VDict [("ID", VStr "Smith2020")]; VDict [("ID", VStr "Jones21")]] 2
              _ _ [] eq_refl eq_refl) as (split_str & _ & Hmain).
  - simpl. lia.
  - constructor; [|constructor; [|constructor]];
      intros id Hid; injection Hid as <-;
      (split; [simpl; intros Hin; apply list_elem_of_singleton in Hin; discriminate
              | discriminate]).
  - exists split_str. exact Hmain.
Defined.

(** ** The ENL loader *)

Section ENLFacts.

Lemma rstrip_cons_not_space c r :
  ENL.is_space c = false -> exists r', ENL.rstrip (String c r) = String c r'.
Proof.
  intros Hc. simpl. destruct (ENL.rstrip r) as [|c' r'].
  - rewrite Hc. eauto.
  - eauto.
Qed.

Lemma rstrip_two a b :
  String.length (ENL.rstrip (String a (String b EmptyString))) = 2 ->
  ENL.is_space b = false.
Proof.
  simpl. destruct (ENL.is_space b); [|reflexivity].
  destruct (ENL.is_space a); simpl; discriminate.
Qed.

Lemma strip_after_space s :
  ENL.strip s = s -> ENL.strip (String " " s) = s.
Proof.
  unfold ENL.strip. intros Hs. simpl.
  destruct (ENL.rstrip s) as [|c r] eqn:Hr.
  - simpl in *. exact Hs.
  - simpl. change (ENL.is_space " ") with true. cbv iota. exact Hs.
Qed.

Lemma get_tag_rendered c s :
  ENL.is_space c = false ->
  ENL._get_tag ("%" +:+ String c EmptyString +:+ " " +:+ s) = String c EmptyString.
Proof.
  intros Hc. unfold ENL._get_tag. simpl. rewrite Hc. reflexivity.
Qed.

Lemma get_content_rendered c s :
  ENL.strip s = s ->
  ENL._get_content ("%" +:+ String c EmptyString +:+ " " +:+ s) = s.
Proof.
  intros Hs. unfold ENL._get_content.
  change (ENL.slice_from 2 ("%" +:+ String c EmptyString +:+ " " +:+ s))
    with (String " " s).
  apply strip_after_space, Hs.
Qed.

Lemma strip_tag_not_blank c :
  ENL.is_space c = false ->
  String.eqb (ENL.strip (String c EmptyString)) EmptyString = false.
Proof. intros Hc. unfold ENL.strip. simpl. rewrite Hc. simpl. rewrite Hc. reflexivity. Qed.

(** The generator never raises. *)
Lemma parse_lines_total lines : forall current,
  exists records current',
    ENL._parse_lines lines current = (Ok records, current')
    /\ Forall (fun r => r <> []) records.
Proof.
  induction lines as [|line lines IH]; intros current; simpl.
  - exists [], current. split; [reflexivity | constructor].
  - unfold ENL._parse_tag.
    destruct (String.eqb (ENL.strip (ENL._get_tag line)) EmptyString).
    + destruct (IH []) as (records & current' & -> & Hall).
      eexists. eexists. split; [reflexivity|].
      destruct current; [exact Hall | constructor; [discriminate | exact Hall]].
    + apply IH.
Qed.

(** A line with a tag adds to [self.current] and yields nothing. *)
Lemma parse_lines_tag_line line lines current :
  String.eqb (ENL.strip (ENL._get_tag line)) EmptyString = false ->
  ENL._parse_lines (line :: lines) current
  = ENL._parse_lines lines (ENL._add_tag (ENL._get_tag line) line current).
Proof. intros Hb. simpl. unfold ENL._parse_tag. rewrite Hb. reflexivity. Qed.

(** The lines of one field, read into a dictionary without its tag. *)
Lemma parse_lines_field c v lines current :
  ENL.is_space c = false ->
  ENL.well_formed_value v = true ->
  dict_get (String c EmptyString) current = None ->
  ENL._parse_lines (ENL.render_field (String c EmptyString, v) ++ lines)%list current
  = ENL._parse_lines lines (current ++ [(String c EmptyString, v)])%list.
Proof.
  intros Hc Hv Hfresh. unfold ENL.render_field. cbn [fst snd].
  set (tag := String c EmptyString) in *.
  assert (Hline : forall s rest cur,
            ENL.strip s = s ->
            ENL._parse_lines (("%" +:+ tag +:+ " " +:+ s) :: rest) cur
            = ENL._parse_lines rest
                (match dict_get tag cur with
                 | None => dict_set tag (ENL.Str s) cur
                 | Some (ENL.Str old) => dict_set tag (ENL.Lst [old; s]) cur
                 | Some (ENL.Lst l) => dict_set tag (ENL.Lst (l ++ [s])) cur
                 end)).
  { intros s rest cur Hs. rewrite parse_lines_tag_line.
    - subst tag. rewrite (get_tag_rendered c s Hc). unfold ENL._add_tag.
      rewrite (get_content_rendered c s Hs). reflexivity.
    - subst tag. rewrite (get_tag_rendered c s Hc). apply strip_tag_not_blank, Hc. }
  assert (Hset : forall x, dict_set tag x current = (current ++ [(tag, x)])%list).
  { clear -Hfresh. induction current as [|[k y] cur IH]; intros x; simpl in *;
      [reflexivity|].
    destruct (decide (k = tag)); [discriminate|]. rewrite IH by exact Hfresh.
    reflexivity. }
  assert (Hover : forall x y, dict_set tag y (current ++ [(tag, x)])%list
                              = (current ++ [(tag, y)])%list).
  { intros x y. rewrite <- (Hset x), dict_set_set. apply Hset. }
  assert (Hlook : forall x, dict_get tag (current ++ [(tag, x)])%list = Some x).
  { intros x. rewrite <- (Hset x). apply dict_get_set_eq. }
  destruct v as [s|l]; simpl in Hv.
  - apply String.eqb_eq in Hv. cbn [ENL.values_of List.map app].
    rewrite (Hline _ _ _ Hv), Hfresh. f_equal. apply Hset.
  - apply andb_true_iff in Hv as [Hlen Hall].
    destruct l as [|s1 [|s2 l]]; try discriminate. clear Hlen.
    simpl in Hall. apply andb_true_iff in Hall as [H1 Hall].
    apply andb_true_iff in Hall as [H2 Hall].
    apply String.eqb_eq in H1. apply String.eqb_eq in H2.
    cbn [ENL.values_of List.map app]. rewrite (Hline _ _ _ H1), Hfresh, Hset.
    rewrite (Hline _ _ _ H2), Hlook, Hover.
    assert (Hrest : forall l done,
              forallb (fun s => String.eqb (ENL.strip s) s) l = true ->
              ENL._parse_lines
                (List.map (fun s => "%" +:+ tag +:+ " " +:+ s) l ++ lines)%list
                (current ++ [(tag, ENL.Lst done)])%list
              = ENL._parse_lines lines (current ++ [(tag, ENL.Lst (done ++ l))])%list).
    { clear -Hline Hlook Hover. induction l as [|s l IH]; intros done Hl;
        cbn [List.map app].
      - rewrite app_nil_r. reflexivity.
      - simpl in Hl. apply andb_true_iff in Hl as [Hs Hl]. apply String.eqb_eq in Hs.
        rewrite (Hline _ _ _ Hs), Hlook, Hover, (IH _ Hl), <- app_assoc. reflexivity. }
    apply (Hrest l [s1; s2] Hall).
Qed.

Lemma parse_lines_fields fields : forall lines current,
  NoDup (dict_keys (current ++ fields)%list) ->
  Forall (fun field => ENL.well_formed_tag (fst field) = true
                       /\ ENL.well_formed_value (snd field) = true) fields ->
  ENL._parse_lines (concat (map ENL.render_field fields) ++ lines)%list current
  = ENL._parse_lines lines (current ++ fields)%list.
Proof.
  induction fields as [|[tag v] fields IH]; intros lines current Hnd Hall; simpl.
  - rewrite app_nil_r. reflexivity.
  - inversion Hall as [|? ? [Htag Hv] Hrest]; subst. simpl in Htag, Hv.
    destruct tag as [|c [|? ?]]; try discriminate. simpl in Htag.
    apply negb_true_iff in Htag.
    rewrite <- app_assoc, parse_lines_field; [|exact Htag|exact Hv|].
    + rewrite IH; [rewrite <- app_assoc; reflexivity| |exact Hrest].
      rewrite <- app_assoc. exact Hnd.
    + destruct (dict_get (String c EmptyString) current) as [x|] eqn:Hx;
        [|reflexivity].
      apply dict_get_Some_key in Hx. unfold dict_keys in Hnd.
      rewrite map_app in Hnd. apply NoDup_app in Hnd as (_ & Hdisj & _).
      exfalso. apply (Hdisj _ Hx). simpl. apply list_elem_of_here.
Qed.

End ENLFacts.

(** X16. A line whose tag has two characters (no blank after the first
    one) keeps the second character of the tag as the first character of
    its content: the tag is cut from [line[1:3]] and the content from
    [line[2:]]. *)
Theorem get_content_overlaps_tag (line : string) :
  String.length (ENL._get_tag line) = 2 ->
  exists a b rest,
    ENL._get_tag line = String a (String b EmptyString)
    /\ ENL._get_content line = String b rest.
Proof.
  unfold ENL._get_tag, ENL._get_content.
  destruct line as [|c0 [|a [|b r]]].
  - discriminate.
  - discriminate.
  - simpl. destruct (ENL.is_space a); discriminate.
  - change (ENL.slice_to 2 (ENL.slice_from 1 (String c0 (String a (String b r)))))
      with (String a (String b EmptyString)).
    change (ENL.slice_from 2 (String c0 (String a (String b r)))) with (String b r).
    intros Hlen. pose proof (rstrip_two a b Hlen) as Hb.
    exists a, b.
    destruct (rstrip_cons_not_space b r Hb) as [r' Hr].
    exists r'. split.
    + simpl. rewrite Hb. reflexivity.
    + unfold ENL.strip. rewrite Hr. simpl. rewrite Hb. reflexivity.
Qed.

Lemma get_content_overlaps_tag_witness :
  exists a b rest,
    ENL._get_tag "%AUSmith, J." = String a (String b EmptyString)
    /\ ENL._get_content "%AUSmith, J." = String b rest.
Proof. apply (get_content_overlaps_tag "%AUSmith, J."). reflexivity. Defined.

(** X17. [_add_tag] loses and reorders nothing: the strings under the tag
    are those that were there, followed by the content of the line, and
    the strings under every other tag are as they were. *)
Theorem add_tag_appends (tag line : string) (current : list (string * ENL.value))
    (tag' : string) :
  ENL.values_of (dict_get tag' (ENL._add_tag tag line current))
  = (ENL.values_of (dict_get tag' current)
       ++ (if decide (tag' = tag) then [ENL._get_content line] else []))%list.
Proof.
  unfold ENL._add_tag.
  destruct (decide (tag' = tag)) as [->|Hne].
  - destruct (dict_get tag current) as [[old|l]|] eqn:Hcur;
      rewrite dict_get_set_eq; reflexivity.
  - rewrite app_nil_r.
    destruct (dict_get tag current) as [[old|l]|];
      rewrite dict_get_set_ne by congruence; reflexivity.
Qed.

(** X18. Reading back what was written: for entries with tags of one
    character, stripped strings and no tag twice, the lines
    [%<tag> <string>] of the entries, each entry closed by an empty line,
    are parsed into those entries, in order, and [self.current] is empty
    at the end. *)
Theorem parse_rendered_records (records : list (list (string * ENL.value))) :
  Forall ENL.well_formed_record records ->
  ENL._parse_lines (concat (map ENL.render_record records)) [] = (Ok records, []).
Proof.
  induction 1 as [|record records (Hne & Hnd & Hall) _ IH]; simpl; [reflexivity|].
  unfold ENL.render_record at 1. rewrite <- !app_assoc.
  rewrite parse_lines_fields by (simpl; assumption).
  simpl. rewrite IH. destruct record; [contradiction | reflexivity].
Qed.

Lemma parse_rendered_records_witness :
  ENL._parse_lines
    ["%0 Journal Article"; "%A Smith, J."; "%A Lee, K."; "%T A title"; "";
     "%0 Book"; ""] []
  = (Ok [ [("0", ENL.Str "Journal Article"); ("A", ENL.Lst ["Smith, J."; "Lee, K."]);
           ("T", ENL.Str "A title")];
          [("0", ENL.Str "Book")] ], []).
Proof.
  apply (parse_rendered_records
           [ [("0", ENL.Str "Journal Article"); ("A", ENL.Lst ["Smith, J."; "Lee, K."]);
              ("T", ENL.Str "A title")];
             [("0", ENL.Str "Book")] ]).
  repeat constructor; try discriminate; simpl;
    try (intros Hin; repeat (apply elem_of_cons in Hin as [Hin|Hin]; [discriminate|]);
         inversion Hin).
Defined.

(** X19. The generator never raises and yields an entry only at a line
    without a tag, so the fields after the last such line are in no
    entry: for lines that all have a tag, appended to any lines, the
    returned list is that of the lines before them, no entry of it is
    empty, and the fields of the appended lines are left in
    [self.current], where the next call finds them. *)
Theorem parse_lines_unterminated (lines tail : list string)
    (current : list (string * ENL.value)) :
  Forall (fun line => ENL.strip (ENL._get_tag line) <> EmptyString) tail ->
  exists records current',
    ENL._parse_lines lines current = (Ok records, current')
    /\ Forall (fun r => r <> []) records
    /\ ENL._parse_lines (lines ++ tail)%list current
       = (Ok records,
          fold_left (fun cur line => ENL._add_tag (ENL._get_tag line) line cur) tail
            current').
Proof.
  intros Htail. revert current.
  induction lines as [|line lines IH]; intros current.
  - exists [], current. split; [reflexivity|]. split; [constructor|]. simpl.
    revert current. induction Htail as [|line tail Hline _ IHt]; intros current;
      [reflexivity|].
    rewrite parse_lines_tag_line by (apply String.eqb_neq, Hline). apply IHt.
  - simpl. unfold ENL._parse_tag.
    destruct (String.eqb (ENL.strip (ENL._get_tag line)) EmptyString).
    + destruct (IH []) as (records & current' & -> & Hall & ->).
      eexists. eexists. split; [reflexivity|]. split; [|reflexivity].
      destruct current; [exact Hall | constructor; [discriminate | exact Hall]].
    + apply IH.
Qed.

Lemma parse_lines_unterminated_witness :
  exists records current',
    ENL._parse_lines ["%0 Book"; "%T First"; ""] [] = (Ok records, current')
    /\ Forall (fun r => r <> []) records
    /\ ENL._parse_lines (["%0 Book"; "%T First"; ""] ++ ["%0 Book"; "%T Second"])%list []
       = (Ok records,
          fold_left (fun cur line => ENL._add_tag (ENL._get_tag line) line cur)
            ["%0 Book"; "%T Second"] current').
Proof.
  apply (parse_lines_unterminated ["%0 Book"; "%T First"; ""]
           ["%0 Book"; "%T Second"] []).
  repeat constructor; discriminate.
Defined.

(** ** The command-line prescreen: the answer [s] *)

Section CLIAnswers.

Lemma replace_char_empty old c new s :
  PrescreenCLI.replace_char old (String c new) s = EmptyString -> s = EmptyString.
Proof.
  destruct s as [|c' r]; simpl; [reflexivity|].
  destruct (Ascii.eqb c' old); discriminate.
Qed.

Lemma decision_str_yes ret : PrescreenCLI.decision_str ret = "yes" -> ret = "y".
Proof.
  unfold PrescreenCLI.decision_str. destruct ret as [|c r]; simpl; [discriminate|].
  destruct (Ascii.eqb c "y") eqn:Hy.
  - apply Ascii.eqb_eq in Hy. subst c. simpl. intros Heq.
    injection Heq as Heq. apply replace_char_empty in Heq.
    apply replace_char_empty in Heq. subst r. reflexivity.
  - simpl. destruct (Ascii.eqb c "n") eqn:Hn.
    + apply Ascii.eqb_eq in Hn. subst c. simpl. discriminate.
    + intros Heq. injection Heq as -> _. discriminate.
Qed.

Lemma ask_inputs_skip lines : forall str asked,
  str <> "yes" ->
  PrescreenCLI.same_decision (fst (fst (PrescreenCLI.ask_inputs lines str asked)))
    (fst (fst (PrescreenCLI.ask_inputs (map PrescreenCLI.skip_as_no lines) str asked)))
  /\ snd (fst (PrescreenCLI.ask_inputs (map PrescreenCLI.skip_as_no lines) str asked))
     = snd (fst (PrescreenCLI.ask_inputs lines str asked))
  /\ snd (PrescreenCLI.ask_inputs (map PrescreenCLI.skip_as_no lines) str asked)
     = map PrescreenCLI.skip_as_no (snd (PrescreenCLI.ask_inputs lines str asked)).
Proof.
  induction lines as [|ret lines IH]; intros str asked Hstr;
    cbn [PrescreenCLI.ask_inputs map].
  - cbn [fst snd PrescreenCLI.same_decision map]. auto.
  - destruct (String.eqb "s" ret) eqn:Hs.
    + apply String.eqb_eq in Hs. subst ret.
      change (PrescreenCLI.skip_as_no "s") with "n".
      change (String.eqb "q" "s") with false. change (String.eqb "s" "s") with true.
      change (String.eqb "q" "n") with false. change (String.eqb "s" "n") with false.
      change (String.eqb "n" "y" || String.eqb "n" "n") with true.
      change (PrescreenCLI.decision_str "n") with "no".
      cbv iota. cbn [fst snd PrescreenCLI.same_decision].
      change (String.eqb "yes" "no") with false.
      split; [|auto]. split; [reflexivity|].
      apply String.eqb_neq. congruence.
    + assert (Hskip : PrescreenCLI.skip_as_no ret = ret).
      { unfold PrescreenCLI.skip_as_no. rewrite Hs. reflexivity. }
      rewrite !Hskip, Hs. destruct (String.eqb "q" ret).
      * cbn [fst snd PrescreenCLI.same_decision].
        split; [split; reflexivity | split; reflexivity].
      * destruct (String.eqb ret "y" || String.eqb ret "n") eqn:Hyn.
        -- cbn [fst snd PrescreenCLI.same_decision].
           split; [split; reflexivity | split; reflexivity].
        -- apply IH. intros Hyes. apply decision_str_yes in Hyes. subst ret.
           discriminate Hyn.
Qed.

Lemma present_skip items split stat_len padding : forall i st,
  PrescreenCLI.present items split stat_len padding i (PrescreenCLI.answers_skip_as_no st)
  = (fst (PrescreenCLI.present items split stat_len padding i st),
     PrescreenCLI.answers_skip_as_no
       (snd (PrescreenCLI.present items split stat_len padding i st))).
Proof.
  induction items as [|record_dict items IH]; intros i st;
    cbn [PrescreenCLI.present]; [reflexivity|].
  unfold bind, lift.
  destruct (if (0 <? length split)%nat
            then PrescreenCLI.not_in_split record_dict split else Ok false)
    as [[|]|]; [apply IH| |reflexivity].
  unfold PrescreenCLI.ask. cbn [PrescreenCLI.inputs PrescreenCLI.answers_skip_as_no].
  destruct (ask_inputs_skip (PrescreenCLI.inputs st) "NA" 0) as (Hsame & Hasked & Hrest);
    [discriminate|].
  destruct (PrescreenCLI.ask_inputs (PrescreenCLI.inputs st) "NA" 0)
    as [[r asked] rest].
  destruct (PrescreenCLI.ask_inputs (map PrescreenCLI.skip_as_no (PrescreenCLI.inputs st))
              "NA" 0) as [[r' asked'] rest'].
  cbn [fst snd] in Hsame, Hasked, Hrest. subst asked' rest'.
  destruct r as [[s1 q1]|e], r' as [[s2 q2]|e']; cbn [PrescreenCLI.same_decision] in Hsame;
    try contradiction.
  - destruct Hsame as [<- Hyes]. cbv beta iota.
    cbn [PrescreenCLI.explanation PrescreenCLI.trace PrescreenCLI.inputs].
    destruct q1; [reflexivity|].
    rewrite <- Hyes. unfold PrescreenCLI.emit.
    cbn [PrescreenCLI.inputs PrescreenCLI.explanation PrescreenCLI.trace].
    apply (IH (S i)
             {| PrescreenCLI.inputs := rest;
                PrescreenCLI.explanation := PrescreenCLI.explanation st;
                PrescreenCLI.trace :=
                  ((PrescreenCLI.trace st
                      ++ repeat (PrescreenCLI.Ask_decision (S i) stat_len) asked)
                     ++ [PrescreenCLI.Prescreen_record record_dict
                           (String.eqb "yes" s1) padding])%list |}).
  - subst e'. reflexivity.
Qed.

End CLIAnswers.

(** X20. In the command-line prescreen the answer [s] ("skip") is no
    skip: the loop over the answers ends with [inclusion_decision_str]
    other than [yes], and [prescreen] is called with
    [prescreen_inclusion=False], as for the answer [n]. So
    [__fun_cli_prescreen] does the same, call by call, and returns the
    same, when every answer [s] is replaced by [n]. *)
Theorem skip_is_exclusion (prescreen_data : PrescreenData.prescreen_data)
    (split : list string) (stat_len padding : nat) (st : PrescreenCLI.cli_state) :
  PrescreenCLI.fun_cli_prescreen prescreen_data split stat_len padding
    (PrescreenCLI.answers_skip_as_no st)
  = (fst (PrescreenCLI.fun_cli_prescreen prescreen_data split stat_len padding st),
     PrescreenCLI.answers_skip_as_no
       (snd (PrescreenCLI.fun_cli_prescreen prescreen_data split stat_len padding st))).
Proof.
  unfold PrescreenCLI.fun_cli_prescreen, bind, ret.
  unfold PrescreenCLI.emit at 1 3 5.
  cbn [PrescreenCLI.inputs PrescreenCLI.explanation PrescreenCLI.trace
         PrescreenCLI.answers_skip_as_no].
  destruct (stat_len =? 0)%nat;
    [unfold PrescreenCLI.emit;
     cbn [PrescreenCLI.inputs PrescreenCLI.explanation PrescreenCLI.trace]|];
    match goal with
    | |- context [PrescreenCLI.present ?a ?b ?c ?d ?e
                    {| PrescreenCLI.inputs := map PrescreenCLI.skip_as_no ?l;
                       PrescreenCLI.explanation := ?x; PrescreenCLI.trace := ?t |}] =>
        change {| PrescreenCLI.inputs := map PrescreenCLI.skip_as_no l;
                  PrescreenCLI.explanation := x; PrescreenCLI.trace := t |}
          with (PrescreenCLI.answers_skip_as_no
                  {| PrescreenCLI.inputs := l; PrescreenCLI.explanation := x;
                     PrescreenCLI.trace := t |});
        rewrite (present_skip a b c d e);
        destruct (PrescreenCLI.present a b c d e
                    {| PrescreenCLI.inputs := l; PrescreenCLI.explanation := x;
                       PrescreenCLI.trace := t |}) as [[i|err] st']
    end; reflexivity.
Qed.

(** ** Records and their status *)

Section RecordStatus.
Context {RecordState : Type} `{EqDecision RecordState}.
Variables rev_prescreen_included pdf_needs_manual_retrieval pdf_imported : RecordState.
Variable is_file : string -> bool.

Lemma set_status_of_record_again record record' warnings :
  pdf_imported <> rev_prescreen_included ->
  pdf_imported <> pdf_needs_manual_retrieval ->
  set_status_of_record rev_prescreen_included pdf_needs_manual_retrieval pdf_imported
    is_file record = Ok (record', warnings) ->
  (record' = record
   \/ (record' = dict_set "colrev_status" (FState pdf_imported) record
       /\ exists paths, dict_get "file" record = Some (FStr paths)
                        /\ existsb is_file (PyStr.split ";"%char paths) = true))
  /\ set_status_of_record rev_prescreen_included pdf_needs_manual_retrieval pdf_imported
       is_file record' = Ok (record', warnings).
Proof.
  intros Hne1 Hne2. unfold set_status_of_record at 1, field_of.
  destruct (dict_get "colrev_status" record) as [status|] eqn:Hst; cbn [rbind];
    [|discriminate].
  destruct (is_state rev_prescreen_included status
            || is_state pdf_needs_manual_retrieval status) eqn:Hin.
  - destruct (dict_mem "file" record) eqn:Hmem.
    + destruct (dict_get "file" record) as [[st|paths]|] eqn:Hfile; cbn [rbind];
        try discriminate.
      destruct (existsb is_file (PyStr.split ";"%char paths)) eqn:Hex.
      * intros Hr. injection Hr as <- <-. split; [right; eauto|].
        unfold set_status_of_record, field_of. rewrite dict_get_set_eq. cbn [rbind].
        unfold is_state. rewrite !bool_decide_eq_false_2 by congruence. reflexivity.
      * destruct (dict_get "ID" record) as [id|] eqn:Hid; cbn [rbind]; [|discriminate].
        intros Hr. injection Hr as <- <-. split; [left; reflexivity|].
        unfold set_status_of_record, field_of.
        rewrite Hst. cbn [rbind]. rewrite Hin, Hmem, Hfile. cbn [rbind].
        rewrite Hex, Hid. reflexivity.
    + intros Hr. injection Hr as <- <-. split; [left; reflexivity|].
      unfold set_status_of_record, field_of. rewrite Hst. cbn [rbind].
      rewrite Hin, Hmem. reflexivity.
  - intros Hr. injection Hr as <- <-. split; [left; reflexivity|].
    unfold set_status_of_record, field_of. rewrite Hst. cbn [rbind].
    rewrite Hin. reflexivity.
Qed.

Lemma set_status_loop_again records :
  pdf_imported <> rev_prescreen_included ->
  pdf_imported <> pdf_needs_manual_retrieval ->
  forall records' (trace trace' : list (dataset_event RecordState)),
    set_status_loop rev_prescreen_included pdf_needs_manual_retrieval pdf_imported
      is_file records trace = (Ok records', trace') ->
    Forall2 (fun old new =>
               fst new = fst old
               /\ (snd new = snd old
                   \/ (snd new = dict_set "colrev_status" (FState pdf_imported) (snd old)
                       /\ exists paths,
                            dict_get "file" (snd old) = Some (FStr paths)
                            /\ existsb is_file (PyStr.split ";"%char paths) = true)))
      records records'
    /\ exists warnings,
         trace' = (trace ++ map (fun w => Print_warning (fst w) (snd w)) warnings)%list
         /\ forall trace2,
              set_status_loop rev_prescreen_included pdf_needs_manual_retrieval
                pdf_imported is_file records' trace2
              = (Ok records',
                 (trace2 ++ map (fun w => Print_warning (fst w) (snd w)) warnings)%list).
Proof.
  intros Hne1 Hne2.
  induction records as [|[key record] records IH]; intros records' trace trace';
    cbn [set_status_loop]; unfold bind, lift, ret, print_warnings.
  - intros Hr. injection Hr as <- <-. split; [constructor|].
    exists []. split; [simpl; rewrite app_nil_r; reflexivity|].
    intros trace2. simpl. rewrite app_nil_r. reflexivity.
  - destruct (set_status_of_record rev_prescreen_included pdf_needs_manual_retrieval
                pdf_imported is_file record) as [[record' w]|] eqn:Hrec;
      [|discriminate].
    cbn [fst snd].
    destruct (set_status_loop rev_prescreen_included pdf_needs_manual_retrieval
                pdf_imported is_file records _) as [[rest|] trace1] eqn:Hrest;
      [|discriminate].
    intros Hr. injection Hr as <- <-.
    destruct (set_status_of_record_again _ _ _ Hne1 Hne2 Hrec) as [Hcase Hagain].
    destruct (IH _ _ _ Hrest) as (Hall & ws & -> & Hrest').
    split; [constructor; [split; [reflexivity | exact Hcase] | exact Hall]|].
    exists (w ++ ws)%list. split; [rewrite map_app, <- app_assoc; reflexivity|].
    intros trace2. cbn [set_status_loop]. unfold bind, lift, ret, print_warnings.
    rewrite Hagain. cbn [fst snd]. rewrite Hrest', map_app, <- app_assoc. reflexivity.
Qed.

Lemma inclusion_cases (md_retrieved rev_prescreen_excluded rev_excluded rev_included
    rev_synthesized : RecordState) (status : field RecordState) :
  let i := inclusion md_retrieved rev_prescreen_excluded rev_excluded rev_included
             rev_synthesized status in
  fst i = (if is_state rev_prescreen_excluded status then "no" else "yes")
  /\ (if is_state rev_prescreen_excluded status then snd i = "NA"
      else snd i ∈ ["TODO"; "no"; "yes"]).
Proof.
  unfold inclusion.
  destruct (is_state rev_prescreen_excluded status); [split; reflexivity|].
  split; [reflexivity|]. cbn [snd].
  destruct (is_state rev_included status || is_state rev_synthesized status).
  - apply list_elem_of_further, list_elem_of_further, list_elem_of_here.
  - destruct (is_state rev_excluded status).
    + apply list_elem_of_further, list_elem_of_here.
    + apply list_elem_of_here.
Qed.

Lemma criteria_of_NoDup parts : forall (acc out : list (string * field RecordState)),
  criteria_of parts acc = Ok out -> NoDup (dict_keys acc) -> NoDup (dict_keys out).
Proof.
  induction parts as [|part parts IH]; intros acc out; simpl.
  - intros Hout. injection Hout as <-. auto.
  - destruct (PyStr.split "="%char part) as [|name [|value more]]; try discriminate.
    intros Hout Hnd. apply (IH _ _ Hout). apply dict_set_NoDup, Hnd.
Qed.

Lemma dict_update_get {V : Type} k (new : list (string * V)) : forall d,
  NoDup (dict_keys new) ->
  dict_get k (dict_update d new)
  = match dict_get k new with
    | Some v => Some v
    | None => dict_get k d
    end.
Proof.
  unfold dict_update.
  induction new as [|[k0 v0] new IH]; intros d Hnd; simpl; [reflexivity|].
  apply NoDup_cons in Hnd as [Hk0 Hnd].
  rewrite (IH _ Hnd). cbn [fst snd].
  destruct (decide (k0 = k)) as [->|Hne].
  - destruct (dict_get k new) as [v|] eqn:Hv.
    + apply dict_get_Some_key in Hv. contradiction.
    + apply dict_get_set_eq.
  - rewrite dict_get_set_ne by exact Hne. reflexivity.
Qed.

Lemma criteria_of_index_error parts : forall acc : list (string * field RecordState),
  Exists (fun part => length (PyStr.split "="%char part) = 1) parts ->
  criteria_of parts acc = Raise (OtherError "IndexError").
Proof.
  induction parts as [|part parts IH]; intros acc Hex; [inversion Hex|].
  simpl. destruct (PyStr.split "="%char part) as [|name [|value more]] eqn:Hsplit.
  - reflexivity.
  - reflexivity.
  - apply IH. inversion Hex as [? ? Hlen|? ? Hrest]; subst; [|exact Hrest].
    rewrite Hsplit in Hlen. discriminate.
Qed.

End RecordStatus.

(** X21. [PDFGet.__set_status_if_file_linked], when it returns: it has
    changed nothing but the status of records, to [pdf_imported] only
    and only for a record one of whose [file] paths is a file; it has
    printed its warnings, handed the records to [save_records_dict] and
    called [add_record_changes], in this order. Run again on the records
    it returned it returns them again and does the same to the outside:
    the same warnings, the same records saved (with [pdf_imported]
    another member than the two states it looks for, the same paths
    being files, and the two calls of the dataset answering as
    before). *)
Theorem set_status_if_file_linked_idempotent {RecordState : Type}
    `{EqDecision RecordState}
    (rev_prescreen_included pdf_needs_manual_retrieval pdf_imported : RecordState)
    (save_records_dict : list (string * list (string * field RecordState)) -> result unit)
    (add_record_changes : result unit)
    (is_file : string -> bool)
    (records records' : list (string * list (string * field RecordState)))
    (trace trace' : list (dataset_event RecordState)) :
  pdf_imported <> rev_prescreen_included ->
  pdf_imported <> pdf_needs_manual_retrieval ->
  set_status_if_file_linked rev_prescreen_included pdf_needs_manual_retrieval
    pdf_imported save_records_dict add_record_changes is_file records trace
  = (Ok records', trace') ->
  Forall2 (fun old new =>
             fst new = fst old
             /\ (snd new = snd old
                 \/ (snd new = dict_set "colrev_status" (FState pdf_imported) (snd old)
                     /\ exists paths,
                          dict_get "file" (snd old) = Some (FStr paths)
                          /\ existsb is_file (PyStr.split ";"%char paths) = true)))
    records records'
  /\ exists warnings,
       let events :=
         (map (fun w => Print_warning (fst w) (snd w)) warnings
            ++ [Save_records_dict records'; Add_record_changes])%list in
       trace' = (trace ++ events)%list
       /\ forall trace2,
            set_status_if_file_linked rev_prescreen_included pdf_needs_manual_retrieval
              pdf_imported save_records_dict add_record_changes is_file records' trace2
            = (Ok records', (trace2 ++ events)%list).
Proof.
  intros Hne1 Hne2. unfold set_status_if_file_linked at 1, bind, lift, ret, emit_event.
  destruct (set_status_loop rev_prescreen_included pdf_needs_manual_retrieval
              pdf_imported is_file records trace) as [[out|] trace1] eqn:Hloop;
    [|discriminate].
  destruct (save_records_dict out) as [[]|] eqn:Hsave; [|discriminate].
  destruct add_record_changes as [[]|]; [|discriminate].
  intros Hres. injection Hres as <- <-.
  apply set_status_loop_again in Hloop; [|exact Hne1|exact Hne2].
  destruct Hloop as (Hall & warnings & -> & Hagain).
  split; [exact Hall|]. exists warnings. cbv zeta. split.
  - rewrite <- !app_assoc. reflexivity.
  - intros trace2. unfold set_status_if_file_linked, bind, lift, ret, emit_event.
    rewrite Hagain, Hsave, <- !app_assoc. reflexivity.
Qed.

Lemma set_status_if_file_linked_idempotent_witness :
  set_status_if_file_linked S_rev_prescreen_included S_pdf_needs_manual_retrieval
    S_pdf_imported (fun _ => Ok tt) (Ok tt) (String.eqb "pdfs/Smith2020.pdf")
    [("Smith2020", [("ID", FStr "Smith2020");
                    ("colrev_status", FState S_pdf_imported);
                    ("file", FStr "pdfs/Smith2020.pdf")]);
     ("Lee2019", [("ID", FStr "Lee2019");
                  ("colrev_status", FState S_rev_prescreen_included);
                  ("file", FStr "pdfs/Lee2019.pdf")])] []
  = (Ok [("Smith2020", [("ID", FStr "Smith2020");
                        ("colrev_status", FState S_pdf_imported);
                        ("file", FStr "pdfs/Smith2020.pdf")]);
         ("Lee2019", [("ID", FStr "Lee2019");
                      ("colrev_status", FState S_rev_prescreen_included);
                      ("file", FStr "pdfs/Lee2019.pdf")])],
     [Print_warning (FStr "Lee2019") "pdfs/Lee2019.pdf";
      Save_records_dict
        [("Smith2020", [("ID", FStr "Smith2020");
                        ("colrev_status", FState S_pdf_imported);
                        ("file", FStr "pdfs/Smith2020.pdf")]);
         ("Lee2019", [("ID", FStr "Lee2019");
                      ("colrev_status", FState S_rev_prescreen_included);
                      ("file", FStr "pdfs/Lee2019.pdf")])];
      Add_record_changes]).
Proof.
  destruct (set_status_if_file_linked_idempotent S_rev_prescreen_included
              S_pdf_needs_manual_retrieval S_pdf_imported (fun _ => Ok tt) (Ok tt)
              (String.eqb "pdfs/Smith2020.pdf")
              [("Smith2020", [("ID", FStr "Smith2020");
                              ("colrev_status", FState S_rev_prescreen_included);
                              ("file", FStr "pdfs/Smith2020.pdf")]);
               ("Lee2019", [("ID", FStr "Lee2019");
                            ("colrev_status", FState S_rev_prescreen_included);
                            ("file", FStr "pdfs/Lee2019.pdf")])]
              [("Smith2020", [("ID", FStr "Smith2020");
                              ("colrev_status", FState S_pdf_imported);
                              ("file", FStr "pdfs/Smith2020.pdf")]);
               ("Lee2019", [("ID", FStr "Lee2019");
                            ("colrev_status", FState S_rev_prescreen_included);
                            ("file", FStr "pdfs/Lee2019.pdf")])]
              []
              [Print_warning (FStr "Lee2019") "pdfs/Lee2019.pdf";
               Save_records_dict
                 [("Smith2020", [("ID", FStr "Smith2020");
                                 ("colrev_status", FState S_pdf_imported);
                                 ("file", FStr "pdfs/Smith2020.pdf")]);
                  ("Lee2019", [("ID", FStr "Lee2019");
                               ("colrev_status", FState S_rev_prescreen_included);
                               ("file", FStr "pdfs/Lee2019.pdf")])];
               Add_record_changes]
              ltac:(discriminate) ltac:(discriminate) ltac:(vm_compute; reflexivity))
    as (_ & warnings & Htrace & Hagain).
  rewrite (Hagain []). f_equal. simpl in Htrace. simpl.
  symmetry. exact Htrace.
Defined.

(** X22. In the row that [export_table] builds for a record,
    [inclusion_1] is [no] for a record excluded in the prescreen and
    [yes] for every other record, and [inclusion_2] is [NA] for the
    former and one of [TODO], [no], [yes] for the latter, unless
    [excl_criteria] names a criterion [inclusion_1], resp. [inclusion_2]:
    then the value of that criterion is in the row instead
    ([row.update]). The value [TODO] that is assigned to [inclusion_1]
    for [md_retrieved] is always overwritten: it reaches no row. *)
Theorem export_row_inclusion {RecordState : Type} `{EqDecision RecordState}
    (md_retrieved rev_prescreen_excluded rev_excluded rev_included
       rev_synthesized : RecordState)
    (record row : list (string * field RecordState)) :
  export_row md_retrieved rev_prescreen_excluded rev_excluded rev_included
    rev_synthesized record = Ok row ->
  exists status excl_criteria inclusion_2,
    dict_get "status" record = Some status
    /\ excl_criteria_of record = Ok excl_criteria
    /\ dict_get "inclusion_1" row
       = Some (match dict_get "inclusion_1" excl_criteria with
               | Some v => v
               | None => FStr (if is_state rev_prescreen_excluded status
                               then "no" else "yes")
               end)
    /\ dict_get "inclusion_2" row
       = Some (match dict_get "inclusion_2" excl_criteria with
               | Some v => v
               | None => FStr inclusion_2
               end)
    /\ (if is_state rev_prescreen_excluded status then inclusion_2 = "NA"
        else inclusion_2 ∈ ["TODO"; "no"; "yes"]).
Proof.
  unfold export_row, excl_criteria_of, field_of.
  destruct (dict_get "status" record) as [status|] eqn:Hst; cbn [rbind]; [|discriminate].
  pose proof (inclusion_cases md_retrieved rev_prescreen_excluded rev_excluded
                rev_included rev_synthesized status) as Hinc.
  destruct (inclusion md_retrieved rev_prescreen_excluded rev_excluded rev_included
              rev_synthesized status) as [inclusion_1 inclusion_2].
  cbn [fst snd] in Hinc. destruct Hinc as [Hi1 Hi2].
  match goal with
  | |- (let? excl_criteria := ?c in _) = _ -> _ =>
      destruct c as [excl_criteria|] eqn:Hcrit; cbn [rbind]; [|discriminate]
  end.
  destruct (dict_get "ID" record) as [id|]; cbn [rbind]; [|discriminate].
  intros Hrow. injection Hrow as <-.
  assert (Hnd : NoDup (dict_keys excl_criteria)).
  { destruct (dict_mem "excl_criteria" record).
    - destruct (dict_get "excl_criteria" record) as [[st|crit]|]; cbn [rbind] in Hcrit;
        try discriminate.
      apply (criteria_of_NoDup _ _ _ Hcrit). constructor.
    - injection Hcrit as <-. constructor. }
  exists status, excl_criteria, inclusion_2.
  split; [reflexivity|]. split; [reflexivity|].
  rewrite !(dict_update_get _ _ _ Hnd). cbn [dict_get].
  repeat (rewrite decide_False by discriminate). rewrite !decide_True by reflexivity.
  split; [|split].
  - destruct (dict_get "inclusion_1" excl_criteria); [reflexivity|]. rewrite Hi1.
    reflexivity.
  - destruct (dict_get "inclusion_2" excl_criteria); reflexivity.
  - exact Hi2.
Qed.

Lemma export_row_inclusion_witness :
  exists row,
    export_row S_md_retrieved S_rev_prescreen_excluded S_rev_excluded S_rev_included
      S_rev_synthesized
      [("ID", FStr "Smith2020"); ("status", FState S_md_retrieved);
       ("excl_criteria", FStr "inclusion_2=maybe")] = Ok row
    /\ dict_get "inclusion_1" row = Some (FStr "yes")
    /\ dict_get "inclusion_2" row = Some (FStr "maybe").
Proof.
  eexists. split; [vm_compute; reflexivity|].
  match goal with
  | |- dict_get _ ?row = _ /\ _ =>
      assert (Hrow : export_row S_md_retrieved S_rev_prescreen_excluded
                       S_rev_excluded S_rev_included S_rev_synthesized
                       [("ID", FStr "Smith2020"); ("status", FState S_md_retrieved);
                        ("excl_criteria", FStr "inclusion_2=maybe")] = Ok row)
        by (vm_compute; reflexivity)
  end.
  destruct (export_row_inclusion _ _ _ _ _ _ _ Hrow)
    as (status & excl_criteria & inclusion_2 & Hst & Hcrit & Hi1 & Hi2 & _).
  vm_compute in Hst. injection Hst as <-.
  vm_compute in Hcrit. injection Hcrit as <-.
  split; [exact Hi1 | exact Hi2].
Defined.

(** X23. [export_table] raises [IndexError] for a record whose
    [excl_criteria] has a part without [=] between the semicolons, as an
    empty [excl_criteria] or one that ends with a semicolon has. *)
Theorem export_row_index_error {RecordState : Type} `{EqDecision RecordState}
    (md_retrieved rev_prescreen_excluded rev_excluded rev_included
       rev_synthesized : RecordState)
    (record : list (string * field RecordState)) (status : field RecordState)
    (criteria : string) :
  dict_get "status" record = Some status ->
  dict_get "excl_criteria" record = Some (FStr criteria) ->
  Exists (fun part => length (PyStr.split "="%char part) = 1)
    (PyStr.split ";"%char criteria) ->
  export_row md_retrieved rev_prescreen_excluded rev_excluded rev_included
    rev_synthesized record = Raise (OtherError "IndexError").
Proof.
  intros Hst Hcrit Hex. unfold export_row, field_of, dict_mem.
  rewrite Hst. cbn [rbind].
  destruct (inclusion _ _ _ _ _ status) as [inclusion_1 inclusion_2].
  rewrite Hcrit. cbn [rbind]. rewrite (criteria_of_index_error _ _ Hex). reflexivity.
Qed.

Lemma export_row_index_error_witness :
  export_row S_md_retrieved S_rev_prescreen_excluded S_rev_excluded S_rev_included
    S_rev_synthesized
    [("ID", FStr "Smith2020"); ("status", FState S_rev_excluded);
     ("excl_criteria", FStr "wrong_language=yes;")]
  = Raise (OtherError "IndexError").
Proof.
  apply (export_row_index_error S_md_retrieved S_rev_prescreen_excluded S_rev_excluded
           S_rev_included S_rev_synthesized _ (FState S_rev_excluded)
           "wrong_language=yes;"); [reflexivity | reflexivity |].
  apply Exists_cons_tl, Exists_cons_hd. reflexivity.
Defined.

(** ** The prescreen without data *)

(** X24. Whatever [get_data] raises, the operations that start with it
    raise as well, before they do anything: [create_prescreen_split]
    returns no command, and the command-line prescreen asks nothing, logs
    nothing and leaves the explanation as it is. A dataset without
    records is such a case ([ValueError]). *)
Theorem get_data_error_first {records : Type} (md_processed : string)
    (record_state_list next_records : list pyval) (e : exn) (create_split : Z)
    (recs : records) (split : list string) (st : PrescreenCLI.cli_state) :
  PrescreenData.get_data md_processed record_state_list next_records = Raise e ->
  PrescreenData.create_prescreen_split md_processed record_state_list next_records
    create_split = Raise e
  /\ PrescreenCLI.run_prescreen md_processed record_state_list next_records recs split st
     = (Raise e, st).
Proof.
  intros Hdata. unfold PrescreenData.create_prescreen_split, PrescreenCLI.run_prescreen,
    bind, lift.
  rewrite Hdata. split; reflexivity.
Qed.

Lemma get_data_error_first_witness :
  PrescreenCLI.run_prescreen "md_processed" [] [] tt []
    {| PrescreenCLI.inputs := ["y"]; PrescreenCLI.explanation := "";
       PrescreenCLI.trace := [] |}
  = (Raise ValueError,
     {| PrescreenCLI.inputs := ["y"]; PrescreenCLI.explanation := "";
        PrescreenCLI.trace := [] |}).
Proof.
  apply (get_data_error_first "md_processed" [] [] ValueError 2 tt []
           {| PrescreenCLI.inputs := ["y"]; PrescreenCLI.explanation := "";
              PrescreenCLI.trace := [] |} eq_refl).
Defined.

(** ** [ignore_not_available=True] *)

(** X26. With [ignore_not_available=True], [load_packages] is the
    stricter of the two modes: it returns only when every selected
    package is registered for the package type. A package that is not
    registered is not passed over; it ends the call, whether or not a
    module or a script of that name is there. *)
Theorem load_packages_ignoring_is_strict `{World} (self : PackageManager)
    (t : PackageEndpointType) (selected_packages : ref) (op : operation)
    (instantiate_objects : bool) (s : pystate)
    (res : list (string * loaded)) (s' : pystate) :
  Load.load_packages self t selected_packages op true instantiate_objects s
  = (Ok res, s') ->
  forall l, l ∈ list_at s selected_packages ->
    exists id registered metadata,
      identifier_of s l = Ok id
      /\ dict_get t (packages self) = Some registered
      /\ dict_get id registered = Some metadata.
Proof.
  intros Hload l Hl.
  destruct (load_packages_phases _ _ _ _ _ _ _ _ _ Hload)
    as (details & copies & s_c & l0 & pd1 & s1 & pd2' & Hd & _ & Hall & _ & _ & _
        & _ & _ & _ & _ & _ & _ & Hids).
  assert (Hid : exists id, identifier_of s l = Ok id).
  { apply list_elem_of_lookup in Hl as [i Hi].
    destruct (Forall2_lookup_l _ _ _ _ _ (copies_identifier _ _ _ _ Hall) Hi)
      as (r & Hr & Hidr).
    destruct (proj1 (Forall_forall _ _) Hids r (list_elem_of_lookup_2 _ _ _ Hr))
      as [id Hid].
    exists id. congruence. }
  destruct Hid as [id Hid].
  pose proof (selected_in_packages_dict _ _ _ _ _ _ _ _ _ _ _ Hload Hl Hid) as Hkey.
  destruct (load_packages_origin _ _ _ _ _ _ _ _ _ Hload)
    as (details' & pd2 & copies' & s_c' & s1' & Hd' & _ & _ & _ & Hinstl & Hnd
        & Horigin).
  destruct (instantiate_loop_endpoints _ _ _ _ _ Hd' _ _ _ Hinstl) as [Hkeys Hsome].
  rewrite Hkeys in Hkey. apply dict_get_key_Some in Hkey as [e2 He2].
  pose proof (proj1 (Forall_forall _ _) Hsome _ (dict_get_Some_elem _ _ _ He2))
    as [ep Hep].
  simpl in Hep.
  destruct (Horigin _ _ _ He2 Hep) as (cls & _ & registered & details'' & k & Hreg
                                       & _ & Hcase).
  exists id, registered.
  destruct (dict_get id registered) as [metadata|].
  - exists metadata. auto.
  - destruct Hcase as [Hfalse _]. discriminate.
Qed.

Lemma load_packages_ignoring_is_strict_witness :
  exists id registered metadata,
    identifier_of Demo.store 4 = Ok id
    /\ dict_get prescreen (packages Demo.manager) = Some registered
    /\ dict_get id registered = Some metadata.
Proof.
  apply (load_packages_ignoring_is_strict (H:=Demo.w) Demo.manager prescreen 3
           "prescreen_op" true Demo.store _ _ eq_refl 4).
  apply list_elem_of_further, list_elem_of_here.
Defined.
